(** * Gravity blog: the point-mass integrator, the star field and the
    rigid-body overlay

    A shallow embedding of the JavaScript sources.  Every numeric function is
    written once, over an interface of JavaScript's number operations, and read
    in two ways:

    - at [float], the kernel's IEEE-754 binary64 numbers with their correctly
      rounded operations and square root: the numbers of a JavaScript engine.
      This reading evaluates, and it is where the program is run on inputs;
    - at [R], the same program in exact real arithmetic, where the algebraic
      properties of the integrator are proved.

    The exact reading agrees with the program wherever nothing is divided by
    zero and nothing is rounded; theorems over [R] carry the hypotheses that
    exclude the first, and a property that rounding breaks is shown broken at
    [float].  Properties of the control flow alone are proved for any reading
    of the numbers. *)

From Stdlib Require Import ZArith Floats Reals Lra Lia List Bool String.
Import ListNotations.

Set Implicit Arguments.
Open Scope string_scope.
Open Scope list_scope.

(* ================================================================== *)
(** ** JavaScript numbers *)
(* ================================================================== *)

(** The operations the sources use on numbers.  [num_lt a b] is [a < b] and
    [num_le a b] is [a <= b]; JavaScript's [a > b] is [b < a]. *)
Class JsNumber (N : Type) : Type := {
  num_ofZ  : Z -> N;
  num_add  : N -> N -> N;
  num_sub  : N -> N -> N;
  num_mul  : N -> N -> N;
  num_div  : N -> N -> N;
  num_neg  : N -> N;
  num_sqrt : N -> N;
  num_min  : N -> N -> N;
  num_lt   : N -> N -> bool;
  num_le   : N -> N -> bool
}.

Declare Scope js_scope.
Delimit Scope js_scope with js.
Notation "a + b" := (num_add a b) : js_scope.
Notation "a - b" := (num_sub a b) : js_scope.
Notation "a * b" := (num_mul a b) : js_scope.
Notation "a / b" := (num_div a b) : js_scope.
Notation "- a" := (num_neg a) : js_scope.
Notation "a <? b" := (num_lt a b) : js_scope.
Notation "a <=? b" := (num_le a b) : js_scope.
Notation "a >? b" := (num_lt b a) (only parsing) : js_scope.

(** A decimal literal [m / 10^e], such as [0.0005 = decimal 5 4].  Both [m] and
    [10^e] are small integers, exact in binary64, and IEEE division rounds
    correctly, so at [float] this is the double the JavaScript literal denotes. *)
Definition decimal {N} `{JsNumber N} (m : Z) (e : nat) : N :=
  (num_ofZ m / num_ofZ (10 ^ Z.of_nat e))%js.

Definition int {N} `{JsNumber N} (z : Z) : N := num_ofZ z.

(** *** Exact reals *)

Definition Rltb (a b : R) : bool := if Rlt_dec a b then true else false.
Definition Rleb (a b : R) : bool := if Rle_dec a b then true else false.

#[export] Instance RealNumber : JsNumber R := {
  num_ofZ  := IZR;
  num_add  := Rplus;
  num_sub  := Rminus;
  num_mul  := Rmult;
  num_div  := Rdiv;
  num_neg  := Ropp;
  num_sqrt := R_sqrt.sqrt;
  num_min  := Rmin;
  num_lt   := Rltb;
  num_le   := Rleb
}.

(** *** IEEE-754 doubles *)

Definition float_ofZ (z : Z) : float :=
  match z with
  | Z0 => PrimFloat.zero
  | Zpos _ => PrimFloat.of_uint63 (Uint63.of_Z z)
  | Zneg p => PrimFloat.opp (PrimFloat.of_uint63 (Uint63.of_Z (Zpos p)))
  end.

(** [Math.min]: NaN if either argument is NaN. *)
Definition float_min (a b : float) : float :=
  if PrimFloat.is_nan a then a
  else if PrimFloat.is_nan b then b
  else if PrimFloat.ltb b a then b else a.

#[export] Instance Float64 : JsNumber float := {
  num_ofZ  := float_ofZ;
  num_add  := PrimFloat.add;
  num_sub  := PrimFloat.sub;
  num_mul  := PrimFloat.mul;
  num_div  := PrimFloat.div;
  num_neg  := PrimFloat.opp;
  num_sqrt := PrimFloat.sqrt;
  num_min  := float_min;
  num_lt   := PrimFloat.ltb;
  num_le   := PrimFloat.leb
}.

(** [Number.isFinite]. *)
Definition float_finite (f : float) : bool :=
  negb (PrimFloat.is_nan f) && negb (PrimFloat.is_infinity f).

(** The exact value of a finite double, scaled by [2^1074] to an integer
    (the least exponent of a double is [-1074]). *)
Definition exactScaled (f : float) : option Z :=
  match Prim2SF f with
  | S754_zero _ => Some 0%Z
  | S754_finite s m e =>
      Some ((if s then Z.neg m else Z.pos m) * 2 ^ (1074 + e))%Z
  | _ => None
  end.

(** Whether the vector [(a, b)] is longer than [c >= 0], in exact
    arithmetic on the values of the three doubles. *)
Definition longerThan (a b c : float) : option bool :=
  match exactScaled a, exactScaled b, exactScaled c with
  | Some za, Some zb, Some zc => Some (zc * zc <? za * za + zb * zb)%Z
  | _, _, _ => None
  end.

(* ================================================================== *)
(** ** physics.js: [PhysicsEntity] and [PhysicsWorld] *)
(* ================================================================== *)

Module Physics.
Section WithNumbers.
Context {N : Type} `{JsNumber N}.
Local Open Scope js_scope.

(** [window.innerWidth], [window.innerHeight]. *)
Record Window : Type := {
  innerWidth : N;
  innerHeight : N
}.

(** [element.getBoundingClientRect()]. *)
Record DOMRect : Type := {
  left : N;
  top : N;
  width : N;
  height : N
}.

Record PhysicsEntity : Type := {
  x : N;  y : N;
  vx : N; vy : N;
  ax : N; ay : N;
  mass : N;
  damping : N;
  maxSpeed : N;
  originalX : N; originalY : N
}.

(** [new PhysicsEntity(element, mass)]; [r1], [r2] are the two [Math.random()]
    draws of the initial velocity. *)
Definition newEntity (rect : DOMRect) (m : N) (r1 r2 : N) : PhysicsEntity :=
  let x0 := left rect + width rect / int 2 in
  let y0 := top rect + height rect / int 2 in
  {| x := x0; y := y0;
     vx := (r1 - decimal 5 1) * decimal 5 1;
     vy := (r2 - decimal 5 1) * decimal 5 1;
     ax := int 0; ay := int 0;
     mass := m;
     damping := decimal 98 2;
     maxSpeed := int 3;
     originalX := x0; originalY := y0 |}.

Definition setPosition (px py : N) (e : PhysicsEntity) : PhysicsEntity :=
  {| x := px; y := py; vx := vx e; vy := vy e; ax := ax e; ay := ay e;
     mass := mass e; damping := damping e; maxSpeed := maxSpeed e;
     originalX := originalX e; originalY := originalY e |}.

Definition setVelocity (wx wy : N) (e : PhysicsEntity) : PhysicsEntity :=
  {| x := x e; y := y e; vx := wx; vy := wy; ax := ax e; ay := ay e;
     mass := mass e; damping := damping e; maxSpeed := maxSpeed e;
     originalX := originalX e; originalY := originalY e |}.

Definition setAcceleration (bx by_ : N) (e : PhysicsEntity) : PhysicsEntity :=
  {| x := x e; y := y e; vx := vx e; vy := vy e; ax := bx; ay := by_;
     mass := mass e; damping := damping e; maxSpeed := maxSpeed e;
     originalX := originalX e; originalY := originalY e |}.

(** [applyForce(fx, fy)]: [this.ax += fx / this.mass; this.ay += fy / this.mass]. *)
Definition applyForce (fx fy : N) (e : PhysicsEntity) : PhysicsEntity :=
  setAcceleration (ax e + fx / mass e) (ay e + fy / mass e) e.

(** [distanceTo(x, y)]. *)
Definition distanceTo (px py : N) (e : PhysicsEntity) : N :=
  let dx := px - x e in
  let dy := py - y e in
  num_sqrt (dx * dx + dy * dy).

(** *** [update(dt)], block by block *)

Definition springStrength : N := decimal 5 4.
Definition margin : N := int 100.

(** "Apply spring force to original position (weak)". *)
Definition springForce (e : PhysicsEntity) : PhysicsEntity :=
  let dx := originalX e - x e in
  let dy := originalY e - y e in
  applyForce (dx * springStrength) (dy * springStrength) e.

(** "Update velocity". *)
Definition integrateVelocity (dt : N) (e : PhysicsEntity) : PhysicsEntity :=
  setVelocity (vx e + ax e * dt) (vy e + ay e * dt) e.

(** "Apply damping". *)
Definition applyDamping (e : PhysicsEntity) : PhysicsEntity :=
  setVelocity (vx e * damping e) (vy e * damping e) e.

(** "Limit speed". *)
Definition limitSpeed (e : PhysicsEntity) : PhysicsEntity :=
  let speed := num_sqrt (vx e * vx e + vy e * vy e) in
  if speed >? maxSpeed e
  then setVelocity ((vx e / speed) * maxSpeed e) ((vy e / speed) * maxSpeed e) e
  else e.

(** "Update position". *)
Definition integratePosition (dt : N) (e : PhysicsEntity) : PhysicsEntity :=
  setPosition (x e + vx e * dt) (y e + vy e * dt) e.

(** "Boundary check with bounce", the x axis. *)
Definition bounceX (win : Window) (e : PhysicsEntity) : PhysicsEntity :=
  if x e <? margin
  then setVelocity (vx e * - decimal 5 1) (vy e) (setPosition margin (y e) e)
  else if x e >? innerWidth win - margin
  then setVelocity (vx e * - decimal 5 1) (vy e)
         (setPosition (innerWidth win - margin) (y e) e)
  else e.

(** "Boundary check with bounce", the y axis. *)
Definition bounceY (win : Window) (e : PhysicsEntity) : PhysicsEntity :=
  if y e <? margin
  then setVelocity (vx e) (vy e * - decimal 5 1) (setPosition (x e) margin e)
  else if y e >? innerHeight win - margin
  then setVelocity (vx e) (vy e * - decimal 5 1)
         (setPosition (x e) (innerHeight win - margin) e)
  else e.

Definition boundary (win : Window) (e : PhysicsEntity) : PhysicsEntity :=
  bounceY win (bounceX win e).

(** "Reset acceleration". *)
Definition resetAcceleration (e : PhysicsEntity) : PhysicsEntity :=
  setAcceleration (int 0) (int 0) e.

(** The entity as it stands when the boundary check begins. *)
Definition beforeBoundary (dt : N) (e : PhysicsEntity) : PhysicsEntity :=
  integratePosition dt
    (limitSpeed (applyDamping (integrateVelocity dt (springForce e)))).

(** [update(dt)].  The closing [this.render()] writes the element's style from
    [x], [y] and changes no field of the entity. *)
Definition update (win : Window) (dt : N) (e : PhysicsEntity) : PhysicsEntity :=
  resetAcceleration (boundary win (beforeBoundary dt e)).

(** [speed] of an entity, as [update] computes it. *)
Definition speedOf (e : PhysicsEntity) : N :=
  num_sqrt (vx e * vx e + vy e * vy e).

End WithNumbers.
End Physics.

Module World.
Import Physics.
Section WithNumbers.
Context {N : Type} `{JsNumber N}.
Local Open Scope js_scope.

(** [this.mouse = { x, y }], the field source. *)
Record Mouse : Type := {
  mouseX : N;
  mouseY : N
}.

Record PhysicsWorld : Type := {
  entities : list (PhysicsEntity (N:=N));
  mouse : Mouse;
  gravity : N;
  gravityRadius : N;
  repulsionRadius : N;
  lastTime : N
}.

(** [new PhysicsWorld()], with [now] the value of [performance.now()]. *)
Definition newWorld (win : Window) (now : N) : PhysicsWorld :=
  {| entities := [];
     mouse := {| mouseX := innerWidth win / int 2;
                 mouseY := innerHeight win / int 2 |};
     gravity := decimal 3 1;
     gravityRadius := int 300;
     repulsionRadius := int 100;
     lastTime := now |}.

(** The [mousemove] listener of [initMouseTracking]. *)
Definition onMouseMove (clientX clientY : N) (w : PhysicsWorld) : PhysicsWorld :=
  {| entities := entities w;
     mouse := {| mouseX := clientX; mouseY := clientY |};
     gravity := gravity w; gravityRadius := gravityRadius w;
     repulsionRadius := repulsionRadius w; lastTime := lastTime w |}.

(** [addEntity(element, mass)]; the new entity is also the return value. *)
Definition addEntity (e : PhysicsEntity) (w : PhysicsWorld) : PhysicsWorld :=
  {| entities := entities w ++ [e];
     mouse := mouse w;
     gravity := gravity w; gravityRadius := gravityRadius w;
     repulsionRadius := repulsionRadius w; lastTime := lastTime w |}.

(** [applyGravity(entity)]. *)
Definition applyGravity (w : PhysicsWorld) (e : PhysicsEntity) : PhysicsEntity :=
  let dx := mouseX (mouse w) - x e in
  let dy := mouseY (mouse w) - y e in
  let distance := num_sqrt (dx * dx + dy * dy) in
  if (distance <? gravityRadius w) && (distance >? repulsionRadius w)
  then
    let force := (gravity w * mass e) / (distance * decimal 1 2) in
    let fx := (dx / distance) * force in
    let fy := (dy / distance) * force in
    applyForce fx fy e
  else if (distance <=? repulsionRadius w) && (distance >? int 10)
  then
    let repulsion := int 2 in
    let force := (repulsion * mass e) / (distance * decimal 1 2) in
    let fx := - (dx / distance) * force in
    let fy := - (dy / distance) * force in
    applyForce fx fy e
  else e.

(** The body of the double loop of [applyEntityRepulsion], for the pair
    [e1 = entities[i]], [e2 = entities[j]]. *)
Definition repelPair (e1 e2 : PhysicsEntity) : PhysicsEntity * PhysicsEntity :=
  let dx := x e2 - x e1 in
  let dy := y e2 - y e1 in
  let distance := num_sqrt (dx * dx + dy * dy) in
  let minDistance := int 150 in
  if (distance <? minDistance) && (distance >? int 0)
  then
    let force := decimal 5 1 in
    let fx := - (dx / distance) * force in
    let fy := - (dy / distance) * force in
    (applyForce fx fy e1, applyForce (- fx) (- fy) e2)
  else (e1, e2).

(** [entities[i] = e]: the entity at index [i] after it was mutated. *)
Fixpoint setNth (i : nat) (e : PhysicsEntity (N:=N))
  (es : list (PhysicsEntity (N:=N))) : list (PhysicsEntity (N:=N)) :=
  match es, i with
  | [], _ => es
  | _ :: rest, O => e :: rest
  | e0 :: rest, S i' => e0 :: setNth i' e rest
  end.

(** The inner loop [for (let j = ...; j < this.entities.length; j++)] from
    index [j] on, with [count] iterations to go. *)
Fixpoint innerLoop (i j count : nat) (es : list PhysicsEntity)
  : list PhysicsEntity :=
  match count with
  | O => es
  | S c =>
      match nth_error es i, nth_error es j with
      | Some e1, Some e2 =>
          let '(e1', e2') := repelPair e1 e2 in
          innerLoop i (S j) c (setNth j e2' (setNth i e1' es))
      | _, _ => es
      end
  end.

(** The outer loop [for (let i = ...; i < this.entities.length; i++)] from
    index [i] on, with [count] iterations to go. *)
Fixpoint outerLoop (i count : nat) (es : list PhysicsEntity)
  : list PhysicsEntity :=
  match count with
  | O => es
  | S c => outerLoop (S i) c (innerLoop i (S i) (List.length es - S i) es)
  end.

(** [applyEntityRepulsion()]. *)
Definition applyEntityRepulsion (es : list PhysicsEntity) : list PhysicsEntity :=
  outerLoop 0 (List.length es) es.

(** The same pass by recursion on the list: [e1] meets every later entity in
    turn and accumulates; each later entity receives its share. *)
Fixpoint repelAgainst (e1 : PhysicsEntity) (later : list PhysicsEntity)
  : PhysicsEntity * list PhysicsEntity :=
  match later with
  | [] => (e1, [])
  | e2 :: rest =>
      let '(e1', e2') := repelPair e1 e2 in
      let '(e1'', rest') := repelAgainst e1' rest in
      (e1'', e2' :: rest')
  end.

Fixpoint repulsionLoop (fuel : nat) (es : list PhysicsEntity)
  : list PhysicsEntity :=
  match fuel, es with
  | S k, e1 :: later =>
      let '(e1', later') := repelAgainst e1 later in
      e1' :: repulsionLoop k later'
  | _, _ => es
  end.

(** [Math.min((currentTime - this.lastTime) / 16, 2)]. *)
Definition frameDelta (currentTime : N) (w : PhysicsWorld) : N :=
  num_min ((currentTime - lastTime w) / int 16) (int 2).

(** [update()], with [currentTime] the value of [performance.now()]. *)
Definition worldUpdate (win : Window) (currentTime : N) (w : PhysicsWorld)
  : PhysicsWorld :=
  let dt := frameDelta currentTime w in
  let pulled := map (applyGravity w) (entities w) in
  let repelled := applyEntityRepulsion pulled in
  {| entities := map (update win dt) repelled;
     mouse := mouse w;
     gravity := gravity w; gravityRadius := gravityRadius w;
     repulsionRadius := repulsionRadius w;
     lastTime := currentTime |}.

(** *** main.js: the impulses of [GravityBlog] *)

(** The body of [applyClickForce(x, y)] for one entity. *)
Definition clickForce (cx cy : N) (e : PhysicsEntity) : PhysicsEntity :=
  let dx := x e - cx in
  let dy := y e - cy in
  let distance := num_sqrt (dx * dx + dy * dy) in
  if (distance <? int 300) && (distance >? int 0)
  then
    let force := int 10 in
    let fx := (dx / distance) * force in
    let fy := (dy / distance) * force in
    applyForce fx fy e
  else e.

Definition applyClickForce (cx cy : N) (w : PhysicsWorld) : PhysicsWorld :=
  {| entities := map (clickForce cx cy) (entities w);
     mouse := mouse w;
     gravity := gravity w; gravityRadius := gravityRadius w;
     repulsionRadius := repulsionRadius w; lastTime := lastTime w |}.

(** The body of [resetPositions()] for one entity. *)
Definition resetPosition (e : PhysicsEntity) : PhysicsEntity :=
  let e0 := setVelocity (int 0) (int 0) e in
  let dx := originalX e0 - x e0 in
  let dy := originalY e0 - y e0 in
  applyForce (dx * decimal 1 1) (dy * decimal 1 1) e0.

End WithNumbers.
End World.

(* ================================================================== *)
(** ** particles.js: the star field *)
(* ================================================================== *)

Module Particles.
Section WithNumbers.
Context {N : Type} `{JsNumber N}.
Local Open Scope js_scope.

Record Particle : Type := {
  x : N; y : N; z : N;
  size : N; baseSize : N;
  speedX : N; speedY : N;
  brightness : N;
  twinkleSpeed : N; twinkleOffset : N
}.

Definition moveTo (px py : N) (p : Particle) : Particle :=
  {| x := px; y := py; z := z p; size := size p; baseSize := baseSize p;
     speedX := speedX p; speedY := speedY p; brightness := brightness p;
     twinkleSpeed := twinkleSpeed p; twinkleOffset := twinkleOffset p |}.

(** "Drift". *)
Definition drift (p : Particle) : Particle :=
  moveTo (x p + speedX p) (y p + speedY p) p.

(** "Mouse influence": the pointer nudge, with [this.mouse] at [(mx, my)]. *)
Definition mouseInfluence (mx my : N) (p : Particle) : Particle :=
  let dx := mx - x p in
  let dy := my - y p in
  let distance := num_sqrt (dx * dx + dy * dy) in
  let influenceRadius := int 200 in
  if distance <? influenceRadius
  then
    let force := (influenceRadius - distance) / influenceRadius in
    moveTo (x p - (dx / distance) * force * decimal 5 1)
           (y p - (dy / distance) * force * decimal 5 1) p
  else p.

(** "Wrap around edges": four [if]s in sequence, none an [else]. *)
Definition wrap (canvasWidth canvasHeight : N) (p : Particle) : Particle :=
  let p1 := if x p <? int 0 then moveTo canvasWidth (y p) p else p in
  let p2 := if x p1 >? canvasWidth then moveTo (int 0) (y p1) p1 else p1 in
  let p3 := if y p2 <? int 0 then moveTo (x p2) canvasHeight p2 else p2 in
  if y p3 >? canvasHeight then moveTo (x p3) (int 0) p3 else p3.

(** [updateParticle(p)]. *)
Definition updateParticle (mx my canvasWidth canvasHeight : N) (p : Particle)
  : Particle :=
  wrap canvasWidth canvasHeight (mouseInfluence mx my (drift p)).

End WithNumbers.
End Particles.

(* ================================================================== *)
(** ** The page: elements, console, exceptions *)
(* ================================================================== *)

Module Page.

(** What the sources ask of an element: whether it is a canvas and, if so,
    whether [getContext('2d')] yields a context. *)
Inductive Element : Type :=
| Canvas (context2d : bool)
| Other.

Record Document : Type := {
  getElementById : string -> option Element;
  querySelector : string -> option Element
}.

Inductive Level : Type := Log | Error.
Definition Console : Type := list (Level * string).

Inductive JsError : Type := TypeError (what : string).

(** How a call ends: it returns, or an exception leaves it. *)
Inductive Completion (A : Type) : Type :=
| Return (a : A)
| Throw (err : JsError).
Arguments Return {A} a.
Arguments Throw {A} err.

Definition throws {A} (c : Completion A) : bool :=
  match c with Throw _ => true | Return _ => false end.

End Page.

Module StarField.
Import Page.

(** What [new ParticleSystem(canvas)] leaves behind when it returns. *)
Inductive ParticleSystem : Type := Animating.

(** [new ParticleSystem(canvas)].  The constructor reads [canvas.getContext]
    first; [animate()], its last call, writes [this.ctx.fillStyle]. *)
Definition newParticleSystem (canvas : option Element)
  : Console * Completion ParticleSystem :=
  match canvas with
  | None =>
      ([], Throw (TypeError "Cannot read properties of null (reading 'getContext')"))
  | Some Other =>
      ([], Throw (TypeError "canvas.getContext is not a function"))
  | Some (Canvas false) =>
      ([], Throw (TypeError "Cannot set properties of null (setting 'fillStyle')"))
  | Some (Canvas true) => ([], Return Animating)
  end.

(** The [DOMContentLoaded] listener of particles.js. *)
Definition onDOMContentLoaded (doc : Document)
  : Console * Completion ParticleSystem :=
  let canvas := getElementById doc "particles" in
  newParticleSystem canvas.

End StarField.

Module GravityBlog.
Import Page.

(** [createTitleLetters()]: the loop body calls [container.appendChild] for
    each of the seven letters of "GRAVITY". *)
Definition createTitleLetters (doc : Document) : Console * Completion nat :=
  match getElementById doc "title-letters" with
  | None =>
      ([], Throw (TypeError "Cannot read properties of null (reading 'appendChild')"))
  | Some _ => ([], Return (String.length "GRAVITY"))
  end.

(** [initCursor()]: [updateCursor()] runs once at once and writes
    [cursor.style.left]. *)
Definition initCursor (doc : Document) : Console * Completion unit :=
  match querySelector doc ".gravity-cursor" with
  | None =>
      ([], Throw (TypeError "Cannot read properties of null (reading 'style')"))
  | Some _ => ([], Return tt)
  end.

(** [updateEntityCount()]: guarded by [if (counter)]. *)
Definition updateEntityCount (doc : Document) : Console * Completion bool :=
  match getElementById doc "entity-count" with
  | None => ([], Return false)
  | Some _ => ([], Return true)
  end.

(** [setup()]: [initPhysics] needs no element; then the three above in turn. *)
Definition setup (doc : Document) : Console * Completion unit :=
  match createTitleLetters doc with
  | (out, Throw err) => (out, Throw err)
  | (out, Return _) =>
      match initCursor doc with
      | (out', Throw err) => (out ++ out', Throw err)
      | (out', Return _) =>
          match updateEntityCount doc with
          | (out'', Throw err) => (out ++ out' ++ out'', Throw err)
          | (out'', Return _) => (out ++ out' ++ out'', Return tt)
          end
      end
  end.

End GravityBlog.

(* ================================================================== *)
(** ** mouse-tracker.js *)
(* ================================================================== *)

Module MouseTracker.
Import Page.
Section WithNumbers.
Context {N : Type} `{JsNumber N}.
Local Open Scope js_scope.

Record Position : Type := {
  x : N;
  y : N
}.

(** The module state: [mousePosition] and [isTracking]. *)
Record Tracker : Type := {
  mousePosition : Position;
  isTracking : bool
}.

(** The state when the module has loaded. *)
Definition loaded : Tracker :=
  {| mousePosition := {| x := int 0; y := int 0 |}; isTracking := false |}.

(** A pointer event on the canvas.  [rectLeft], [rectTop] are the canvas'
    [getBoundingClientRect()] when the event fires; [touches] lists the
    [clientX], [clientY] of [event.touches]. *)
Inductive Event : Type :=
| MouseMove (clientX clientY rectLeft rectTop : N)
| MouseEnter
| MouseLeave
| TouchStart (touches : list (N * N)) (rectLeft rectTop : N)
| TouchMove (touches : list (N * N)) (rectLeft rectTop : N)
| TouchEnd.

Definition eventType (ev : Event) : string :=
  match ev with
  | MouseMove _ _ _ _ => "mousemove"
  | MouseEnter => "mouseenter"
  | MouseLeave => "mouseleave"
  | TouchStart _ _ _ => "touchstart"
  | TouchMove _ _ _ => "touchmove"
  | TouchEnd => "touchend"
  end.

(** [initMouseTracker(canvas)]: the event types it listens to from then on. *)
Definition initMouseTracker (canvas : option Element) (isTouchDevice : bool)
  : Console * list string :=
  match canvas with
  | None => ([(Error, "Canvas element required for mouse tracking")], [])
  | Some _ =>
      ([(Log, "Mouse tracker initialized")],
       ["mousemove"; "mouseenter"; "mouseleave"]
       ++ (if isTouchDevice then ["touchstart"; "touchmove"; "touchend"] else []))
  end.

Definition handleMouseMove (clientX clientY rectLeft rectTop : N) (t : Tracker)
  : Tracker :=
  {| mousePosition := {| x := clientX - rectLeft; y := clientY - rectTop |};
     isTracking := true |}.

Definition handleTouch (touches : list (N * N)) (rectLeft rectTop : N)
  (t : Tracker) : Tracker :=
  match touches with
  | (clientX, clientY) :: _ =>
      {| mousePosition := {| x := clientX - rectLeft; y := clientY - rectTop |};
         isTracking := true |}
  | [] => t
  end.

Definition setTracking (b : bool) (t : Tracker) : Tracker :=
  {| mousePosition := mousePosition t; isTracking := b |}.

(** The listener of each event. *)
Definition handle (ev : Event) (t : Tracker) : Tracker :=
  match ev with
  | MouseMove cx cy l tp => handleMouseMove cx cy l tp t
  | MouseEnter => setTracking true t
  | MouseLeave => setTracking false t
  | TouchStart ts l tp => handleTouch ts l tp t
  | TouchMove ts l tp => handleTouch ts l tp t
  | TouchEnd => setTracking false t
  end.

(** An event reaches its listener when its type was registered. *)
Definition dispatch (listening : list string) (ev : Event) (t : Tracker)
  : Tracker :=
  if existsb (String.eqb (eventType ev)) listening then handle ev t else t.

(** The events of a session, oldest first. *)
Definition deliver (listening : list string) (evs : list Event) (t : Tracker)
  : Tracker :=
  fold_left (fun s ev => dispatch listening ev s) evs t.

(** [getMousePosition()]: [null] is [None]. *)
Definition getMousePosition (t : Tracker) : option Position :=
  if isTracking t then Some (mousePosition t) else None.

Definition isMouseTracking (t : Tracker) : bool := isTracking t.

End WithNumbers.
End MouseTracker.

(* ================================================================== *)
(** ** physics-engine.js: the rigid-body overlay *)
(* ================================================================== *)

Module PhysicsEngine.
Import Page.

(** [localStorage]: the newest entry of a key comes first. *)
Definition Storage : Type := list (string * string).

Fixpoint getItem (key : string) (st : Storage) : option string :=
  match st with
  | [] => None
  | (k, v) :: rest => if String.eqb k key then Some v else getItem key rest
  end.

Definition setItem (key value : string) (st : Storage) : Storage :=
  (key, value) :: filter (fun kv => negb (String.eqb (fst kv) key)) st.

(** The module state together with what it reaches in the page:
    [animationId] is [null] or the handle of the frame that is pending,
    [issued] counts the handles [requestAnimationFrame] has given out (they
    are positive, hence truthy), [toggleBtn] is the [innerHTML] this module
    last gave [#physics-toggle], when the page has that button (the attribute
    is quoted with apostrophes here), and [listening] says whether the
    click and keydown listeners of the toggle were added. *)
Record Engine : Type := {
  isPaused : bool;
  animationId : option nat;
  issued : nat;
  localStorage : Storage;
  toggleBtn : option string;
  listening : bool;
  hidden : bool
}.

(** The frame loop runs when a frame is pending. *)
Definition running (s : Engine) : bool :=
  match animationId s with Some _ => true | None => false end.

(** The state when the module has loaded, in a page with storage [st]. *)
Definition loaded (doc : Document) (st : Storage) : Engine :=
  {| isPaused := false;
     animationId := None;
     issued := 0;
     localStorage := st;
     toggleBtn := match getElementById doc "physics-toggle" with
                  | Some _ => Some ""
                  | None => None
                  end;
     listening := false;
     hidden := false |}.

(** [animationId = requestAnimationFrame(animate)]. *)
Definition requestFrame (s : Engine) : Engine :=
  {| isPaused := isPaused s;
     animationId := Some (S (issued s));
     issued := S (issued s);
     localStorage := localStorage s;
     toggleBtn := toggleBtn s;
     listening := listening s;
     hidden := hidden s |}.

(** [startSimulation()]. *)
Definition startSimulation (s : Engine) : Engine :=
  match animationId s with
  | Some _ => s
  | None => requestFrame s
  end.

(** [animate(timestamp)]: the pending frame fires and asks for the next one;
    the throttle decides only whether this frame also updates and renders. *)
Definition animate (s : Engine) : Engine :=
  match animationId s with
  | Some _ => requestFrame s
  | None => s
  end.

Definition setButton (html : string) (s : Engine) : Engine :=
  {| isPaused := isPaused s;
     animationId := animationId s;
     issued := issued s;
     localStorage := localStorage s;
     toggleBtn := match toggleBtn s with Some _ => Some html | None => None end;
     listening := listening s;
     hidden := hidden s |}.

Definition store (value : string) (s : Engine) : Engine :=
  {| isPaused := isPaused s;
     animationId := animationId s;
     issued := issued s;
     localStorage := setItem "physics-paused" value (localStorage s);
     toggleBtn := toggleBtn s;
     listening := listening s;
     hidden := hidden s |}.

(** [pauseSimulation()]. *)
Definition pauseSimulation (s : Engine) : Engine :=
  let s1 := {| isPaused := true;
               animationId := None;
               issued := issued s;
               localStorage := localStorage s;
               toggleBtn := toggleBtn s;
               listening := listening s;
               hidden := hidden s |} in
  store "true" (setButton "<i class='fas fa-play'></i>" s1).

(** [resumeSimulation()]. *)
Definition resumeSimulation (s : Engine) : Engine :=
  let s1 := {| isPaused := false;
               animationId := animationId s;
               issued := issued s;
               localStorage := localStorage s;
               toggleBtn := toggleBtn s;
               listening := listening s;
               hidden := hidden s |} in
  store "false" (setButton "<i class='fas fa-pause'></i>" (startSimulation s1)).

(** [setupPauseToggle()]. *)
Definition setupPauseToggle (s : Engine) : Engine :=
  match toggleBtn s with
  | None => s
  | Some _ =>
      let s1 :=
        match getItem "physics-paused" (localStorage s) with
        | Some "true" => pauseSimulation s
        | _ => s
        end in
      {| isPaused := isPaused s1;
         animationId := animationId s1;
         issued := issued s1;
         localStorage := localStorage s1;
         toggleBtn := toggleBtn s1;
         listening := true;
         hidden := hidden s1 |}
  end.

(** The click listener of the toggle button. *)
Definition onToggleClick (s : Engine) : Engine :=
  if listening s
  then if isPaused s then resumeSimulation s else pauseSimulation s
  else s.

(** The keydown listener: [code] is [e.code], [activeTag] is
    [document.activeElement.tagName]; [toggleBtn.click()] runs the click
    listener. *)
Definition onKeydown (code activeTag : string) (s : Engine) : Engine :=
  if listening s
  then
    if String.eqb code "Space" || String.eqb code "KeyP"
    then
      if negb (existsb (String.eqb activeTag) ["INPUT"; "TEXTAREA"])
      then onToggleClick s
      else s
    else s
  else s.

(** The [visibilitychange] listener, after [document.hidden] became [h]. *)
Definition onVisibilityChange (h : bool) (s : Engine) : Engine :=
  let s1 := {| isPaused := isPaused s;
               animationId := animationId s;
               issued := issued s;
               localStorage := localStorage s;
               toggleBtn := toggleBtn s;
               listening := listening s;
               hidden := h |} in
  if hidden s1 && negb (isPaused s1)
  then pauseSimulation s1
  else if negb (hidden s1) && isPaused s1
  then
    match getItem "physics-paused" (localStorage s1) with
    | Some "true" => s1
    | _ => resumeSimulation s1
    end
  else s1.

(** [initPhysicsEngine()], with [reducedMotion] the answer of
    [matchMedia('(prefers-reduced-motion: reduce)')].  Creating the solver's
    world, the walls and the bodies touches no state modelled here. *)
Definition initPhysicsEngine (reducedMotion : bool) (doc : Document) (s : Engine)
  : Console * Completion Engine :=
  if reducedMotion
  then ([(Log, "Reduced motion preferred - skipping physics")], Return s)
  else
    match getElementById doc "physics-canvas" with
    | None => ([(Error, "Canvas element not found")], Return s)
    | Some Other =>
        ([], Throw (TypeError "canvas.getContext is not a function"))
    | Some (Canvas false) =>
        ([(Error, "Could not get canvas context")], Return s)
    | Some (Canvas true) =>
        ([(Log, "Mouse tracker initialized");
          (Log, "Physics engine initialized with")],
         Return (startSimulation (setupPauseToggle s)))
    end.

(** The user-visible events of a session. *)
Inductive Event : Type :=
| ToggleClick
| Keydown (code activeTag : string)
| VisibilityChange (nowHidden : bool)
| Frame.

Definition step (ev : Event) (s : Engine) : Engine :=
  match ev with
  | ToggleClick => onToggleClick s
  | Keydown code tag => onKeydown code tag s
  | VisibilityChange h => onVisibilityChange h s
  | Frame => animate s
  end.

Definition run (evs : list Event) (s : Engine) : Engine :=
  fold_left (fun st ev => step ev st) evs s.

Section WithNumbers.
Context {N : Type} `{JsNumber N}.
Local Open Scope js_scope.

(** [CONFIG], as far as [applyMouseForce] reads it. *)
Definition interactionRadius (isTouchDevice : bool) : N :=
  if isTouchDevice then int 150 else int 250.
Definition forceMagnitude : N := decimal 5 4.

(** A body of the solver, as far as this module reads it: [particle.position]. *)
Record Body : Type := {
  positionX : N;
  positionY : N
}.

(** The force [applyMouseForce] computes for one body, if any. *)
Definition mouseForce (isTouchDevice : bool) (mouse : MouseTracker.Position)
  (particle : Body) : option (N * N) :=
  let dx := MouseTracker.x mouse - positionX particle in
  let dy := MouseTracker.y mouse - positionY particle in
  let distance := num_sqrt (dx * dx + dy * dy) in
  if (distance <? interactionRadius isTouchDevice) && (distance >? int 0)
  then Some ((dx / distance) * forceMagnitude, (dy / distance) * forceMagnitude)
  else None.

(** [applyMouseForce()]: the calls [Matter.Body.applyForce(particle,
    particle.position, force)] it makes, in order, each as the body and the
    force.  [mouse] is the value of [getMousePosition()], [particles] the
    module variable ([None] before initialisation). *)
Definition applyMouseForce (isTouchDevice : bool)
  (mouse : option MouseTracker.Position) (particles : option (list Body))
  : list (Body * (N * N)) :=
  match mouse, particles with
  | Some m, Some ps =>
      flat_map (fun particle =>
                  match mouseForce isTouchDevice m particle with
                  | Some force => [(particle, force)]
                  | None => []
                  end) ps
  | _, _ => []
  end.

End WithNumbers.
End PhysicsEngine.

(* ================================================================== *)
(** ** [Math.sin], [Math.cos], [Math.PI], [Math.floor] *)
(* ================================================================== *)

(** The kernel's doubles have no trigonometry, so the functions that call
    [Math.sin] or [Math.cos] are read at [R] only.  [num_floor] is
    [Math.floor] where the sources use it, to index an array. *)
Class JsMath (N : Type) : Type := {
  num_sin : N -> N;
  num_cos : N -> N;
  num_PI : N;
  num_floor : N -> Z
}.

#[export] Instance RealMath : JsMath R := {
  num_sin := sin;
  num_cos := cos;
  num_PI := PI;
  num_floor := Int_part
}.

(** The truth value of a number: [0], [-0] and [NaN] are falsy. *)
Definition float_truthy (f : float) : bool :=
  negb (PrimFloat.is_nan f || PrimFloat.eqb f PrimFloat.zero).

(* ================================================================== *)
(** ** main.js: the cursor, the title letters, scatter, the card masses *)
(* ================================================================== *)

Module Cursor.
Section WithNumbers.
Context {N : Type} `{JsNumber N}.
Local Open Scope js_scope.

(** The four variables of [initCursor]. *)
Record Follower : Type := {
  mouseX : N; mouseY : N;
  cursorX : N; cursorY : N
}.

Definition start : Follower :=
  {| mouseX := int 0; mouseY := int 0; cursorX := int 0; cursorY := int 0 |}.

(** The [mousemove] listener. *)
Definition onMouseMove (clientX clientY : N) (f : Follower) : Follower :=
  {| mouseX := clientX; mouseY := clientY;
     cursorX := cursorX f; cursorY := cursorY f |}.

(** [updateCursor()], one animation frame; [cursor.style.left] and
    [cursor.style.top] are then [cursorX] and [cursorY] in pixels. *)
Definition updateCursor (f : Follower) : Follower :=
  let dx := mouseX f - cursorX f in
  let dy := mouseY f - cursorY f in
  {| mouseX := mouseX f; mouseY := mouseY f;
     cursorX := cursorX f + dx * decimal 2 1;
     cursorY := cursorY f + dy * decimal 2 1 |}.

(** [n] frames with no pointer event in between. *)
Definition frames (n : nat) (f : Follower) : Follower :=
  Nat.iter n updateCursor f.

End WithNumbers.
End Cursor.

Module Title.
Import Physics.
Section WithNumbers.
Context {N : Type} `{JsNumber N} `{JsMath N}.
Local Open Scope js_scope.

(** [this.titleText = "GRAVITY"]. *)
Definition titleText : string := "GRAVITY".

Definition radius : N := int 200.

(** The angle of letter [i] in [createTitleLetters()]. *)
Definition letterAngle (i : nat) : N :=
  (int (Z.of_nat i) / int (Z.of_nat (String.length titleText))) * num_PI * int 2
  - num_PI / int 2.

(** [letter.style.left] and [letter.style.top] of letter [i], in pixels. *)
Definition letterPosition (win : Window (N:=N)) (i : nat) : N * N :=
  let centerX := innerWidth win / int 2 in
  let centerY := innerHeight win / int 2 in
  let angle := letterAngle i in
  (centerX + num_cos angle * radius, centerY + num_sin angle * radius).

(** The positions [createTitleLetters()] gives the letters, in order. *)
Definition letterPositions (win : Window (N:=N)) : list (N * N) :=
  map (letterPosition win) (seq 0 (String.length titleText)).

(** The body of [scatterElements()] for one entity; [r1] and [r2] are its two
    [Math.random()] draws. *)
Definition scatterElement (r1 r2 : N) (e : PhysicsEntity (N:=N))
  : PhysicsEntity (N:=N) :=
  let angle := r1 * num_PI * int 2 in
  let force := int 5 + r2 * int 10 in
  applyForce (num_cos angle * force) (num_sin angle * force) e.

End WithNumbers.

(** [parseFloat(card.dataset.mass) || 2], with [parsed] the value of
    [parseFloat]. *)
Definition cardMass (parsed : float) : float :=
  if float_truthy parsed then parsed else 2%float.

End Title.

(* ================================================================== *)
(** ** particles.js: creating and drawing the stars *)
(* ================================================================== *)

Module Sky.
Import Particles.
Section WithNumbers.
Context {N : Type} `{JsNumber N}.
Local Open Scope js_scope.

(** [drawConnections()], the inner loop: the lines from [p1] to the later
    particles, each with the alpha of its stroke style. *)
Definition connectFrom (p1 : Particle (N:=N)) (later : list (Particle (N:=N)))
  : list (Particle (N:=N) * Particle (N:=N) * N) :=
  flat_map (fun p2 =>
              let dx := x p1 - x p2 in
              let dy := y p1 - y p2 in
              let distance := num_sqrt (dx * dx + dy * dy) in
              let maxDistance := int 150 in
              if distance <? maxDistance
              then [(p1, p2, (int 1 - distance / maxDistance) * decimal 1 1)]
              else []) later.

(** [drawConnections()]: the lines stroked, in order. *)
Fixpoint drawConnections (ps : list (Particle (N:=N)))
  : list (Particle (N:=N) * Particle (N:=N) * N) :=
  match ps with
  | [] => []
  | p1 :: later => connectFrom p1 later ++ drawConnections later
  end.

(** The perspective scale of [drawParticle]. *)
Definition scaleOf (p : Particle (N:=N)) : N :=
  int 1000 / (int 1000 + z p).

(** The numbers [drawParticle(p, time)] draws with: the centre, the alpha at
    the centre of the halo and of the core, the alpha of the middle stop, the
    radius of the halo and of the core. *)
Record Drawn : Type := {
  x2d : N; y2d : N;
  alpha : N; middleAlpha : N;
  haloRadius : N; coreRadius : N
}.

(** [drawParticle(p, time)], with [sine] the value [Math.sin] returns for
    [time * p.twinkleSpeed + p.twinkleOffset]. *)
Definition drawWith (sine : N) (canvasWidth canvasHeight : N)
  (p : Particle (N:=N)) : Drawn :=
  let scale := scaleOf p in
  let px := (x p - canvasWidth / int 2) * scale + canvasWidth / int 2 in
  let py := (y p - canvasHeight / int 2) * scale + canvasHeight / int 2 in
  let twinkle := sine * decimal 3 1 + decimal 7 1 in
  let a := brightness p * twinkle * scale in
  let size := baseSize p * scale in
  {| x2d := px; y2d := py;
     alpha := a; middleAlpha := a * decimal 5 1;
     haloRadius := size * int 2; coreRadius := size * decimal 5 1 |}.

Definition drawParticle `{JsMath N} (canvasWidth canvasHeight : N)
  (p : Particle (N:=N)) (time : N) : Drawn :=
  drawWith (num_sin (time * twinkleSpeed p + twinkleOffset p))
    canvasWidth canvasHeight p.

(** One star of [init()], from its ten [Math.random()] draws in the order
    they are made. *)
Definition newStar `{JsMath N} (canvasWidth canvasHeight : N)
  (r : nat -> N) : Particle (N:=N) :=
  {| x := r 0%nat * canvasWidth;
     y := r 1%nat * canvasHeight;
     z := r 2%nat * int 1000;
     size := r 3%nat * int 2;
     baseSize := r 4%nat * int 2;
     speedX := (r 5%nat - decimal 5 1) * decimal 2 1;
     speedY := (r 6%nat - decimal 5 1) * decimal 2 1;
     brightness := r 7%nat * decimal 5 1 + decimal 5 1;
     twinkleSpeed := r 8%nat * decimal 2 2 + decimal 1 2;
     twinkleOffset := r 9%nat * num_PI * int 2 |}.

Definition particleCount : nat := 200.

(** [init()], with [random k] the value of the [k]-th call of
    [Math.random()]. *)
Definition init `{JsMath N} (canvasWidth canvasHeight : N) (random : nat -> N)
  : list (Particle (N:=N)) :=
  map (fun i => newStar canvasWidth canvasHeight (fun k => random (10 * i + k)%nat))
    (seq 0 particleCount).

(** The particles after one [animate()]: each is updated, then drawn. *)
Definition animate (mx my canvasWidth canvasHeight : N)
  (ps : list (Particle (N:=N))) : list (Particle (N:=N)) :=
  map (updateParticle mx my canvasWidth canvasHeight) ps.

End WithNumbers.
End Sky.

(* ================================================================== *)
(** ** physics-engine.js: the canvas, the walls, the throttle *)
(* ================================================================== *)

Module Overlay.
Import Page PhysicsEngine.
Section WithNumbers.
Context {N : Type} `{JsNumber N}.
Local Open Scope js_scope.

(** [CONFIG.particleCount] and [CONFIG.targetFPS]. *)
Definition particleCount (isTouchDevice : bool) : nat :=
  if isTouchDevice then 15 else 50.
Definition targetFPS (isTouchDevice : bool) : N :=
  if isTouchDevice then int 30 else int 60.

(** A static rectangle of the solver, as [Matter.Bodies.rectangle(x, y,
    width, height)] is called: centre and extent. *)
Record Wall : Type := {
  centreX : N; centreY : N;
  wallWidth : N; wallHeight : N
}.

(** [createBoundaries()]: top, bottom, left, right. *)
Definition boundaries (canvasWidth canvasHeight : N) : list Wall :=
  let thickness := int 50 in
  [ {| centreX := canvasWidth / int 2; centreY := - thickness / int 2;
       wallWidth := canvasWidth; wallHeight := thickness |};
    {| centreX := canvasWidth / int 2; centreY := canvasHeight + thickness / int 2;
       wallWidth := canvasWidth; wallHeight := thickness |};
    {| centreX := - thickness / int 2; centreY := canvasHeight / int 2;
       wallWidth := thickness; wallHeight := canvasHeight |};
    {| centreX := canvasWidth + thickness / int 2; centreY := canvasHeight / int 2;
       wallWidth := thickness; wallHeight := canvasHeight |} ].

(** The canvas and the solver's world, as this module reaches them.  The
    dynamic bodies of the world are the bodies of [particles] (the same
    objects); [walls] are its static bodies, [None] while [world] is
    undefined. *)
Record Scene : Type := {
  canvasWidth : N; canvasHeight : N;
  particles : option (list (Body (N:=N)));
  walls : option (list Wall)
}.

(** [createBoundaries()] on a scene: [Matter.World.add(world, boundaries)]. *)
Definition createBoundaries (sc : Scene) : Scene :=
  {| canvasWidth := canvasWidth sc; canvasHeight := canvasHeight sc;
     particles := particles sc;
     walls := match walls sc with
              | Some ws => Some (ws ++ boundaries (canvasWidth sc) (canvasHeight sc))
              | None => None
              end |}.

(** [resizeCanvas()] with the canvas present; [win] is the window. *)
Definition resizeCanvas (win : Physics.Window (N:=N)) (sc : Scene) : Scene :=
  let oldWidth := canvasWidth sc in
  let oldHeight := canvasHeight sc in
  let newWidth := Physics.innerWidth win in
  let newHeight := Physics.innerHeight win in
  let scaled :=
    match particles sc with
    | Some ps =>
        if (oldWidth >? int 0) && (oldHeight >? int 0)
        then
          let scaleX := newWidth / oldWidth in
          let scaleY := newHeight / oldHeight in
          Some (map (fun particle =>
                       {| positionX := positionX particle * scaleX;
                          positionY := positionY particle * scaleY |}) ps)
        else Some ps
    | None => None
    end in
  let resized :=
    {| canvasWidth := newWidth; canvasHeight := newHeight;
       particles := scaled; walls := walls sc |} in
  match walls sc with
  | Some _ =>
      createBoundaries
        {| canvasWidth := newWidth; canvasHeight := newHeight;
           particles := scaled; walls := Some [] |}
  | None => resized
  end.

(** The scene part of [initPhysicsEngine()], from the canvas as the page
    gives it: the engine's world is created, then [resizeCanvas()],
    [createBoundaries()], and the bodies [created] by [createParticles]. *)
Definition initScene (win : Physics.Window (N:=N)) (width0 height0 : N)
  (created : list (Body (N:=N))) : Scene :=
  let sc0 := {| canvasWidth := width0; canvasHeight := height0;
                particles := None; walls := Some [] |} in
  let sc1 := createBoundaries (resizeCanvas win sc0) in
  {| canvasWidth := canvasWidth sc1; canvasHeight := canvasHeight sc1;
     particles := Some created; walls := walls sc1 |}.

(** The throttle of [animate(timestamp)]: whether the frame updates and
    renders, given [lastTime]. *)
Definition frameDelay (isTouchDevice : bool) : N :=
  int 1000 / targetFPS isTouchDevice.

Definition frameRuns (isTouchDevice : bool) (lastTime timestamp : N) : bool :=
  negb (timestamp - lastTime <? frameDelay isTouchDevice).

(** The timestamps of the frames that update and render, among the callbacks
    at [timestamps]; [lastTime] is that variable of [startSimulation]. *)
Fixpoint executed (isTouchDevice : bool) (lastTime : N) (timestamps : list N)
  : list N :=
  match timestamps with
  | [] => []
  | timestamp :: rest =>
      if frameRuns isTouchDevice lastTime timestamp
      then timestamp :: executed isTouchDevice timestamp rest
      else executed isTouchDevice lastTime rest
  end.

(** The frames that update and render over successive runs of the loop, each
    run with the timestamps of its callbacks: every call of
    [startSimulation()] that starts a loop declares its own [lastTime = 0]. *)
Definition updatesOfRuns (isTouchDevice : bool) (runs : list (list N)) : list N :=
  flat_map (executed isTouchDevice (int 0)) runs.

End WithNumbers.

(** *** particle-system.js: colours *)

(** [getThemeColors()], with [dataMode] the attribute [data-mode] of the
    document element. *)
Definition getThemeColors (dataMode : option string) : list string :=
  match dataMode with
  | Some "dark" => ["#4c9aff"; "#ff6b9d"; "#c69eff"; "#ffab00"]
  | _ => ["#0052cc"; "#ff5630"; "#6554c0"; "#ff8b00"]
  end.

(** [particles.forEach((particle, index) => ...)] from [index] on. *)
Fixpoint recolour (colors : list string) (index : nat) (fills : list (option string))
  : list (option string) :=
  match fills with
  | [] => []
  | _ :: rest =>
      nth_error colors (index mod List.length colors) :: recolour colors (S index) rest
  end.

(** [updateParticleColors()] on the [render.fillStyle] of the particles
    ([None] is [undefined]); the module variable [particles] is [None] before
    initialisation. *)
Definition updateParticleColors (dataMode : option string)
  (fills : option (list (option string))) : option (list (option string)) :=
  match fills with
  | None => None
  | Some fs => Some (recolour (getThemeColors dataMode) 0 fs)
  end.

(** The colour [render()] fills a particle with:
    [particle.render.fillStyle || colors[0]]. *)
Definition renderColour (dataMode : option string) (fill : option string)
  : option string :=
  match fill with
  | Some "" | None => nth_error (getThemeColors dataMode) 0
  | Some c => Some c
  end.

(** *** home-interactive.js: the entry point *)

(** The script of the page: [noPreference] and [reduce] are the answers of
    [matchMedia] to [(prefers-reduced-motion: no-preference)] and
    [(prefers-reduced-motion: reduce)].  When the document is still loading
    the call happens at [DOMContentLoaded], with the same arguments. *)
Definition homeInteractive (noPreference reduce : bool) (doc : Document)
  (st : Storage) : Console * Completion Engine :=
  if noPreference
  then initPhysicsEngine reduce doc (loaded doc st)
  else ([(Log, "Physics disabled due to reduced motion preference")],
        Return (loaded doc st)).

End Overlay.

(* ================================================================== *)
(** ** particle-system.js: creating the bodies *)
(* ================================================================== *)

Module ParticleSystem.
Section WithNumbers.
Context {N : Type} `{JsNumber N} `{JsMath N}.
Local Open Scope js_scope.

(** How the body was asked of the solver: [Bodies.circle(x, y, radius)],
    [Bodies.rectangle(x, y, width, height)], [Bodies.polygon(x, y, sides,
    radius)]. *)
Inductive Shape : Type :=
| Circle (radius : N)
| Rectangle (width height : N)
| Polygon (sides : nat) (radius : N).

(** A created body: its shape and position, the [render.fillStyle] passed in
    the options ([None] when none was passed), the velocity and the angular
    velocity set afterwards. *)
Record Created : Type := {
  shape : Shape;
  x : N; y : N;
  fillStyle : option string;
  velocityX : N; velocityY : N;
  angularVelocity : N
}.

Definition shapes : list string := ["circle"; "rectangle"; "triangle"].

(** [list[Math.floor(r * list.length)]]; [None] is [undefined]. *)
Definition pick {A : Type} (l : list A) (r : N) : option A :=
  let i := num_floor (r * int (Z.of_nat (List.length l))) in
  if (i <? 0)%Z then None else nth_error l (Z.to_nat i).

(** The body of the loop of [createParticles], from its eight
    [Math.random()] draws in the order they are made. *)
Definition createParticle (width height : N) (colors : list string)
  (r : nat -> N) : Created :=
  let px := r 0%nat * width in
  let py := r 1%nat * height in
  let shapeName := pick shapes (r 2%nat) in
  let size := int 15 + r 3%nat * int 20 in
  let color := pick colors (r 4%nat) in
  let vX := (r 5%nat - decimal 5 1) * int 2 in
  let vY := (r 6%nat - decimal 5 1) * int 2 in
  let spin := (r 7%nat - decimal 5 1) * decimal 1 1 in
  match shapeName with
  | Some "circle" =>
      {| shape := Circle size; x := px; y := py; fillStyle := color;
         velocityX := vX; velocityY := vY; angularVelocity := spin |}
  | Some "rectangle" =>
      {| shape := Rectangle (size * decimal 15 1) (size * decimal 15 1);
         x := px; y := py; fillStyle := color;
         velocityX := vX; velocityY := vY; angularVelocity := spin |}
  | Some "triangle" =>
      {| shape := Polygon 3 size; x := px; y := py; fillStyle := color;
         velocityX := vX; velocityY := vY; angularVelocity := spin |}
  | _ =>
      {| shape := Circle size; x := px; y := py; fillStyle := None;
         velocityX := vX; velocityY := vY; angularVelocity := spin |}
  end.

(** [createParticles(world, width, height, count)], with [random k] the value
    of the [k]-th call of [Math.random()] and [dataMode] the theme; the bodies
    returned are also the dynamic bodies added to the world. *)
Definition createParticles (width height : N) (count : nat)
  (dataMode : option string) (random : nat -> N) : list Created :=
  map (fun i => createParticle width height (Overlay.getThemeColors dataMode)
                  (fun k => random (8 * i + k)%nat))
    (seq 0 count).

End WithNumbers.
End ParticleSystem.

(* ================================================================== *)
(** * The vocabulary of the properties *)
(* ================================================================== *)

Section ExactVocabulary.
Import Physics World.
Local Open Scope R_scope.

(** The constants [new PhysicsWorld()] sets; no method changes them. *)
Definition standard (w : PhysicsWorld (N:=R)) : Prop :=
  gravity w = 0.3 /\ gravityRadius w = 300 /\ repulsionRadius w = 100.

(** A point mass at rest at its rest position, with nothing accumulated. *)
Definition atRest (e : PhysicsEntity (N:=R)) : Prop :=
  vx e = 0 /\ vy e = 0 /\ ax e = 0 /\ ay e = 0
  /\ x e = originalX e /\ y e = originalY e.

(** The position lies in the margin box of the window. *)
Definition insideMargins (win : Window (N:=R)) (e : PhysicsEntity (N:=R)) : Prop :=
  100 <= x e <= innerWidth win - 100 /\ 100 <= y e <= innerHeight win - 100.

(** Successive frames of one entity, one time delta each, with no force
    applied in between. *)
Definition steps (win : Window (N:=R)) (dts : list R) (e : PhysicsEntity (N:=R))
  : PhysicsEntity (N:=R) :=
  fold_left (fun s dt => update win dt s) dts e.

(** The force the specification gives [e] on account of [o]: of length 0.5
    along the line through both, away from [o], when they are less than 150
    apart and not at the same place; none otherwise. *)
Definition pairForce (e o : PhysicsEntity (N:=R)) : R * R :=
  let d := sqrt ((x e - x o) * (x e - x o) + (y e - y o) * (y e - y o)) in
  if Rltb d 150 && Rltb 0 d
  then (0.5 * ((x e - x o) / d), 0.5 * ((y e - y o) / d))
  else (0, 0).

(** One force, then several in turn, through [applyForce]. *)
Definition push (f : R * R) (e : PhysicsEntity (N:=R)) : PhysicsEntity (N:=R) :=
  applyForce (fst f) (snd f) e.
Definition pushes (fs : list (R * R)) (e : PhysicsEntity (N:=R))
  : PhysicsEntity (N:=R) :=
  fold_left (fun s f => push f s) fs e.

(** Everyone but the entity at index [k]. *)
Definition others (k : nat) (es : list (PhysicsEntity (N:=R)))
  : list (PhysicsEntity (N:=R)) :=
  firstn k es ++ skipn (S k) es.

(** *** Scenarios *)

Definition viewportR : Window (N:=R) :=
  {| innerWidth := 1000; innerHeight := 800 |}.

(** A unit mass at rest at its rest position [(px, py)]. *)
Definition massAt (px py : R) : PhysicsEntity (N:=R) :=
  {| x := px; y := py; vx := 0; vy := 0; ax := 0; ay := 0; mass := 1;
     damping := 0.98; maxSpeed := 3; originalX := px; originalY := py |}.

(** The world of [viewportR] with the pointer at [(sx, 0)]. *)
Definition sourceAt (sx : R) : PhysicsWorld (N:=R) :=
  onMouseMove sx 0 (newWorld viewportR 0).

End ExactVocabulary.

Section TrackerVocabulary.
Import MouseTracker.
Context {N : Type} `{JsNumber N}.
Local Open Scope js_scope.

(** The position an event records, if it records one. *)
Definition recorded (ev : Event (N:=N)) : option (Position (N:=N)) :=
  match ev with
  | MouseMove cx cy l tp => Some {| x := cx - l; y := cy - tp |}
  | TouchStart ((cx, cy) :: _) l tp => Some {| x := cx - l; y := cy - tp |}
  | TouchMove ((cx, cy) :: _) l tp => Some {| x := cx - l; y := cy - tp |}
  | _ => None
  end.

(** The position recorded last among the events listened to, starting from
    [p]; the module starts from [(0, 0)]. *)
Definition lastRecordedFrom (listening : list string) (p : Position (N:=N))
  (evs : list (Event (N:=N))) : Position (N:=N) :=
  fold_left (fun q ev =>
               if existsb (String.eqb (eventType ev)) listening
               then match recorded ev with Some r => r | None => q end
               else q) evs p.

Definition lastRecorded (listening : list string) (evs : list (Event (N:=N)))
  : Position (N:=N) :=
  lastRecordedFrom listening {| x := int 0; y := int 0 |} evs.

End TrackerVocabulary.

Section PageScenarios.
Import Page PhysicsEngine.

(** A page in which no lookup finds an element. *)
Definition emptyPage : Document :=
  {| getElementById := fun _ => None; querySelector := fun _ => None |}.

(** A page with the canvas and the toggle button. *)
Definition overlayPage : Document :=
  {| getElementById := fun id =>
       if String.eqb id "physics-canvas" then Some (Canvas true)
       else if String.eqb id "physics-toggle" then Some Other
       else None;
     querySelector := fun _ => None |}.

(** The engine once [initPhysicsEngine] has returned on [overlayPage], with
    what [localStorage] held before. *)
Definition started (st : Storage) : Engine :=
  startSimulation (setupPauseToggle (loaded overlayPage st)).

(** The persisted flag. *)
Definition savedState (s : Engine) : option string :=
  getItem "physics-paused" (localStorage s).

(** Whenever the engine is paused the stored flag is ["true"]. *)
Definition pausedIsStored (s : Engine) : Prop :=
  isPaused s = true -> savedState s = Some "true".

End PageScenarios.

Section DoubleScenarios.
Import Physics World.
Local Open Scope float_scope.

Definition viewport : Window (N:=float) :=
  {| innerWidth := 1000; innerHeight := 800 |}.

(** A window 150 wide: the two margins overlap. *)
Definition narrowViewport : Window (N:=float) :=
  {| innerWidth := 150; innerHeight := 800 |}.

(** A constructed entity of mass 1 at rest at its rest position [(px, py)]:
    both random draws are 0.5, so the initial velocity is zero. *)
Definition restingAt (px py : float) : PhysicsEntity (N:=float) :=
  newEntity {| left := px; top := py; width := 0; height := 0 |} 1 0.5 0.5.

(** A page of one orb: an element 100 by 40 centred at [(500, 400)], added
    with mass 2 as [initPhysics] does, both random draws 0.5; the pointer has
    not moved from the centre of the window. *)
Definition orb : PhysicsEntity (N:=float) :=
  newEntity {| left := 450; top := 380; width := 100; height := 40 |} 2 0.5 0.5.
Definition orbPage : PhysicsWorld (N:=float) :=
  addEntity orb (newWorld viewport 0).

(** The orb after a click at [(400, 300)]. *)
Definition kicked : PhysicsEntity (N:=float) := clickForce 400 300 orb.

(** An entity thrown past the left and the top margin, and one past the right
    and the bottom margin. *)
Definition thrownUpLeft : PhysicsEntity (N:=float) :=
  applyForce (-8) (-8) (restingAt 101 101).
Definition thrownDownRight : PhysicsEntity (N:=float) :=
  applyForce 8 8 (restingAt 899 699).

(** The world of [viewport] with the pointer at [(sx, sy)]. *)
Definition pointerAt (sx sy : float) : PhysicsWorld (N:=float) :=
  onMouseMove sx sy (newWorld viewport 0).

(** A star whose drift brings it onto the pointer at [(100, 50)]. *)
Definition starOntoPointer : Particles.Particle (N:=float) :=
  {| Particles.x := 100.0625; Particles.y := 50.03125; Particles.z := 500;
     Particles.size := 1; Particles.baseSize := 1;
     Particles.speedX := -0.0625; Particles.speedY := -0.03125;
     Particles.brightness := 0.75;
     Particles.twinkleSpeed := 0.015625; Particles.twinkleOffset := 0 |}.

End DoubleScenarios.

Section FrameVocabulary.
Import Physics.
Context {N : Type}.

(** What no frame changes of an entity. *)
Definition constants (e : PhysicsEntity (N:=N)) : N * N * N * N * N :=
  (mass e, damping e, maxSpeed e, originalX e, originalY e).

(** Everything of an entity but its accumulated acceleration. *)
Definition body (e : PhysicsEntity (N:=N)) : N * N * N * N * (N * N * N * N * N) :=
  (x e, y e, vx e, vy e, constants e).

End FrameVocabulary.

Section OverlayVocabulary.
Import Page PhysicsEngine Overlay.
Local Open Scope R_scope.

(** The faces of a wall: the solver's rectangle is centred on
    [(centreX, centreY)]. *)
Definition leftFace (wl : Wall (N:=R)) : R := centreX wl - wallWidth wl / 2.
Definition rightFace (wl : Wall (N:=R)) : R := centreX wl + wallWidth wl / 2.
Definition topFace (wl : Wall (N:=R)) : R := centreY wl - wallHeight wl / 2.
Definition bottomFace (wl : Wall (N:=R)) : R := centreY wl + wallHeight wl / 2.

(** Successive timestamps, each at least [delay] after the one before,
    starting after [last]. *)
Fixpoint spaced (delay last : R) (ts : list R) : Prop :=
  match ts with
  | [] => True
  | t :: rest => delay <= t - last /\ spaced delay t rest
  end.

(** Whether a call of the initialisation left the frame loop running. *)
Definition startedLoop (c : Console * Completion Engine) : bool :=
  match snd c with
  | Return s => running s
  | Throw _ => false
  end.

(** What holds of the engine throughout a session. *)
Definition sessionOk (s : Engine) : Prop :=
  listening s = true /\ (isPaused s = false -> running s = true).

End OverlayVocabulary.

Section FurtherScenarios.
Import Physics PhysicsEngine Overlay.
Local Open Scope R_scope.

(** A star at [(px, py)] that does not drift, at depth 500. *)
Definition starAt (px py : R) : Particles.Particle (N:=R) :=
  {| Particles.x := px; Particles.y := py; Particles.z := 500;
     Particles.size := 1; Particles.baseSize := 1;
     Particles.speedX := 0; Particles.speedY := 0;
     Particles.brightness := 0.75;
     Particles.twinkleSpeed := 0.015625; Particles.twinkleOffset := 0 |}.

(** A window half the size of [viewportR], and one of width zero. *)
Definition halfViewportR : Window (N:=R) :=
  {| innerWidth := 500; innerHeight := 400 |}.
Definition flatViewportR : Window (N:=R) :=
  {| innerWidth := 0; innerHeight := 800 |}.

(** The overlay of [viewportR] with one body at [(100, 50)]. *)
Definition oneBody : list (Body (N:=R)) :=
  [ {| positionX := 100; positionY := 50 |} ].
Definition oneBodyScene : Scene (N:=R) :=
  initScene viewportR 300 150 oneBody.

(** Every draw of [Math.random()] is one half. *)
Definition evenDraws : nat -> R := fun _ => 1 / 2.

End FurtherScenarios.

Section StrayedScenario.
Import Physics.
Local Open Scope R_scope.

(** A unit mass resting at [(300, 400)], 200 to the left of its rest
    position [(500, 400)]. *)
Definition strayed : PhysicsEntity (N:=R) := setPosition 300 400 (massAt 500 400).

(** An element 100 by 40 with its corner at [(450, 380)]. *)
Definition orbRect : DOMRect (N:=R) :=
  {| left := 450; top := 380; width := 100; height := 40 |}.

End StrayedScenario.

Section PositionVocabulary.
Import Physics.
Context {N : Type}.

(** Where an entity is. *)
Definition position (e : PhysicsEntity (N:=N)) : N * N := (x e, y e).

End PositionVocabulary.

Section RoundingScenarios.
Import Physics World.
Local Open Scope float_scope.
#[local] Set Warnings "-inexact-float".

(** The distance between the points [(x1, y1)] and [(x2, y2)] compared with
    [c >= 0], in exact arithmetic on the values of the five doubles. *)
Definition exactDistance (x1 y1 x2 y2 c : float) : option comparison :=
  match exactScaled x1, exactScaled y1, exactScaled x2, exactScaled y2,
        exactScaled c with
  | Some a1, Some b1, Some a2, Some b2, Some zc =>
      Some (((a1 - a2) * (a1 - a2) + (b1 - b2) * (b1 - b2)) ?= zc * zc)%Z
  | _, _, _, _, _ => None
  end.

(** An entity a little more than 100 from the pointer at [(400, 300)]. *)
Definition justOutside : PhysicsEntity (N:=float) := restingAt 300 300.0000001.

(** Two entities a little less than 150 apart. *)
Definition pairA : PhysicsEntity (N:=float) := restingAt 300 100.00000000000001.
Definition pairB : PhysicsEntity (N:=float) := restingAt 390 220.

(** A page of one card with [data-mass="Infinity"], 100 by 40 and centred at
    [(500, 400)], the pointer at [(600, 400)]; and the same card with
    [data-mass="1e-320"], the pointer not moved from the centre. *)
Definition heavyCard : PhysicsEntity (N:=float) :=
  newEntity {| left := 450; top := 380; width := 100; height := 40 |}
    (Title.cardMass infinity) 0.5 0.5.
Definition heavyPage : PhysicsWorld (N:=float) :=
  addEntity heavyCard (pointerAt 600 400).
Definition lightCard : PhysicsEntity (N:=float) :=
  newEntity {| left := 450; top := 380; width := 100; height := 40 |}
    (Title.cardMass 1e-320) 0.5 0.5.
Definition lightPage : PhysicsWorld (N:=float) :=
  addEntity lightCard (newWorld viewport 0).

End RoundingScenarios.

(* ================================================================== *)
(** * Properties *)
(* ================================================================== *)

(** ** Exact arithmetic: reading the comparisons and the literals *)

Lemma Rltb_true (a b : R) : (a < b)%R -> Rltb a b = true.
Proof. intro Hlt. unfold Rltb. destruct (Rlt_dec a b); [reflexivity | contradiction]. Qed.

Lemma Rltb_false (a b : R) : (b <= a)%R -> Rltb a b = false.
Proof. intro Hle. unfold Rltb. destruct (Rlt_dec a b); [lra | reflexivity]. Qed.

Lemma Rleb_true (a b : R) : (a <= b)%R -> Rleb a b = true.
Proof. intro Hle. unfold Rleb. destruct (Rle_dec a b); [reflexivity | contradiction]. Qed.

Lemma Rleb_false (a b : R) : (b < a)%R -> Rleb a b = false.
Proof. intro Hlt. unfold Rleb. destruct (Rle_dec a b); [lra | reflexivity]. Qed.

Lemma Rltb_spec (a b : R) : Rltb a b = true <-> (a < b)%R.
Proof.
  unfold Rltb. destruct (Rlt_dec a b); split; intro Hx;
    try reflexivity; try assumption; try discriminate; contradiction.
Qed.

Lemma Rleb_spec (a b : R) : Rleb a b = true <-> (a <= b)%R.
Proof.
  unfold Rleb. destruct (Rle_dec a b); split; intro Hx;
    try reflexivity; try assumption; try discriminate; contradiction.
Qed.

(** Unfold the number interface at [R], literals included. *)
Ltac js_real :=
  unfold decimal, int in *;
  cbn [num_ofZ num_add num_sub num_mul num_div num_neg num_sqrt num_min
       num_lt num_le RealNumber] in *;
  repeat match goal with
  | |- context [ (10 ^ Z.of_nat ?n)%Z ] =>
      let v := eval vm_compute in (10 ^ Z.of_nat n)%Z in
      change (10 ^ Z.of_nat n)%Z with v
  | Hx : context [ (10 ^ Z.of_nat ?n)%Z ] |- _ =>
      let v := eval vm_compute in (10 ^ Z.of_nat n)%Z in
      change (10 ^ Z.of_nat n)%Z with v in Hx
  end.

(** Settle one comparison of the goal by linear arithmetic. *)
Ltac js_cmp :=
  match goal with
  | |- context [ Rltb ?a ?b ] =>
      first [ rewrite (@Rltb_true a b) by lra | rewrite (@Rltb_false a b) by lra ]
  | |- context [ Rleb ?a ?b ] =>
      first [ rewrite (@Rleb_true a b) by lra | rewrite (@Rleb_false a b) by lra ]
  end.

(** ** The field force of [applyGravity] *)

Section FieldForce.
Import Physics World.
Local Open Scope R_scope.

Lemma newWorld_standard (win : Window) (now : R) : standard (newWorld win now).
Proof. unfold standard, newWorld; cbn. js_real. repeat split; lra. Qed.

(** A distance is the root of a sum of squares: squaring gives it back. *)
Lemma distance_sqr (dx dy : R) :
  sqrt (dx * dx + dy * dy) * sqrt (dx * dx + dy * dy) = dx * dx + dy * dy.
Proof. apply sqrt_sqrt. nra. Qed.

(** The direction [(dx / d, dy / d)] is a unit vector when [d > 0]. *)
Lemma unit_direction (dx dy : R) :
  let d := sqrt (dx * dx + dy * dy) in
  0 < d -> (dx / d) * (dx / d) + (dy / d) * (dy / d) = 1.
Proof.
  intros d Hd. pose proof (distance_sqr dx dy) as Hsq. fold d in Hsq.
  assert (Hne : d <> 0) by lra.
  replace (dx / d * (dx / d) + dy / d * (dy / d))
    with ((dx * dx + dy * dy) / (d * d)) by (field; exact Hne).
  rewrite <- Hsq. field. exact Hne.
Qed.

(** A unit vector scaled by [F >= 0] has length [F]. *)
Lemma scaled_unit_norm (ux uy F : R) :
  ux * ux + uy * uy = 1 -> 0 <= F ->
  sqrt ((ux * F) * (ux * F) + (uy * F) * (uy * F)) = F.
Proof.
  intros Hu HF.
  replace ((ux * F) * (ux * F) + (uy * F) * (uy * F))
    with ((ux * ux + uy * uy) * (F * F)) by ring.
  rewrite Hu, Rmult_1_l. apply sqrt_square. exact HF.
Qed.

Lemma scaled_unit_norm_opp (ux uy F : R) :
  ux * ux + uy * uy = 1 -> 0 <= F ->
  sqrt ((- ux * F) * (- ux * F) + (- uy * F) * (- uy * F)) = F.
Proof.
  intros Hu HF.
  replace ((- ux * F) * (- ux * F) + (- uy * F) * (- uy * F))
    with ((ux * F) * (ux * F) + (uy * F) * (uy * F)) by ring.
  apply scaled_unit_norm; assumption.
Qed.

(** C1, in exact real arithmetic.  With [d] the distance from the point mass
    to the field source and [(ux, uy)] the unit vector from the mass to the
    source, in a world with the constructor's constants: for
    [100 < d < 300] the force handed to [applyForce] is [F * (ux, uy)] with
    [F = (0.3 * m) / (d * 0.01)]; for [10 < d <= 100] it is [- F * (ux, uy)]
    with [F = (2 * m) / (d * 0.01)]; in both cases its length is [F] for a
    mass [m >= 0]; for [d <= 10] or [d >= 300] the entity is left as it was. *)
Theorem applyGravity_field_force (w : PhysicsWorld (N:=R)) (e : PhysicsEntity (N:=R)) :
  standard w ->
  let sx := mouseX (mouse w) in
  let sy := mouseY (mouse w) in
  let d := distanceTo sx sy e in
  let ux := (sx - x e) / d in
  let uy := (sy - y e) / d in
  (100 < d < 300 ->
     let F := (0.3 * mass e) / (d * 0.01) in
     applyGravity w e = applyForce (ux * F) (uy * F) e
     /\ (x e + d * ux = sx /\ y e + d * uy = sy /\ ux * ux + uy * uy = 1)
     /\ (0 <= mass e ->
         sqrt ((ux * F) * (ux * F) + (uy * F) * (uy * F)) = F))
  /\ (10 < d <= 100 ->
     let F := (2 * mass e) / (d * 0.01) in
     applyGravity w e = applyForce (- ux * F) (- uy * F) e
     /\ (x e + d * ux = sx /\ y e + d * uy = sy /\ ux * ux + uy * uy = 1)
     /\ (0 <= mass e ->
         sqrt ((- ux * F) * (- ux * F) + (- uy * F) * (- uy * F)) = F))
  /\ (d <= 10 \/ 300 <= d -> applyGravity w e = e).
Proof.
  intros (Hg & Hgr & Hrr) sx sy d ux uy.
  assert (Hunit : 0 < d -> ux * ux + uy * uy = 1).
  { intro Hd. apply (unit_direction (sx - x e) (sy - y e)). exact Hd. }
  assert (Hdir : 0 < d -> x e + d * ux = sx /\ y e + d * uy = sy).
  { intro Hd. unfold ux, uy. split; field; lra. }
  assert (HF : forall k, 0 <= k -> 0 < d -> 0 <= mass e ->
                         0 <= (k * mass e) / (d * 0.01)).
  { intros k Hk Hd Hm. apply Rmult_le_pos; [nra |].
    apply Rlt_le, Rinv_0_lt_compat. nra. }
  unfold applyGravity. rewrite Hg, Hgr, Hrr. js_real.
  fold sx sy. change (sqrt ((sx - x e) * (sx - x e) + (sy - y e) * (sy - y e))) with d.
  fold ux uy.
  replace (1 / 100) with 0.01 by lra.
  split; [| split].
  - intros [Hlo Hhi]. rewrite (Rltb_true Hhi), (Rltb_true Hlo). cbn [andb].
    split; [reflexivity |].
    split.
    + destruct Hdir as [Hx Hy]; [lra |].
      split; [exact Hx | split; [exact Hy | apply Hunit; lra]].
    + intro Hm. apply scaled_unit_norm; [apply Hunit; lra |].
      apply HF; lra.
  - intros [Hlo Hhi].
    rewrite (@Rltb_false 100 d) by lra. rewrite andb_false_r.
    rewrite (Rleb_true Hhi), (Rltb_true Hlo). cbn [andb].
    split; [reflexivity |].
    split.
    + destruct Hdir as [Hx Hy]; [lra |].
      split; [exact Hx | split; [exact Hy | apply Hunit; lra]].
    + intro Hm. apply scaled_unit_norm_opp; [apply Hunit; lra |].
      apply HF; lra.
  - intros [Hnear | Hfar].
    + rewrite (@Rltb_false 100 d) by lra. rewrite andb_false_r.
      rewrite (@Rltb_false 10 d) by lra. rewrite andb_false_r. reflexivity.
    + rewrite (@Rltb_false d 300) by lra.
      rewrite (@Rleb_false d 100) by lra. reflexivity.
Qed.

End FieldForce.

Section FieldForceScenario.
Import Physics World.
Local Open Scope R_scope.

Lemma sourceAt_standard (sx : R) : standard (sourceAt sx).
Proof. unfold sourceAt, standard; cbn. js_real. repeat split; lra. Qed.

Lemma sourceAt_distance (sx : R) :
  0 <= sx -> distanceTo (mouseX (mouse (sourceAt sx))) (mouseY (mouse (sourceAt sx)))
               (massAt 0 0) = sx.
Proof.
  intro Hs. unfold distanceTo; cbn. js_real.
  replace ((sx - 0) * (sx - 0) + (0 - 0) * (0 - 0)) with (sx * sx) by ring.
  apply sqrt_square. exact Hs.
Qed.

(** The scenario of the specification: sources at distances 200, 50 and 500
    from a unit mass give an attraction of 0.15, a repulsion of 4, and
    nothing. *)
Lemma applyGravity_field_force_witness :
  applyGravity (sourceAt 200) (massAt 0 0)
    = applyForce (200 / 200 * (0.3 * 1 / (200 * 0.01))) (0 / 200 * (0.3 * 1 / (200 * 0.01)))
        (massAt 0 0)
  /\ applyGravity (sourceAt 50) (massAt 0 0)
    = applyForce (- (50 / 50) * (2 * 1 / (50 * 0.01))) (- (0 / 50) * (2 * 1 / (50 * 0.01)))
        (massAt 0 0)
  /\ applyGravity (sourceAt 500) (massAt 0 0) = (massAt 0 0).
Proof.
  pose proof (applyGravity_field_force (massAt 0 0) (sourceAt_standard 200)) as H200.
  pose proof (applyGravity_field_force (massAt 0 0) (sourceAt_standard 50)) as H50.
  pose proof (applyGravity_field_force (massAt 0 0) (sourceAt_standard 500)) as H500.
  cbv zeta in H200, H50, H500.
  rewrite sourceAt_distance in H200, H50, H500 by lra.
  destruct H200 as [Hattract _]. destruct H50 as [_ [Hrepel _]].
  destruct H500 as [_ [_ Hnone]].
  split; [| split].
  - destruct Hattract as [Heq _]; [lra |].
    rewrite Heq. cbn. replace (200 - 0) with 200 by lra.
    replace (0 - 0) with 0 by lra. reflexivity.
  - destruct Hrepel as [Heq _]; [lra |].
    rewrite Heq. cbn. replace (50 - 0) with 50 by lra.
    replace (0 - 0) with 0 by lra. reflexivity.
  - apply Hnone. right. lra.
Defined.

End FieldForceScenario.

(** ** The integrator in exact arithmetic *)

Section Integrator.
Import Physics.
Local Open Scope R_scope.

Implicit Types (e : PhysicsEntity (N:=R)) (win : Window (N:=R)) (dt : R).

(** Shrinking each component shrinks the length. *)
Lemma norm_monotone (a b a' b' : R) :
  a' * a' <= a * a -> b' * b' <= b * b ->
  sqrt (a' * a' + b' * b') <= sqrt (a * a + b * b).
Proof. intros Ha Hb. apply sqrt_le_1_alt. lra. Qed.

Lemma limitSpeed_bound e :
  0 <= maxSpeed e -> speedOf (limitSpeed e) <= maxSpeed e.
Proof.
  intro Hmax. unfold limitSpeed, speedOf. js_real.
  set (s := sqrt (vx e * vx e + vy e * vy e)).
  destruct (Rltb (maxSpeed e) s) eqn:Hcmp.
  - apply Rltb_spec in Hcmp. cbn.
    assert (Hs : 0 < s) by lra.
    rewrite scaled_unit_norm; [lra | | exact Hmax].
    apply (unit_direction (vx e) (vy e)). exact Hs.
  - fold s. unfold Rltb in Hcmp. destruct (Rlt_dec (maxSpeed e) s); [discriminate | lra].
Qed.

Lemma limitSpeed_maxSpeed e : maxSpeed (limitSpeed e) = maxSpeed e.
Proof. unfold limitSpeed. destruct (num_lt _ _); reflexivity. Qed.

Lemma bounceX_speed win e : speedOf (bounceX win e) <= speedOf e.
Proof.
  unfold bounceX, speedOf. js_real.
  destruct (Rltb (x e) (margin)); [| destruct (Rltb (innerWidth win - margin) (x e))];
    cbn; try lra; apply norm_monotone; nra.
Qed.

Lemma bounceY_speed win e : speedOf (bounceY win e) <= speedOf e.
Proof.
  unfold bounceY, speedOf. js_real.
  destruct (Rltb (y e) (margin)); [| destruct (Rltb (innerHeight win - margin) (y e))];
    cbn; try lra; apply norm_monotone; nra.
Qed.

Lemma bounceX_maxSpeed win e : maxSpeed (bounceX win e) = maxSpeed e.
Proof.
  unfold bounceX. destruct (num_lt _ _); [reflexivity |].
  destruct (num_lt _ _); reflexivity.
Qed.

Lemma bounceY_maxSpeed win e : maxSpeed (bounceY win e) = maxSpeed e.
Proof.
  unfold bounceY. destruct (num_lt _ _); [reflexivity |].
  destruct (num_lt _ _); reflexivity.
Qed.

Lemma update_maxSpeed win dt e : maxSpeed (update win dt e) = maxSpeed e.
Proof.
  unfold update, resetAcceleration, boundary, beforeBoundary. cbn [maxSpeed setAcceleration].
  rewrite bounceY_maxSpeed, bounceX_maxSpeed. cbn [maxSpeed integratePosition setPosition].
  rewrite limitSpeed_maxSpeed. reflexivity.
Qed.

(** C2, in exact real arithmetic.  After one full [update] the length of the
    velocity is at most [maxSpeed] (3 for every constructed entity; any cap
    that is not negative), for every state, acceleration and time delta; the
    mass is not zero, so that [applyForce] divides. *)
Theorem update_speed_bound win dt e :
  0 <= maxSpeed e -> mass e <> 0 ->
  sqrt (vx (update win dt e) * vx (update win dt e)
        + vy (update win dt e) * vy (update win dt e)) <= maxSpeed e.
Proof.
  intros Hmax _.
  change (speedOf (update win dt e) <= maxSpeed e).
  unfold update, boundary, beforeBoundary.
  set (e1 := applyDamping (integrateVelocity dt (springForce e))).
  assert (Hm1 : maxSpeed e1 = maxSpeed e) by reflexivity.
  apply Rle_trans with (speedOf (bounceY win (bounceX win (integratePosition dt (limitSpeed e1))))).
  { unfold speedOf, resetAcceleration. cbn. lra. }
  eapply Rle_trans; [apply bounceY_speed |].
  eapply Rle_trans; [apply bounceX_speed |].
  apply Rle_trans with (speedOf (limitSpeed e1)).
  { unfold speedOf, integratePosition. cbn. lra. }
  rewrite <- Hm1. apply limitSpeed_bound. rewrite Hm1. exact Hmax.
Qed.

End Integrator.

(** ** The rest position *)

Section RestPosition.
Import Physics.
Local Open Scope R_scope.

Implicit Types (e : PhysicsEntity (N:=R)) (win : Window (N:=R)) (dt : R).

Lemma entity_eq e (px py wx wy bx by_ : R) :
  px = x e -> py = y e -> wx = vx e -> wy = vy e -> bx = ax e -> by_ = ay e ->
  {| x := px; y := py; vx := wx; vy := wy; ax := bx; ay := by_;
     mass := mass e; damping := damping e; maxSpeed := maxSpeed e;
     originalX := originalX e; originalY := originalY e |} = e.
Proof. intros -> -> -> -> -> ->. destruct e; reflexivity. Qed.

(** Up to the boundary check, a step leaves a mass at rest alone except for
    the acceleration, which is still zero in value. *)
Lemma rest_beforeBoundary dt e :
  atRest e -> 0 <= maxSpeed e ->
  beforeBoundary dt e = e.
Proof.
  intros (Hvx & Hvy & Hax & Hay & Hx & Hy) Hmax.
  unfold beforeBoundary, integratePosition, limitSpeed, applyDamping,
    integrateVelocity, springForce, applyForce, springStrength.
  cbn [x y vx vy ax ay mass damping maxSpeed originalX originalY
       setPosition setVelocity setAcceleration]. js_real.
  rewrite Hvx, Hvy, Hax, Hay, <- Hx, <- Hy.
  set (wx := (0 + (0 + (x e - x e) * (5 / 10000) / mass e) * dt) * damping e).
  set (wy := (0 + (0 + (y e - y e) * (5 / 10000) / mass e) * dt) * damping e).
  assert (Hwx : wx = 0) by (unfold wx, Rdiv; ring).
  assert (Hwy : wy = 0) by (unfold wy, Rdiv; ring).
  assert (Hs : sqrt (wx * wx + wy * wy) = 0).
  { rewrite Hwx, Hwy. replace (0 * 0 + 0 * 0) with 0 by ring. apply sqrt_0. }
  rewrite Hs, (Rltb_false Hmax).
  unfold setPosition, setVelocity, setAcceleration.
  cbn [x y vx vy ax ay mass damping maxSpeed originalX originalY].
  fold wx wy.
  apply entity_eq; rewrite ?Hwx, ?Hwy, ?Hax, ?Hay; unfold Rdiv; try ring;
    try (symmetry; assumption).
Qed.

Lemma boundary_inside win e : insideMargins win e -> boundary win e = e.
Proof.
  intros [[Hx1 Hx2] [Hy1 Hy2]]. unfold boundary.
  assert (HX : bounceX win e = e).
  { unfold bounceX, margin. js_real.
    rewrite (Rltb_false Hx1), (@Rltb_false (innerWidth win - 100) (x e)) by lra.
    reflexivity. }
  rewrite HX. unfold bounceY, margin. js_real.
  rewrite (Rltb_false Hy1), (@Rltb_false (innerHeight win - 100) (y e)) by lra.
  reflexivity.
Qed.

Lemma rest_update win dt e :
  atRest e -> insideMargins win e -> 0 <= maxSpeed e ->
  update win dt e = e.
Proof.
  intros Hrest Hin Hmax. unfold update.
  rewrite (rest_beforeBoundary dt Hrest Hmax), (boundary_inside Hin).
  destruct Hrest as (_ & _ & Hax & Hay & _).
  unfold resetAcceleration, setAcceleration. js_real.
  apply entity_eq; try reflexivity; symmetry; assumption.
Qed.

(** C6, as amended.  A point mass at rest at its rest position, with zero
    acceleration and no force applied between frames, keeps its position (and
    its whole state) through any number of integration steps, provided the
    rest position lies inside the margin box of the window. *)
Theorem rest_position_fixed win (dts : list R) e :
  atRest e -> insideMargins win e -> 0 <= maxSpeed e -> mass e <> 0 ->
  steps win dts e = e
  /\ x (steps win dts e) = x e /\ y (steps win dts e) = y e.
Proof.
  intros Hrest Hin Hmax _.
  assert (Hfix : steps win dts e = e).
  { unfold steps. induction dts as [| dt dts IH]; [reflexivity |].
    cbn [fold_left]. rewrite (rest_update dt Hrest Hin Hmax). exact IH. }
  rewrite Hfix. repeat split; reflexivity.
Qed.

End RestPosition.

(** ** The boundary check, for either reading of the numbers *)

Section Bounce.
Import Physics.
Context {N : Type} `{JsNumber N}.
Local Open Scope js_scope.

Implicit Types (e : PhysicsEntity (N:=N)) (win : Window (N:=N)).

Lemma bounceY_x win e : x (bounceY win e) = x e.
Proof.
  unfold bounceY. destruct (y e <? margin); [reflexivity |].
  destruct (y e >? innerHeight win - margin); reflexivity.
Qed.

Lemma bounceY_vx win e : vx (bounceY win e) = vx e.
Proof.
  unfold bounceY. destruct (y e <? margin); [reflexivity |].
  destruct (y e >? innerHeight win - margin); reflexivity.
Qed.

Lemma bounceX_y win e : y (bounceX win e) = y e.
Proof.
  unfold bounceX. destruct (x e <? margin); [reflexivity |].
  destruct (x e >? innerWidth win - margin); reflexivity.
Qed.

Lemma bounceX_vy win e : vy (bounceX win e) = vy e.
Proof.
  unfold bounceX. destruct (x e <? margin); [reflexivity |].
  destruct (x e >? innerWidth win - margin); reflexivity.
Qed.

(** C7, as amended.  With [b] the entity after position integration: if
    [b.x < margin] the step ends with [x = margin] and [vx = b.vx * -0.5]; if
    that test fails and [b.x > width - margin], with [x = width - margin] and
    [vx = b.vx * -0.5]; and likewise for [y], [vy] and the height. *)
Theorem boundary_bounce win (dt : N) e :
  ((x (beforeBoundary dt e) <? margin) = true ->
     x (update win dt e) = margin
     /\ vx (update win dt e) = vx (beforeBoundary dt e) * - decimal 5 1)
  /\ ((x (beforeBoundary dt e) <? margin) = false ->
      (x (beforeBoundary dt e) >? innerWidth win - margin) = true ->
     x (update win dt e) = innerWidth win - margin
     /\ vx (update win dt e) = vx (beforeBoundary dt e) * - decimal 5 1)
  /\ ((y (beforeBoundary dt e) <? margin) = true ->
     y (update win dt e) = margin
     /\ vy (update win dt e) = vy (beforeBoundary dt e) * - decimal 5 1)
  /\ ((y (beforeBoundary dt e) <? margin) = false ->
      (y (beforeBoundary dt e) >? innerHeight win - margin) = true ->
     y (update win dt e) = innerHeight win - margin
     /\ vy (update win dt e) = vy (beforeBoundary dt e) * - decimal 5 1).
Proof.
  unfold update, boundary. set (b := beforeBoundary dt e).
  cbn [x y vx vy resetAcceleration setAcceleration].
  rewrite bounceY_x, bounceY_vx.
  split; [| split; [| split]].
  - intro Hleft. unfold bounceX. rewrite Hleft. split; reflexivity.
  - intros Hleft Hright. unfold bounceX. rewrite Hleft, Hright. split; reflexivity.
  - intro Htop. unfold bounceY. rewrite bounceX_y, bounceX_vy, Htop.
    split; reflexivity.
  - intros Htop Hbottom. unfold bounceY. rewrite bounceX_y, bounceX_vy, Htop, Hbottom.
    split; reflexivity.
Qed.

End Bounce.

(** ** Containment in the margin box *)

Section Containment.
Import Physics World.
Local Open Scope R_scope.

Implicit Types (e : PhysicsEntity (N:=R)) (win : Window (N:=R)) (dt : R).

Lemma boundary_contained win e :
  200 <= innerWidth win -> 200 <= innerHeight win ->
  insideMargins win (boundary win e).
Proof.
  intros HW HH. unfold insideMargins, boundary.
  rewrite bounceY_x.
  split.
  - unfold bounceX, margin. js_real.
    destruct (Rltb (x e) 100) eqn:Hl; [cbn; lra |].
    destruct (Rltb (innerWidth win - 100) (x e)) eqn:Hr; [cbn; lra |].
    unfold Rltb in Hl, Hr.
    destruct (Rlt_dec (x e) 100); [discriminate |].
    destruct (Rlt_dec (innerWidth win - 100) (x e)); [discriminate | lra].
  - unfold bounceY, margin. js_real.
    set (e1 := bounceX win e).
    destruct (Rltb (y e1) 100) eqn:Hl; [cbn; lra |].
    destruct (Rltb (innerHeight win - 100) (y e1)) eqn:Hr; [cbn; lra |].
    unfold Rltb in Hl, Hr.
    destruct (Rlt_dec (y e1) 100); [discriminate |].
    destruct (Rlt_dec (innerHeight win - 100) (y e1)); [discriminate | lra].
Qed.

Lemma applyForce_position (fx fy : R) e :
  x (applyForce fx fy e) = x e /\ y (applyForce fx fy e) = y e.
Proof. split; reflexivity. Qed.

Lemma applyGravity_position (w : PhysicsWorld (N:=R)) e :
  x (applyGravity w e) = x e /\ y (applyGravity w e) = y e.
Proof.
  unfold applyGravity.
  destruct (_ && _); [split; reflexivity |].
  destruct (_ && _); split; reflexivity.
Qed.

Lemma repelPair_position e1 e2 :
  (x (fst (repelPair e1 e2)) = x e1 /\ y (fst (repelPair e1 e2)) = y e1)
  /\ (x (snd (repelPair e1 e2)) = x e2 /\ y (snd (repelPair e1 e2)) = y e2).
Proof.
  unfold repelPair. destruct (_ && _); repeat split; reflexivity.
Qed.

Lemma clickForce_position (cx cy : R) e :
  x (clickForce cx cy e) = x e /\ y (clickForce cx cy e) = y e.
Proof. unfold clickForce. destruct (_ && _); split; reflexivity. Qed.

Lemma resetPosition_position e :
  x (resetPosition e) = x e /\ y (resetPosition e) = y e.
Proof. split; reflexivity. Qed.

(** Containment in exact real arithmetic.  In a window at least 200 wide and
    200 high, the position after a full [update] lies in the margin box,
    whatever the state before, the mass not being zero; and the operations
    that only apply forces leave the position where it was, so containment
    once reached is kept. *)
Theorem update_contained win dt e :
  200 <= innerWidth win -> 200 <= innerHeight win -> mass e <> 0 ->
  (100 <= x (update win dt e) <= innerWidth win - 100
   /\ 100 <= y (update win dt e) <= innerHeight win - 100)
  /\ (forall (w : PhysicsWorld (N:=R)) (other : PhysicsEntity (N:=R)) (fx fy : R),
        insideMargins win e ->
        insideMargins win (applyForce fx fy e)
        /\ insideMargins win (applyGravity w e)
        /\ insideMargins win (fst (repelPair e other))
        /\ insideMargins win (snd (repelPair other e))
        /\ insideMargins win (clickForce fx fy e)
        /\ insideMargins win (resetPosition e)).
Proof.
  intros HW HH _. split.
  - exact (@boundary_contained win (beforeBoundary dt e) HW HH).
  - intros w other fx fy Hin. unfold insideMargins in *.
    destruct (applyGravity_position w e) as [-> ->].
    destruct (repelPair_position e other) as [[-> ->] _].
    destruct (repelPair_position other e) as [_ [-> ->]].
    destruct (clickForce_position fx fy e) as [-> ->].
    cbn [x y applyForce setAcceleration resetPosition setVelocity].
    repeat split; apply Hin.
Qed.

End Containment.

(** ** Pairwise repulsion *)

(** *** The double loop, in either reading of the numbers *)
Section RepulsionLoop.
Import Physics World.
Context {N : Type} `{JsNumber N}.

Implicit Types (e : PhysicsEntity (N:=N)) (es later : list (PhysicsEntity (N:=N))).

Lemma repelAgainst_length e later :
  List.length (snd (repelAgainst e later)) = List.length later.
Proof.
  revert e. induction later as [| e2 rest IH]; intro e; [reflexivity |].
  cbn [repelAgainst]. destruct (repelPair e e2) as [e1' e2'].
  specialize (IH e1'). destruct (repelAgainst e1' rest) as [e1'' rest'].
  cbn [snd List.length] in *. rewrite IH. reflexivity.
Qed.

Lemma repulsionLoop_length (fuel : nat) es :
  List.length (repulsionLoop fuel es) = List.length es.
Proof.
  revert es. induction fuel as [| fuel IH]; intro es; [reflexivity |].
  destruct es as [| e1 later]; [reflexivity |].
  cbn [repulsionLoop]. pose proof (repelAgainst_length e1 later) as Hlen.
  destruct (repelAgainst e1 later) as [e1' later'].
  cbn [snd List.length] in *. rewrite IH, Hlen. reflexivity.
Qed.

Lemma nth_error_middle (pre post : list (PhysicsEntity (N:=N))) e :
  nth_error (pre ++ e :: post) (List.length pre) = Some e.
Proof. induction pre as [| p pre IH]; [reflexivity | exact IH]. Qed.

Lemma setNth_middle (pre post : list (PhysicsEntity (N:=N))) e e' :
  setNth (List.length pre) e' (pre ++ e :: post) = pre ++ e' :: post.
Proof.
  induction pre as [| p pre IH]; [reflexivity |].
  cbn [List.length app setNth]. rewrite IH. reflexivity.
Qed.

(** The inner loop over the indices of [later], with [e1] at index [i]. *)
Lemma innerLoop_repelAgainst later :
  forall pre e1 mid,
  innerLoop (List.length pre) (List.length (pre ++ e1 :: mid)) (List.length later)
    (pre ++ e1 :: mid ++ later)
  = pre ++ fst (repelAgainst e1 later) :: mid ++ snd (repelAgainst e1 later).
Proof.
  induction later as [| e2 rest IH]; intros pre e1 mid; [reflexivity |].
  cbn [List.length innerLoop repelAgainst].
  rewrite nth_error_middle.
  replace (pre ++ e1 :: mid ++ e2 :: rest) with ((pre ++ e1 :: mid) ++ e2 :: rest)
    by (rewrite <- app_assoc; reflexivity).
  rewrite nth_error_middle.
  destruct (repelPair e1 e2) as [e1' e2'].
  rewrite <- app_assoc. cbn [app].
  rewrite setNth_middle.
  replace (pre ++ e1' :: mid ++ e2 :: rest) with ((pre ++ e1' :: mid) ++ e2 :: rest)
    by (rewrite <- app_assoc; reflexivity).
  replace (List.length (pre ++ e1 :: mid)) with (List.length (pre ++ e1' :: mid))
    by (rewrite !length_app; reflexivity).
  rewrite setNth_middle.
  replace (S (List.length (pre ++ e1' :: mid)))
    with (List.length (pre ++ e1' :: (mid ++ [e2'])))
    by (rewrite !length_app; cbn [List.length]; rewrite length_app; cbn [List.length]; lia).
  replace ((pre ++ e1' :: mid) ++ e2' :: rest) with (pre ++ e1' :: (mid ++ [e2']) ++ rest)
    by (rewrite <- !app_assoc; reflexivity).
  rewrite IH. destruct (repelAgainst e1' rest) as [e1'' rest'].
  cbn [fst snd]. rewrite <- !app_assoc. reflexivity.
Qed.

Lemma outerLoop_repulsionLoop (count : nat) :
  forall pre es, count = List.length es ->
  outerLoop (List.length pre) count (pre ++ es) = pre ++ repulsionLoop count es.
Proof.
  induction count as [| c IH]; intros pre es Hcount; [reflexivity |].
  destruct es as [| e1 later]; [discriminate |].
  cbn [outerLoop repulsionLoop].
  replace (List.length (pre ++ e1 :: later) - S (List.length pre))%nat
    with (List.length later) by (rewrite length_app; cbn [List.length]; lia).
  replace (S (List.length pre)) with (List.length (pre ++ e1 :: []))
    by (rewrite length_app; cbn [List.length]; lia).
  pose proof (innerLoop_repelAgainst later pre e1 []) as Hinner.
  cbn [app] in Hinner. rewrite Hinner. clear Hinner.
  pose proof (repelAgainst_length e1 later) as Hlen.
  destruct (repelAgainst e1 later) as [e1' later'].
  cbn [fst snd app] in *.
  replace (List.length (pre ++ [e1])) with (List.length (pre ++ [e1']))
    by (rewrite !length_app; reflexivity).
  replace (pre ++ e1' :: later') with ((pre ++ [e1']) ++ later')
    by (rewrite <- app_assoc; reflexivity).
  rewrite IH by (cbn [List.length] in Hcount; lia).
  rewrite <- app_assoc. reflexivity.
Qed.

(** The double loop over indices is the recursion over the list. *)
Lemma applyEntityRepulsion_recursive es :
  applyEntityRepulsion es = repulsionLoop (List.length es) es.
Proof.
  unfold applyEntityRepulsion.
  exact (@outerLoop_repulsionLoop (List.length es) [] es eq_refl).
Qed.

Lemma applyEntityRepulsion_length es :
  List.length (applyEntityRepulsion es) = List.length es.
Proof. rewrite applyEntityRepulsion_recursive. apply repulsionLoop_length. Qed.

End RepulsionLoop.

Section Repulsion.
Import Physics World.
Local Open Scope R_scope.

Implicit Types (e o : PhysicsEntity (N:=R)).

Lemma separation_sym (a b c d : R) :
  sqrt ((a - b) * (a - b) + (c - d) * (c - d))
  = sqrt ((b - a) * (b - a) + (d - c) * (d - c)).
Proof. f_equal. ring. Qed.

Lemma push_zero e : push (0, 0) e = e.
Proof.
  unfold push, applyForce, setAcceleration. js_real. cbn [fst snd].
  apply entity_eq; try reflexivity; unfold Rdiv; ring.
Qed.

(** The loop body gives each of the two its [pairForce]. *)
Lemma repelPair_forces e1 e2 :
  repelPair e1 e2 = (push (pairForce e1 e2) e1, push (pairForce e2 e1) e2).
Proof.
  unfold repelPair, pairForce. js_real.
  rewrite (separation_sym (x e1) (x e2) (y e1) (y e2)).
  set (d := sqrt ((x e2 - x e1) * (x e2 - x e1) + (y e2 - y e1) * (y e2 - y e1))).
  destruct (Rltb d 150 && Rltb 0 d) eqn:Hrange.
  - apply andb_true_iff in Hrange. destruct Hrange as [_ Hpos].
    apply Rltb_spec in Hpos. assert (Hne : d <> 0) by lra.
    unfold push. cbn [fst snd]. replace 0.5 with (5 / 10) by lra.
    f_equal; f_equal; field; exact Hne.
  - rewrite !push_zero. reflexivity.
Qed.

Lemma pairForce_positions e e' o o' :
  x e = x e' -> y e = y e' -> x o = x o' -> y o = y o' ->
  pairForce e o = pairForce e' o'.
Proof. intros Hx Hy Hox Hoy. unfold pairForce. rewrite Hx, Hy, Hox, Hoy. reflexivity. Qed.

Lemma pairForce_push_l f e o : pairForce (push f e) o = pairForce e o.
Proof. apply pairForce_positions; reflexivity. Qed.

Lemma pairForce_push_r f e o : pairForce e (push f o) = pairForce e o.
Proof. apply pairForce_positions; reflexivity. Qed.

Lemma repelAgainst_forces e1 later :
  repelAgainst e1 later
  = (pushes (map (pairForce e1) later) e1,
     map (fun o => push (pairForce o e1) o) later).
Proof.
  revert e1. induction later as [| e2 rest IH]; intro e1; [reflexivity |].
  cbn [repelAgainst]. rewrite repelPair_forces, IH.
  reflexivity.
Qed.

Lemma others_map (g : PhysicsEntity (N:=R) -> PhysicsEntity (N:=R)) k es :
  others k (map g es) = map g (others k es).
Proof. unfold others. rewrite map_app, firstn_map, skipn_map. reflexivity. Qed.

Lemma repulsionLoop_forces (fuel : nat) :
  forall es, (List.length es <= fuel)%nat ->
  forall k e, nth_error es k = Some e ->
  nth_error (repulsionLoop fuel es) k
  = Some (pushes (map (pairForce e) (others k es)) e).
Proof.
  induction fuel as [| fuel IH]; intros es Hlen k e Hk.
  - destruct es; [destruct k; discriminate | cbn in Hlen; lia].
  - destruct es as [| e1 later]; [destruct k; discriminate |].
    cbn [repulsionLoop]. rewrite repelAgainst_forces.
    destruct k as [| k].
    + cbn in Hk. injection Hk as ->. reflexivity.
    + cbn [nth_error] in Hk |- *.
      set (g := fun o => push (pairForce o e1) o).
      assert (Hk' : nth_error (map g later) k = Some (g e)).
      { rewrite nth_error_map, Hk. reflexivity. }
      rewrite (IH (map g later)) with (e := g e);
        [| rewrite length_map; cbn in Hlen; lia | exact Hk'].
      rewrite others_map, map_map. reflexivity.
Qed.

End Repulsion.

Section RepulsionClaim.
Import Physics World.
Local Open Scope R_scope.

Implicit Types (e o : PhysicsEntity (N:=R)).

Lemma pairForce_in_range e o :
  let d := sqrt ((x o - x e) * (x o - x e) + (y o - y e) * (y o - y e)) in
  0 < d < 150 ->
  pairForce e o = (0.5 * ((x e - x o) / d), 0.5 * ((y e - y o) / d)).
Proof.
  intros d [Hpos Hlt]. unfold pairForce.
  rewrite (separation_sym (x e) (x o) (y e) (y o)). fold d.
  rewrite (Rltb_true Hlt), (Rltb_true Hpos). reflexivity.
Qed.

Lemma pairForce_out_of_range e o :
  let d := sqrt ((x o - x e) * (x o - x e) + (y o - y e) * (y o - y e)) in
  150 <= d \/ d = 0 -> pairForce e o = (0, 0).
Proof.
  intros d Hout. unfold pairForce.
  rewrite (separation_sym (x e) (x o) (y e) (y o)). fold d.
  destruct Hout as [Hfar | Hzero].
  - rewrite (Rltb_false Hfar). reflexivity.
  - rewrite (@Rltb_false 0 d) by lra. rewrite andb_false_r. reflexivity.
Qed.

(** C8, in exact real arithmetic.  The pass leaves every entity with the
    forces [pairForce] of all the others applied to it, each once.  For a
    pair at distance [0 < d < 150]
    the loop body applies to the first the force [0.5 * (p1 - p2) / d], of
    length 0.5 and pointing away from the second, and to the second the exact
    negation; for [d >= 150] or [d = 0] it applies nothing. *)
Theorem pairwise_repulsion (es : list (PhysicsEntity (N:=R))) :
  (forall k e, nth_error es k = Some e ->
     nth_error (applyEntityRepulsion es) k
     = Some (pushes (map (pairForce e) (others k es)) e))
  /\ (forall e1 e2,
      let d := sqrt ((x e2 - x e1) * (x e2 - x e1) + (y e2 - y e1) * (y e2 - y e1)) in
      let fx := 0.5 * ((x e1 - x e2) / d) in
      let fy := 0.5 * ((y e1 - y e2) / d) in
      (0 < d < 150 ->
         repelPair e1 e2 = (applyForce fx fy e1, applyForce (- fx) (- fy) e2)
         /\ sqrt (fx * fx + fy * fy) = 0.5
         /\ pairForce e1 e2 = (fx, fy)
         /\ pairForce e2 e1 = (- fx, - fy))
      /\ (150 <= d \/ d = 0 ->
         repelPair e1 e2 = (e1, e2)
         /\ pairForce e1 e2 = (0, 0)
         /\ pairForce e2 e1 = (0, 0))).
Proof.
  split.
  - intros k e Hk. rewrite applyEntityRepulsion_recursive.
    apply repulsionLoop_forces; [lia | exact Hk].
  - intros e1 e2 d fx fy.
    assert (Hsym : sqrt ((x e1 - x e2) * (x e1 - x e2) + (y e1 - y e2) * (y e1 - y e2)) = d)
      by apply separation_sym.
    split.
    + intros [Hpos Hlt].
      assert (Hne : d <> 0) by lra.
      assert (H12 : pairForce e1 e2 = (fx, fy)).
      { apply pairForce_in_range. split; assumption. }
      assert (H21 : pairForce e2 e1 = (- fx, - fy)).
      { rewrite (pairForce_in_range e2 e1) by (rewrite Hsym; split; assumption).
        rewrite Hsym. unfold fx, fy. replace 0.5 with (5 / 10) by lra.
        f_equal; field; exact Hne. }
      split; [| split; [| split; assumption]].
      * rewrite repelPair_forces, H12, H21. reflexivity.
      * unfold fx, fy.
        replace (0.5 * ((x e1 - x e2) / d) * (0.5 * ((x e1 - x e2) / d))
                 + 0.5 * ((y e1 - y e2) / d) * (0.5 * ((y e1 - y e2) / d)))
          with ((x e1 - x e2) / d * 0.5 * ((x e1 - x e2) / d * 0.5)
                + (y e1 - y e2) / d * 0.5 * ((y e1 - y e2) / d * 0.5)) by ring.
        apply scaled_unit_norm; [| lra].
        pose proof (unit_direction (x e1 - x e2) (y e1 - y e2)) as Hu.
        cbv zeta in Hu. rewrite Hsym in Hu. apply Hu. exact Hpos.
    + intro Hout.
      assert (H12 : pairForce e1 e2 = (0, 0)).
      { apply pairForce_out_of_range. exact Hout. }
      assert (H21 : pairForce e2 e1 = (0, 0)).
      { apply pairForce_out_of_range. rewrite Hsym. exact Hout. }
      split; [| split; assumption].
      rewrite repelPair_forces, H12, H21, !push_zero. reflexivity.
Qed.

End RepulsionClaim.

(** ** The mouse tracker *)

Section Tracker.
Import Page MouseTracker.
Context {N : Type} `{JsNumber N}.
Local Open Scope js_scope.

Implicit Types (t : Tracker (N:=N)) (ev : Event (N:=N)) (evs : list (Event (N:=N))).

Lemma deliver_app listening evs ev t :
  deliver listening (evs ++ [ev]) t = dispatch listening ev (deliver listening evs t).
Proof. unfold deliver. rewrite fold_left_app. reflexivity. Qed.

Lemma deliver_position listening evs t :
  mousePosition (deliver listening evs t)
  = lastRecordedFrom listening (mousePosition t) evs.
Proof.
  revert t. induction evs as [| ev evs IH]; intro t; [reflexivity |].
  cbn [deliver lastRecordedFrom fold_left].
  change (fold_left (fun s ev0 => dispatch listening ev0 s) evs (dispatch listening ev t))
    with (deliver listening evs (dispatch listening ev t)).
  rewrite IH. unfold lastRecordedFrom. f_equal.
  unfold dispatch. destruct (existsb _ listening); [| reflexivity].
  destruct ev as [cx cy l tp | | | ts l tp | ts l tp |]; cbn; try reflexivity;
    destruct ts as [| [cx cy] ts]; reflexivity.
Qed.

Lemma registered_mouseleave canvas touch :
  existsb (String.eqb "mouseleave") (snd (initMouseTracker (Some canvas) touch)) = true.
Proof. destruct touch; reflexivity. Qed.

Lemma registered_touchend canvas :
  existsb (String.eqb "touchend") (snd (initMouseTracker (Some canvas) true)) = true.
Proof. reflexivity. Qed.

(** C10.  With the listeners [initMouseTracker] adds to a canvas:
    [getMousePosition] is [null] before any event; after a [mouseleave], and
    on a touch device after a [touchend]; and exactly when tracking is off.
    When tracking is on it is the position recorded last (the initial
    [(0, 0)] if none was).  And [applyMouseForce] makes no call to the solver
    while it is [null]. *)
Theorem getMousePosition_tracking (touch : bool) (canvas : Element) evs :
  getMousePosition (loaded (N:=N)) = None
  /\ getMousePosition
       (deliver (snd (initMouseTracker (Some canvas) touch)) (evs ++ [MouseLeave]) loaded)
     = None
  /\ (touch = true ->
      getMousePosition
        (deliver (snd (initMouseTracker (Some canvas) touch)) (evs ++ [TouchEnd]) loaded)
      = None)
  /\ (isTracking (deliver (snd (initMouseTracker (Some canvas) touch)) evs loaded) = false
      <-> getMousePosition
            (deliver (snd (initMouseTracker (Some canvas) touch)) evs loaded) = None)
  /\ (isTracking (deliver (snd (initMouseTracker (Some canvas) touch)) evs loaded) = true ->
      getMousePosition (deliver (snd (initMouseTracker (Some canvas) touch)) evs loaded)
      = Some (lastRecorded (snd (initMouseTracker (Some canvas) touch)) evs))
  /\ (forall particles,
      getMousePosition (deliver (snd (initMouseTracker (Some canvas) touch)) evs loaded)
      = None ->
      PhysicsEngine.applyMouseForce touch
        (getMousePosition (deliver (snd (initMouseTracker (Some canvas) touch)) evs loaded))
        particles = []).
Proof.
  set (L := snd (initMouseTracker (Some canvas) touch)).
  set (t := deliver L evs loaded).
  split; [reflexivity |].
  split.
  { rewrite deliver_app. fold t. unfold dispatch.
    change (eventType MouseLeave) with "mouseleave".
    unfold L. rewrite registered_mouseleave. reflexivity. }
  split.
  { intros ->. rewrite deliver_app. unfold dispatch.
    change (eventType TouchEnd) with "touchend".
    unfold L. rewrite registered_touchend. reflexivity. }
  split.
  { unfold getMousePosition. destruct (isTracking t); split; intro Hx;
      try reflexivity; discriminate. }
  split.
  { intro Hon. unfold getMousePosition. rewrite Hon. f_equal.
    unfold t. rewrite deliver_position. reflexivity. }
  intros particles ->. reflexivity.
Qed.

End Tracker.

(** ** Missing elements at initialisation *)

Section MissingElements.
Import Page.

(** The overlay handles a missing canvas: one line on the console, no
    exception, nothing started. *)
Lemma initPhysicsEngine_missing_canvas (doc : Document) (s : PhysicsEngine.Engine) :
  getElementById doc "physics-canvas" = None ->
  PhysicsEngine.initPhysicsEngine false doc s
  = ([(Error, "Canvas element not found")], Return s).
Proof. intro Hnone. unfold PhysicsEngine.initPhysicsEngine. rewrite Hnone. reflexivity. Qed.

Lemma initMouseTracker_missing_canvas (touch : bool) :
  MouseTracker.initMouseTracker None touch
  = ([(Error, "Canvas element required for mouse tracking")], []).
Proof. reflexivity. Qed.

(** C4, at the page without the elements.  The overlay logs and returns;
    the star field and the title letters log nothing and leave
    initialisation with a [TypeError]. *)
Theorem missing_element_not_handled :
  PhysicsEngine.initPhysicsEngine false emptyPage (PhysicsEngine.loaded emptyPage [])
    = ([(Error, "Canvas element not found")],
       Return (PhysicsEngine.loaded emptyPage []))
  /\ StarField.onDOMContentLoaded emptyPage
    = ([], Throw (TypeError "Cannot read properties of null (reading 'getContext')"))
  /\ GravityBlog.setup emptyPage
    = ([], Throw (TypeError "Cannot read properties of null (reading 'appendChild')")).
Proof. repeat split. Qed.

End MissingElements.

(** ** Pause, resume and page visibility *)

Section Visibility.
Import Page PhysicsEngine.

Implicit Types (s : Engine).

Lemma getItem_setItem key value st : getItem key (setItem key value st) = Some value.
Proof. unfold setItem. cbn [getItem]. rewrite String.eqb_refl. reflexivity. Qed.

Lemma pauseSimulation_effect s :
  isPaused (pauseSimulation s) = true
  /\ running (pauseSimulation s) = false
  /\ savedState (pauseSimulation s) = Some "true".
Proof.
  unfold savedState, pauseSimulation, store, setButton, running.
  cbn [isPaused animationId localStorage]. rewrite getItem_setItem.
  repeat split.
Qed.

Lemma resumeSimulation_effect s :
  isPaused (resumeSimulation s) = false
  /\ running (resumeSimulation s) = true
  /\ savedState (resumeSimulation s) = Some "false".
Proof.
  unfold savedState, resumeSimulation, store, setButton, running, startSimulation.
  cbn [isPaused animationId localStorage]. rewrite getItem_setItem.
  destruct (animationId s); repeat split.
Qed.

(** Every toggle writes the flag, and the flag is the new [isPaused]. *)
Lemma onToggleClick_persists s :
  listening s = true ->
  isPaused (onToggleClick s) = negb (isPaused s)
  /\ savedState (onToggleClick s)
     = Some (if isPaused (onToggleClick s) then "true" else "false").
Proof.
  intro Hl. unfold onToggleClick. rewrite Hl.
  destruct (isPaused s) eqn:Hp.
  - destruct (resumeSimulation_effect s) as (-> & _ & ->). split; reflexivity.
  - destruct (pauseSimulation_effect s) as (-> & _ & ->). split; reflexivity.
Qed.

(** Hiding the page while the loop runs unpaused stops the loop, and writes
    the flag. *)
Lemma hidden_stops s :
  isPaused s = false ->
  running (onVisibilityChange true s) = false
  /\ isPaused (onVisibilityChange true s) = true
  /\ savedState (onVisibilityChange true s) = Some "true".
Proof.
  intro Hp. unfold onVisibilityChange. cbn [hidden isPaused]. rewrite Hp. cbn [andb negb].
  match goal with |- context [pauseSimulation ?s1] =>
    destruct (pauseSimulation_effect s1) as (-> & -> & ->) end.
  repeat split.
Qed.

(** The handler resumes on a visible page when paused and the flag is not
    ["true"]. *)
Lemma visible_resumes_unless_saved s :
  isPaused s = true -> savedState s <> Some "true" ->
  running (onVisibilityChange false s) = true.
Proof.
  intros Hp Hsaved. unfold onVisibilityChange. cbn [hidden isPaused localStorage].
  rewrite Hp. cbn [andb negb].
  unfold savedState in Hsaved.
  destruct (getItem "physics-paused" (localStorage s)) as [v |] eqn:Hv.
  - destruct (String.eqb v "true") eqn:Heq.
    + apply String.eqb_eq in Heq. subst v. contradiction Hsaved. reflexivity.
    + assert (Hres : forall s1, running (resumeSimulation s1) = true)
        by (intro s1; apply resumeSimulation_effect).
      destruct v as [| c v]; [apply Hres |].
      repeat (match goal with
              | |- context [match ?a with Ascii.Ascii _ _ _ _ _ _ _ _ => _ end] => destruct a
              | |- context [match ?b with true => _ | false => _ end] => destruct b
              | |- context [match ?v with EmptyString => _ | String _ _ => _ end] => destruct v
              end; try apply Hres; try discriminate Heq).
  - apply resumeSimulation_effect.
Qed.

Lemma pauseSimulation_stored s : pausedIsStored (pauseSimulation s).
Proof. intros _. apply pauseSimulation_effect. Qed.

Lemma resumeSimulation_stored s : pausedIsStored (resumeSimulation s).
Proof.
  intro Hp. destruct (resumeSimulation_effect s) as (Hnot & _).
  rewrite Hnot in Hp. discriminate.
Qed.

Lemma onToggleClick_stored s : pausedIsStored s -> pausedIsStored (onToggleClick s).
Proof.
  intro Hinv. unfold onToggleClick.
  destruct (listening s); [| exact Hinv].
  destruct (isPaused s); [apply resumeSimulation_stored | apply pauseSimulation_stored].
Qed.

Lemma onVisibilityChange_stored h s :
  pausedIsStored s -> pausedIsStored (onVisibilityChange h s).
Proof.
  intro Hinv. unfold onVisibilityChange. cbn [hidden isPaused localStorage].
  destruct (h && negb (isPaused s)); [apply pauseSimulation_stored |].
  destruct (negb h && isPaused s) eqn:Hvis; [| exact Hinv].
  apply andb_true_iff in Hvis. destruct Hvis as [_ Hp].
  specialize (Hinv Hp). unfold savedState in Hinv. rewrite Hinv. exact (fun _ => Hinv).
Qed.

Lemma step_stored ev s : pausedIsStored s -> pausedIsStored (step ev s).
Proof.
  intro Hinv. destruct ev as [| code tag | h |]; cbn [step].
  - apply onToggleClick_stored, Hinv.
  - unfold onKeydown. destruct (listening s); [| exact Hinv].
    destruct (_ || _); [| exact Hinv].
    destruct (negb _); [apply onToggleClick_stored, Hinv | exact Hinv].
  - apply onVisibilityChange_stored, Hinv.
  - unfold animate. destruct (animationId s); exact Hinv.
Qed.

Lemma run_stored evs : forall s, pausedIsStored s -> pausedIsStored (run evs s).
Proof.
  induction evs as [| ev evs IH]; intros s Hinv; [exact Hinv |].
  cbn [run fold_left]. apply IH, step_stored, Hinv.
Qed.

Lemma started_stored st : pausedIsStored (started st).
Proof.
  unfold started, pausedIsStored, savedState, setupPauseToggle, loaded, overlayPage.
  cbn [getElementById toggleBtn localStorage String.eqb Ascii.eqb Bool.eqb].
  destruct (getItem "physics-paused" st) as [v |] eqn:Hv; cbn; try discriminate.
  destruct v as [| c v]; cbn; try discriminate.
  repeat (match goal with
          | |- context [match ?a with Ascii.Ascii _ _ _ _ _ _ _ _ => _ end] => destruct a
          | |- context [match ?b with true => _ | false => _ end] => destruct b
          | |- context [match ?v with EmptyString => _ | String _ _ => _ end] => destruct v
          end; cbn; try discriminate).
  intros _. reflexivity.
Qed.

(** So in a session that starts with [initPhysicsEngine], whatever was stored
    and whatever the events, the page becoming visible never starts the loop:
    the resume branch of the listener is never taken. *)
Lemma visibility_never_resumes (st : Storage) (evs : list Event) :
  running (onVisibilityChange false (run evs (started st)))
  = running (run evs (started st)).
Proof.
  pose proof (run_stored evs (started_stored st)) as Hinv.
  set (s := run evs (started st)) in *.
  unfold onVisibilityChange. cbn [hidden isPaused localStorage andb negb].
  destruct (isPaused s) eqn:Hp; [| reflexivity].
  specialize (Hinv Hp). unfold savedState in Hinv. rewrite Hinv. reflexivity.
Qed.

(** C5, as the code stands.  From any state in which the user has not paused,
    hiding the page stops the loop and stores ["true"]; the page becoming
    visible again then finds ["true"] stored and does not resume: the loop
    stays stopped and [isPaused] stays set. *)
Theorem visible_again_stays_paused s :
  isPaused s = false ->
  running (onVisibilityChange true s) = false
  /\ running (run [VisibilityChange true; VisibilityChange false] s) = false
  /\ isPaused (run [VisibilityChange true; VisibilityChange false] s) = true
  /\ savedState (run [VisibilityChange true; VisibilityChange false] s) = Some "true".
Proof.
  intro Hp. destruct (hidden_stops s Hp) as (Hrun & Hpaused & Hsaved).
  split; [exact Hrun |].
  cbn [run fold_left step].
  set (s1 := onVisibilityChange true s) in *.
  unfold onVisibilityChange at 1 2 3. cbn [hidden isPaused localStorage].
  rewrite Hpaused. cbn [andb negb].
  unfold savedState in Hsaved. rewrite Hsaved.
  unfold savedState. cbn [running animationId isPaused localStorage].
  repeat split; assumption.
Qed.

End Visibility.

(** ** Doubles: what the browser computes *)

Section Doubles.
Import Physics World.
Local Open Scope float_scope.
#[local] Set Warnings "-inexact-float".

(** C2, the claim at doubles.  One orb, a click at [(400, 300)], the next
    frame 16 ms later ([dt = 1]): the clamp rescales the velocity to
    [(2.1213203435596428, 2.1213203435596428)].  The speed the program itself
    would compute from it is [3.0000000000000004 > 3], and the exact length of
    that velocity exceeds 3 as well. *)
Lemma update_speed_exceeds_in_doubles :
  entities (worldUpdate viewport 16 (applyClickForce 400 300 orbPage))
    = [update viewport 1 kicked]
  /\ vx (update viewport 1 kicked) = 2.1213203435596428
  /\ vy (update viewport 1 kicked) = 2.1213203435596428
  /\ maxSpeed (update viewport 1 kicked) = 3
  /\ num_sqrt (vx (update viewport 1 kicked) * vx (update viewport 1 kicked)
               + vy (update viewport 1 kicked) * vy (update viewport 1 kicked))%js
     = 3.0000000000000004
  /\ num_le
       (num_sqrt (vx (update viewport 1 kicked) * vx (update viewport 1 kicked)
                  + vy (update viewport 1 kicked) * vy (update viewport 1 kicked))%js)
       (maxSpeed (update viewport 1 kicked)) = false
  /\ longerThan (vx (update viewport 1 kicked)) (vy (update viewport 1 kicked))
       (maxSpeed (update viewport 1 kicked)) = Some true.
Proof. vm_compute. repeat split. Qed.

(** C3, at the failing input.  The star drifts onto the pointer, the nudge
    divides [0] by the distance [0], and both coordinates become NaN; the
    wrap tests are all false on NaN, so the star stays there. *)
Theorem star_nudge_divides_by_zero :
  Particles.x (Particles.drift starOntoPointer) = 100
  /\ Particles.y (Particles.drift starOntoPointer) = 50
  /\ PrimFloat.is_nan
       (Particles.x (Particles.updateParticle 100 50 1000 800 starOntoPointer)) = true
  /\ PrimFloat.is_nan
       (Particles.y (Particles.updateParticle 100 50 1000 800 starOntoPointer)) = true
  /\ float_finite
       (Particles.x (Particles.updateParticle 100 50 1000 800 starOntoPointer)) = false.
Proof. vm_compute. repeat split. Qed.

(** The four guarded normalisations at distance zero: nothing is divided,
    nothing applied. *)
Lemma guarded_at_distance_zero :
  applyGravity (pointerAt 500 400) (restingAt 500 400)
    = restingAt 500 400
  /\ repelPair (restingAt 500 400) (restingAt 500 400)
    = (restingAt 500 400, restingAt 500 400)
  /\ clickForce 500 400 (restingAt 500 400) = restingAt 500 400
  /\ PhysicsEngine.mouseForce false
       {| MouseTracker.x := 500; MouseTracker.y := 400 |}
       {| PhysicsEngine.positionX := 500; PhysicsEngine.positionY := 400 |} = None.
Proof. vm_compute. repeat split. Qed.

(** C7, the claim at the right edge of a narrow window.  At [x = 80] in a
    window 150 wide the entity is right of [width - margin = 50], yet the step
    puts it at [margin = 100], not at 50: the left test fired first. *)
Lemma right_edge_in_narrow_window :
  x (beforeBoundary 1 (restingAt 80 400)) = 80
  /\ (x (beforeBoundary 1 (restingAt 80 400)) >? innerWidth narrowViewport - margin)%js = true
  /\ x (update narrowViewport 1 (restingAt 80 400)) = 100
  /\ PrimFloat.eqb (x (update narrowViewport 1 (restingAt 80 400)))
       (innerWidth narrowViewport - margin)%js = false.
Proof. vm_compute. repeat split. Qed.

Lemma boundary_bounce_witness :
  (x (update viewport 1 thrownUpLeft) = 100
   /\ vx (update viewport 1 thrownUpLeft) = (vx (beforeBoundary 1 thrownUpLeft) * -0.5))
  /\ (x (update viewport 1 thrownDownRight) = 900
   /\ vx (update viewport 1 thrownDownRight) = (vx (beforeBoundary 1 thrownDownRight) * -0.5))
  /\ (y (update viewport 1 thrownUpLeft) = 100
   /\ vy (update viewport 1 thrownUpLeft) = (vy (beforeBoundary 1 thrownUpLeft) * -0.5))
  /\ (y (update viewport 1 thrownDownRight) = 700
   /\ vy (update viewport 1 thrownDownRight) = (vy (beforeBoundary 1 thrownDownRight) * -0.5)).
Proof.
  destruct (boundary_bounce viewport 1 thrownUpLeft) as (Hleft & _ & Htop & _).
  destruct (boundary_bounce viewport 1 thrownDownRight) as (_ & Hright & _ & Hbottom).
  split; [apply Hleft; vm_compute; reflexivity |].
  split; [apply Hright; vm_compute; reflexivity |].
  split; [apply Htop; vm_compute; reflexivity |].
  apply Hbottom; vm_compute; reflexivity.
Defined.

End Doubles.

(** ** Scenarios in exact arithmetic *)

Section Scenarios.
Import Physics World.
Local Open Scope R_scope.

Lemma massAt_atRest (px py : R) : atRest (massAt px py).
Proof. unfold atRest; cbn. repeat split; reflexivity. Qed.

Lemma update_speed_bound_witness :
  sqrt (vx (update viewportR 1 (applyForce 4 4 (massAt 500 400)))
        * vx (update viewportR 1 (applyForce 4 4 (massAt 500 400)))
        + vy (update viewportR 1 (applyForce 4 4 (massAt 500 400)))
          * vy (update viewportR 1 (applyForce 4 4 (massAt 500 400)))) <= 3.
Proof.
  apply (@update_speed_bound viewportR 1 (applyForce 4 4 (massAt 500 400))); cbn; lra.
Defined.

Lemma rest_position_fixed_witness :
  steps viewportR [1; 2; 0.5] (massAt 500 400) = massAt 500 400
  /\ x (steps viewportR [1; 2; 0.5] (massAt 500 400)) = 500
  /\ y (steps viewportR [1; 2; 0.5] (massAt 500 400)) = 400.
Proof.
  apply (@rest_position_fixed viewportR [1; 2; 0.5] (massAt 500 400)).
  - apply massAt_atRest.
  - unfold insideMargins; cbn. lra.
  - cbn. lra.
  - cbn. lra.
Defined.

(** C6, the claim as stated.  A mass at rest at the rest position
    [(50, 300)], left of the margin, is moved to [x = 100] by its first
    step. *)
Lemma rest_outside_margins_moves :
  atRest (massAt 50 300)
  /\ x (update viewportR 1 (massAt 50 300)) = 100
  /\ x (update viewportR 1 (massAt 50 300)) <> x (massAt 50 300).
Proof.
  split; [apply massAt_atRest |].
  assert (Hx : x (update viewportR 1 (massAt 50 300)) = 100).
  { unfold update.
    rewrite (@rest_beforeBoundary 1 (massAt 50 300) (massAt_atRest 50 300))
      by (cbn; lra).
    unfold resetAcceleration, boundary. cbn [x setAcceleration].
    rewrite bounceY_x. unfold bounceX, margin. js_real.
    rewrite (@Rltb_true (x (massAt 50 300)) 100) by (cbn; lra).
    reflexivity. }
  split; [exact Hx |].
  rewrite Hx. cbn. lra.
Qed.

Lemma update_contained_witness :
  (100 <= x (update viewportR 1 (applyForce 4 4 (massAt 50 300))) <= 1000 - 100
   /\ 100 <= y (update viewportR 1 (applyForce 4 4 (massAt 50 300))) <= 800 - 100).
Proof.
  apply (@update_contained viewportR 1 (applyForce 4 4 (massAt 50 300))); cbn; lra.
Defined.

Lemma distance_on_axis (a b c : R) :
  a <= b -> sqrt ((b - a) * (b - a) + (c - c) * (c - c)) = b - a.
Proof.
  intro Hab. replace ((b - a) * (b - a) + (c - c) * (c - c)) with ((b - a) * (b - a)) by ring.
  apply sqrt_square. lra.
Qed.

Lemma applyForce_eq (fx fy gx gy : R) (e : PhysicsEntity (N:=R)) :
  fx = gx -> fy = gy -> applyForce fx fy e = applyForce gx gy e.
Proof. intros -> ->. reflexivity. Qed.

(** Three unit masses on a line: the first two 100 apart, the third 600
    further on.  The pass pushes the first two apart by 0.5 each and leaves
    the third alone. *)
Lemma pairwise_repulsion_witness :
  nth_error (applyEntityRepulsion [massAt 300 300; massAt 400 300; massAt 1000 300]) 0
    = Some (applyForce (- 0.5) 0 (massAt 300 300))
  /\ nth_error (applyEntityRepulsion [massAt 300 300; massAt 400 300; massAt 1000 300]) 1
    = Some (applyForce 0.5 0 (massAt 400 300))
  /\ nth_error (applyEntityRepulsion [massAt 300 300; massAt 400 300; massAt 1000 300]) 2
    = Some (massAt 1000 300).
Proof.
  destruct (pairwise_repulsion [massAt 300 300; massAt 400 300; massAt 1000 300])
    as [Hpass Hpair].
  destruct (Hpair (massAt 300 300) (massAt 400 300)) as [Hnear _].
  destruct (Hpair (massAt 300 300) (massAt 1000 300)) as [_ Hfar1].
  destruct (Hpair (massAt 400 300) (massAt 1000 300)) as [_ Hfar2].
  cbn [x y massAt] in Hnear, Hfar1, Hfar2.
  rewrite distance_on_axis in Hnear, Hfar1, Hfar2 by lra.
  destruct Hnear as (_ & _ & HAB & HBA); [lra |].
  destruct Hfar1 as (_ & HAC & HCA); [left; lra |].
  destruct Hfar2 as (_ & HBC & HCB); [left; lra |].
  rewrite (Hpass 0%nat (massAt 300 300) eq_refl).
  rewrite (Hpass 1%nat (massAt 400 300) eq_refl).
  rewrite (Hpass 2%nat (massAt 1000 300) eq_refl).
  unfold others. cbn [firstn skipn app map pushes fold_left].
  rewrite HAB, HBA, HAC, HCA, HBC, HCB, !push_zero.
  unfold push. cbn [fst snd].
  split; [| split]; try reflexivity; f_equal; apply applyForce_eq; lra.
Defined.

End Scenarios.

Section OverlayScenarios.
Import Page.
Local Open Scope float_scope.

Lemma getMousePosition_tracking_witness :
  MouseTracker.getMousePosition
    (MouseTracker.deliver (snd (MouseTracker.initMouseTracker (Some (Canvas true)) true))
       ([MouseTracker.MouseMove 120 80 20 30] ++ [MouseTracker.TouchEnd])
       MouseTracker.loaded) = None
  /\ MouseTracker.getMousePosition
    (MouseTracker.deliver (snd (MouseTracker.initMouseTracker (Some (Canvas true)) true))
       [MouseTracker.MouseMove 120 80 20 30] MouseTracker.loaded)
     = Some {| MouseTracker.x := 100; MouseTracker.y := 50 |}.
Proof.
  destruct (getMousePosition_tracking (N:=float) true (Canvas true)
              [MouseTracker.MouseMove 120 80 20 30])
    as (_ & _ & Hend & _ & Hon & _).
  split.
  - apply Hend. reflexivity.
  - rewrite Hon by reflexivity. vm_compute. reflexivity.
Defined.

Lemma visible_again_stays_paused_witness :
  PhysicsEngine.running (started []) = true
  /\ PhysicsEngine.running
       (PhysicsEngine.run
          [PhysicsEngine.VisibilityChange true; PhysicsEngine.VisibilityChange false]
          (started [])) = false.
Proof.
  split; [reflexivity |].
  apply (@visible_again_stays_paused (started [])). reflexivity.
Defined.

End OverlayScenarios.

(** ** The guards before the divisions *)

Section Guards.
Import Physics World.
Context {N : Type} `{JsNumber N}.
Local Open Scope js_scope.

Implicit Types (e : PhysicsEntity (N:=N)).

(** The pairwise loop body, the click impulse and the steering force test
    [distance > 0] before they divide; when the test fails nothing is
    applied. *)
Lemma repelPair_guard e1 e2 :
  (num_sqrt ((x e2 - x e1) * (x e2 - x e1) + (y e2 - y e1) * (y e2 - y e1)) >? int 0)
  = false ->
  repelPair e1 e2 = (e1, e2).
Proof. intro Hg. unfold repelPair. rewrite Hg, andb_false_r. reflexivity. Qed.

Lemma clickForce_guard (cx cy : N) e :
  (num_sqrt ((x e - cx) * (x e - cx) + (y e - cy) * (y e - cy)) >? int 0) = false ->
  clickForce cx cy e = e.
Proof. intro Hg. unfold clickForce. rewrite Hg, andb_false_r. reflexivity. Qed.

Lemma mouseForce_guard (touch : bool) (m : MouseTracker.Position (N:=N))
  (b : PhysicsEngine.Body (N:=N)) :
  (num_sqrt ((MouseTracker.x m - PhysicsEngine.positionX b)
             * (MouseTracker.x m - PhysicsEngine.positionX b)
             + (MouseTracker.y m - PhysicsEngine.positionY b)
               * (MouseTracker.y m - PhysicsEngine.positionY b)) >? int 0) = false ->
  PhysicsEngine.mouseForce touch m b = None.
Proof.
  intro Hg. unfold PhysicsEngine.mouseForce. rewrite Hg, andb_false_r. reflexivity.
Qed.

(** The field force tests [distance > repulsionRadius] on one branch and
    [distance > 10] on the other. *)
Lemma applyGravity_guard (w : PhysicsWorld (N:=N)) e :
  (distanceTo (mouseX (mouse w)) (mouseY (mouse w)) e >? repulsionRadius w) = false ->
  (distanceTo (mouseX (mouse w)) (mouseY (mouse w)) e >? int 10) = false ->
  applyGravity w e = e.
Proof.
  unfold distanceTo. intros Hfar Hnear. unfold applyGravity.
  rewrite Hfar, Hnear, !andb_false_r. reflexivity.
Qed.

(** When the tests pass, the forces are these, in either reading; the force
    on the second of a pair is the negation of the force on the first. *)
Lemma repelPair_opposite e1 e2 :
  (num_sqrt ((x e2 - x e1) * (x e2 - x e1) + (y e2 - y e1) * (y e2 - y e1)) <? int 150)
  = true ->
  (num_sqrt ((x e2 - x e1) * (x e2 - x e1) + (y e2 - y e1) * (y e2 - y e1)) >? int 0)
  = true ->
  repelPair e1 e2
  = (applyForce
       (- ((x e2 - x e1)
           / num_sqrt ((x e2 - x e1) * (x e2 - x e1) + (y e2 - y e1) * (y e2 - y e1)))
        * decimal 5 1)
       (- ((y e2 - y e1)
           / num_sqrt ((x e2 - x e1) * (x e2 - x e1) + (y e2 - y e1) * (y e2 - y e1)))
        * decimal 5 1) e1,
     applyForce
       (- (- ((x e2 - x e1)
              / num_sqrt ((x e2 - x e1) * (x e2 - x e1) + (y e2 - y e1) * (y e2 - y e1)))
           * decimal 5 1))
       (- (- ((y e2 - y e1)
              / num_sqrt ((x e2 - x e1) * (x e2 - x e1) + (y e2 - y e1) * (y e2 - y e1)))
           * decimal 5 1)) e2).
Proof. intros Hlt Hpos. unfold repelPair. rewrite Hlt, Hpos. reflexivity. Qed.

Lemma applyGravity_attracts (w : PhysicsWorld (N:=N)) e :
  (distanceTo (mouseX (mouse w)) (mouseY (mouse w)) e <? gravityRadius w) = true ->
  (distanceTo (mouseX (mouse w)) (mouseY (mouse w)) e >? repulsionRadius w) = true ->
  applyGravity w e
  = applyForce
      ((mouseX (mouse w) - x e) / distanceTo (mouseX (mouse w)) (mouseY (mouse w)) e
       * (gravity w * mass e
          / (distanceTo (mouseX (mouse w)) (mouseY (mouse w)) e * decimal 1 2)))
      ((mouseY (mouse w) - y e) / distanceTo (mouseX (mouse w)) (mouseY (mouse w)) e
       * (gravity w * mass e
          / (distanceTo (mouseX (mouse w)) (mouseY (mouse w)) e * decimal 1 2))) e.
Proof.
  unfold distanceTo. intros Hin Hout. unfold applyGravity.
  rewrite Hin, Hout. reflexivity.
Qed.

Lemma applyGravity_repels (w : PhysicsWorld (N:=N)) e :
  (distanceTo (mouseX (mouse w)) (mouseY (mouse w)) e >? repulsionRadius w) = false ->
  (distanceTo (mouseX (mouse w)) (mouseY (mouse w)) e <=? repulsionRadius w) = true ->
  (distanceTo (mouseX (mouse w)) (mouseY (mouse w)) e >? int 10) = true ->
  applyGravity w e
  = applyForce
      (- ((mouseX (mouse w) - x e) / distanceTo (mouseX (mouse w)) (mouseY (mouse w)) e)
       * (int 2 * mass e
          / (distanceTo (mouseX (mouse w)) (mouseY (mouse w)) e * decimal 1 2)))
      (- ((mouseY (mouse w) - y e) / distanceTo (mouseX (mouse w)) (mouseY (mouse w)) e)
       * (int 2 * mass e
          / (distanceTo (mouseX (mouse w)) (mouseY (mouse w)) e * decimal 1 2))) e.
Proof.
  unfold distanceTo. intros Hout Hle Hnear. unfold applyGravity.
  rewrite Hout, Hle, Hnear, andb_false_r. reflexivity.
Qed.

(** The star nudge has the upper test only: inside the radius it divides by
    the distance whatever the distance is. *)
Lemma mouseInfluence_unguarded (mx my : N) (p : Particles.Particle (N:=N)) :
  (num_sqrt ((mx - Particles.x p) * (mx - Particles.x p)
             + (my - Particles.y p) * (my - Particles.y p)) <? int 200) = true ->
  Particles.mouseInfluence mx my p
  = Particles.moveTo
      (Particles.x p
       - (mx - Particles.x p)
         / num_sqrt ((mx - Particles.x p) * (mx - Particles.x p)
                     + (my - Particles.y p) * (my - Particles.y p))
         * ((int 200
             - num_sqrt ((mx - Particles.x p) * (mx - Particles.x p)
                         + (my - Particles.y p) * (my - Particles.y p))) / int 200)
         * decimal 5 1)
      (Particles.y p
       - (my - Particles.y p)
         / num_sqrt ((mx - Particles.x p) * (mx - Particles.x p)
                     + (my - Particles.y p) * (my - Particles.y p))
         * ((int 200
             - num_sqrt ((mx - Particles.x p) * (mx - Particles.x p)
                         + (my - Particles.y p) * (my - Particles.y p))) / int 200)
         * decimal 5 1) p.
Proof. intro Hin. unfold Particles.mouseInfluence. rewrite Hin. reflexivity. Qed.

End Guards.

(** ** A whole frame *)

Section Frame.
Import Physics World.
Local Open Scope R_scope.

Lemma worldUpdate_standard (win : Window (N:=R)) (now : R) (w : PhysicsWorld (N:=R)) :
  standard w -> standard (worldUpdate win now w).
Proof. intro Hs. exact Hs. Qed.

(** After a frame every entity of the world lies in the margin box. *)
Lemma worldUpdate_contained (win : Window (N:=R)) (now : R) (w : PhysicsWorld (N:=R)) :
  200 <= innerWidth win -> 200 <= innerHeight win ->
  Forall (insideMargins win) (entities (worldUpdate win now w)).
Proof.
  intros HW HH. unfold worldUpdate. cbn [entities].
  apply Forall_forall. intros e Hin. apply in_map_iff in Hin.
  destruct Hin as (e0 & <- & _).
  exact (@boundary_contained win (beforeBoundary _ e0) HW HH).
Qed.

(** The pass and the field force keep the number of entities. *)
Lemma worldUpdate_length (win : Window (N:=R)) (now : R) (w : PhysicsWorld (N:=R)) :
  List.length (entities (worldUpdate win now w)) = List.length (entities w).
Proof.
  unfold worldUpdate. cbn [entities].
  rewrite length_map, applyEntityRepulsion_length, length_map. reflexivity.
Qed.

End Frame.

(** ** More of the overlay *)

Section Startup.
Import Page PhysicsEngine.

Lemma initPhysicsEngine_missing_context (doc : Document) (s : Engine) :
  getElementById doc "physics-canvas" = Some (Canvas false) ->
  initPhysicsEngine false doc s
  = ([(Error, "Could not get canvas context")], Return s).
Proof. intro Hc. unfold initPhysicsEngine. rewrite Hc. reflexivity. Qed.

(** The flag is read at startup: with ["true"] stored, [setupPauseToggle]
    sets [isPaused]; [startSimulation], called next, starts the loop all the
    same, and hiding the page then leaves it running. *)
Lemma startup_with_saved_pause :
  initPhysicsEngine false overlayPage (loaded overlayPage [("physics-paused", "true")])
    = ([(Log, "Mouse tracker initialized"); (Log, "Physics engine initialized with")],
       Return (started [("physics-paused", "true")]))
  /\ isPaused (started [("physics-paused", "true")]) = true
  /\ running (started [("physics-paused", "true")]) = true
  /\ running (onVisibilityChange true (started [("physics-paused", "true")])) = true.
Proof. repeat split. Qed.

(** Without a stored flag the loop starts unpaused. *)
Lemma startup_without_saved_pause :
  isPaused (started []) = false /\ running (started []) = true
  /\ listening (started []) = true.
Proof. repeat split. Qed.

(** The user's pause survives the page being hidden and shown. *)
Lemma user_pause_survives_visibility :
  running (run [ToggleClick; VisibilityChange true; VisibilityChange false] (started []))
    = false
  /\ running (run [ToggleClick; ToggleClick] (started [])) = true.
Proof. repeat split. Qed.

(** Space and P toggle, unless a text field has the focus. *)
Lemma keydown_toggles :
  isPaused (onKeydown "Space" "BODY" (started [])) = true
  /\ isPaused (onKeydown "KeyP" "BODY" (started [])) = true
  /\ isPaused (onKeydown "Space" "INPUT" (started [])) = false
  /\ isPaused (onKeydown "KeyA" "BODY" (started [])) = false.
Proof. repeat split. Qed.

End Startup.

(** ** The scenarios at doubles *)

Section DoubleChecks.
Import Physics World.
Local Open Scope float_scope.
#[local] Set Warnings "-inexact-float".

(** The literals of the sources, as [decimal] builds them. *)
Lemma decimal_is_the_literal :
  decimal 5 4 = 0.0005 /\ decimal 98 2 = 0.98 /\ decimal 1 2 = 0.01
  /\ decimal 3 1 = 0.3 /\ decimal 5 1 = 0.5 /\ decimal 1 1 = 0.1.
Proof. vm_compute. repeat split. Qed.

(** The scenario of the specification at doubles: a unit mass at distance
    200, 50 and 500 from the source. *)
Lemma field_force_in_doubles :
  applyGravity (pointerAt 200 0) (restingAt 0 0)
    = applyForce 0.15 0 (restingAt 0 0)
  /\ applyGravity (pointerAt 50 0) (restingAt 0 0)
    = applyForce (-4) 0 (restingAt 0 0)
  /\ applyGravity (pointerAt 500 0) (restingAt 0 0) = restingAt 0 0.
Proof. vm_compute. repeat split. Qed.

Lemma rest_position_in_doubles :
  update viewport 1 (restingAt 500 400) = restingAt 500 400
  /\ update viewport 2 (update viewport 1 (restingAt 500 400)) = restingAt 500 400
  /\ x (update viewport 1 (restingAt 50 300)) = 100.
Proof. vm_compute. repeat split. Qed.

Lemma pairwise_repulsion_in_doubles :
  applyEntityRepulsion [restingAt 300 300; restingAt 400 300; restingAt 1000 300]
  = [applyForce (-0.5) 0 (restingAt 300 300);
     applyForce 0.5 0 (restingAt 400 300);
     restingAt 1000 300].
Proof. vm_compute. reflexivity. Qed.

(** A whole frame with the source half way between two masses 100 apart:
    both are repelled by the source and by each other, and clamped to speed 3. *)
Lemma frame_in_doubles :
  map (fun e => (x e, vx e))
    (entities (worldUpdate viewport 16
       (addEntity (restingAt 400 300) (addEntity (restingAt 300 300) (pointerAt 350 300)))))
  = [(297, -3); (403, 3)].
Proof. vm_compute. reflexivity. Qed.

End DoubleChecks.

(* ================================================================== *)
(** * Further properties of the code *)
(* ================================================================== *)

(** ** A frame of the entity simulation, for either reading of the numbers *)

Section FrameInvariants.
Import Physics World.
Context {N : Type} `{JsNumber N}.
Local Open Scope js_scope.

Implicit Types (e : PhysicsEntity (N:=N)) (es : list (PhysicsEntity (N:=N)))
  (w : PhysicsWorld (N:=N)) (win : Window (N:=N)).

Lemma applyGravity_body w e : body (applyGravity w e) = body e.
Proof.
  unfold applyGravity.
  destruct (_ && _); [reflexivity |]. destruct (_ && _); reflexivity.
Qed.

Lemma clickForce_body (cx cy : N) e : body (clickForce cx cy e) = body e.
Proof. unfold clickForce. destruct (_ && _); reflexivity. Qed.

Lemma repelPair_body e1 e2 :
  body (fst (repelPair e1 e2)) = body e1 /\ body (snd (repelPair e1 e2)) = body e2.
Proof. unfold repelPair. destruct (_ && _); split; reflexivity. Qed.

Lemma repelAgainst_body later :
  forall e1,
  body (fst (repelAgainst e1 later)) = body e1
  /\ map body (snd (repelAgainst e1 later)) = map body later.
Proof.
  induction later as [| e2 rest IH]; intro e1; [split; reflexivity |].
  cbn [repelAgainst].
  destruct (repelPair_body e1 e2) as [Hb1 Hb2].
  destruct (repelPair e1 e2) as [e1' e2']. cbn [fst snd] in Hb1, Hb2.
  destruct (IH e1') as [Hb1' Hrest].
  destruct (repelAgainst e1' rest) as [e1'' rest']. cbn [fst snd map] in *.
  split; [congruence |]. rewrite Hb2, Hrest. reflexivity.
Qed.

Lemma repulsionLoop_body (fuel : nat) :
  forall es, map body (repulsionLoop fuel es) = map body es.
Proof.
  induction fuel as [| fuel IH]; intro es; [reflexivity |].
  destruct es as [| e1 later]; [reflexivity |].
  cbn [repulsionLoop].
  destruct (repelAgainst_body later e1) as [Hb1 Hrest].
  destruct (repelAgainst e1 later) as [e1' later']. cbn [fst snd map] in *.
  rewrite Hb1, IH, Hrest. reflexivity.
Qed.

Lemma gravity_pass_body w es : map body (map (applyGravity w) es) = map body es.
Proof. rewrite map_map. apply map_ext. intro e. apply applyGravity_body. Qed.

Lemma repulsion_pass_body es : map body (applyEntityRepulsion es) = map body es.
Proof. rewrite applyEntityRepulsion_recursive. apply repulsionLoop_body. Qed.

(** X1.  The passes that apply forces ([applyGravity] over the entities, the
    pairwise repulsion, the click impulse) change accumulated accelerations
    only: every entity keeps its position, velocity, mass, damping, speed cap
    and rest position, and none is added, dropped or reordered. *)
Theorem force_passes_keep_bodies w (cx cy : N) es :
  map body (map (applyGravity w) es) = map body es
  /\ map body (applyEntityRepulsion es) = map body es
  /\ map body (entities (applyClickForce cx cy w)) = map body (entities w).
Proof.
  split; [| split].
  - apply gravity_pass_body.
  - apply repulsion_pass_body.
  - unfold applyClickForce. cbn [entities]. rewrite map_map.
    apply map_ext. intro e. apply clickForce_body.
Qed.

Lemma update_constants win (dt : N) e : constants (update win dt e) = constants e.
Proof.
  unfold update, resetAcceleration, boundary, bounceY, bounceX, beforeBoundary,
    integratePosition, limitSpeed.
  repeat match goal with
         | |- context [if ?b then _ else _] => destruct b
         end; reflexivity.
Qed.

Lemma update_acceleration win (dt : N) e :
  ax (update win dt e) = int 0 /\ ay (update win dt e) = int 0.
Proof. split; reflexivity. Qed.

(** X2.  A whole frame ([PhysicsWorld.update]) keeps the entities, in their
    order, each with its mass, damping, speed cap and rest position, and
    leaves every accumulated acceleration at zero: no force carries over to
    the next frame. *)
Theorem worldUpdate_keeps_entities win (now : N) w :
  map constants (entities (worldUpdate win now w)) = map constants (entities w)
  /\ Forall (fun e => ax e = int 0 /\ ay e = int 0) (entities (worldUpdate win now w)).
Proof.
  unfold worldUpdate. cbn [entities]. split.
  - rewrite map_map.
    rewrite (map_ext _ constants (fun e => update_constants win _ e)).
    assert (Hsnd : forall l : list (PhysicsEntity (N:=N)),
               map constants l = map snd (map body l)).
    { intro l. rewrite map_map. reflexivity. }
    rewrite !Hsnd, repulsion_pass_body, gravity_pass_body. reflexivity.
  - apply Forall_forall. intros e Hin. apply in_map_iff in Hin.
    destruct Hin as (e0 & <- & _). apply update_acceleration.
Qed.

End FrameInvariants.

(** ** The entity simulation in exact arithmetic *)

Section StepSize.
Import Physics World.
Local Open Scope R_scope.

Implicit Types (e : PhysicsEntity (N:=R)) (win : Window (N:=R)) (dt : R).

Lemma frameDelta_range (now : R) (w : PhysicsWorld (N:=R)) :
  lastTime w <= now -> 0 <= frameDelta now w <= 2.
Proof.
  intro Hnow. unfold frameDelta. js_real. split.
  - apply Rmin_glb; [| lra]. unfold Rdiv. apply Rmult_le_pos; lra.
  - apply Rmin_r.
Qed.

(** What the position integration adds is the clamped velocity times [dt]. *)
Lemma beforeBoundary_displacement dt e :
  0 <= maxSpeed e -> 0 <= dt ->
  sqrt ((x (beforeBoundary dt e) - x e) * (x (beforeBoundary dt e) - x e)
        + (y (beforeBoundary dt e) - y e) * (y (beforeBoundary dt e) - y e))
  <= maxSpeed e * dt.
Proof.
  intros Hmax Hdt. unfold beforeBoundary.
  set (e1 := applyDamping (integrateVelocity dt (springForce e))).
  assert (Hm1 : maxSpeed e1 = maxSpeed e) by reflexivity.
  assert (Hx1 : x (limitSpeed e1) = x e /\ y (limitSpeed e1) = y e).
  { unfold limitSpeed. destruct (num_lt _ _); split; reflexivity. }
  destruct Hx1 as [Hx1 Hy1].
  pose proof (@limitSpeed_bound e1) as Hlim. rewrite Hm1 in Hlim.
  specialize (Hlim Hmax). unfold speedOf in Hlim. js_real.
  set (e2 := limitSpeed e1) in *.
  unfold integratePosition. cbn [x y setPosition]. js_real.
  rewrite Hx1, Hy1.
  replace ((x e + vx e2 * dt - x e) * (x e + vx e2 * dt - x e)
           + (y e + vy e2 * dt - y e) * (y e + vy e2 * dt - y e))
    with ((vx e2 * vx e2 + vy e2 * vy e2) * (dt * dt)) by ring.
  rewrite sqrt_mult_alt by nra. rewrite (sqrt_square dt Hdt).
  apply Rmult_le_compat_r; assumption.
Qed.

(** X3.  However long the stall between two frames, the time step of a frame
    is at most 2 (and at least 0 when the clock has not gone back), and the
    position integration of that frame moves an entity by at most its speed
    cap times the step, 6 pixels for the constructed cap of 3; the mass is not
    zero, so that [applyForce] divides. *)
Theorem frame_moves_at_most (now : R) (w : PhysicsWorld (N:=R)) e :
  lastTime w <= now -> 0 <= maxSpeed e -> mass e <> 0 ->
  0 <= frameDelta now w <= 2
  /\ sqrt ((x (beforeBoundary (frameDelta now w) e) - x e)
           * (x (beforeBoundary (frameDelta now w) e) - x e)
           + (y (beforeBoundary (frameDelta now w) e) - y e)
             * (y (beforeBoundary (frameDelta now w) e) - y e))
     <= maxSpeed e * 2.
Proof.
  intros Hnow Hmax _. pose proof (frameDelta_range w Hnow) as Hdt.
  split; [exact Hdt |].
  eapply Rle_trans; [apply beforeBoundary_displacement; [exact Hmax | apply Hdt] |].
  apply Rmult_le_compat_l; [exact Hmax | apply Hdt].
Qed.

(** X4.  The click impulse, in exact arithmetic: an entity at distance
    [0 < d < 300] from the click receives the force [10 * (p - c) / d], of
    length 10 and pointing away from the click, whatever [d]; an entity at
    the click point or 300 or more away receives nothing. *)
Theorem clickForce_outward (cx cy : R) e :
  (0 < sqrt ((x e - cx) * (x e - cx) + (y e - cy) * (y e - cy)) < 300 ->
     clickForce cx cy e
     = applyForce
         ((x e - cx) / sqrt ((x e - cx) * (x e - cx) + (y e - cy) * (y e - cy)) * 10)
         ((y e - cy) / sqrt ((x e - cx) * (x e - cx) + (y e - cy) * (y e - cy)) * 10) e
     /\ sqrt (((x e - cx) / sqrt ((x e - cx) * (x e - cx) + (y e - cy) * (y e - cy)) * 10)
              * ((x e - cx) / sqrt ((x e - cx) * (x e - cx) + (y e - cy) * (y e - cy)) * 10)
              + ((y e - cy) / sqrt ((x e - cx) * (x e - cx) + (y e - cy) * (y e - cy)) * 10)
                * ((y e - cy) / sqrt ((x e - cx) * (x e - cx) + (y e - cy) * (y e - cy)) * 10))
        = 10)
  /\ (sqrt ((x e - cx) * (x e - cx) + (y e - cy) * (y e - cy)) = 0
      \/ 300 <= sqrt ((x e - cx) * (x e - cx) + (y e - cy) * (y e - cy)) ->
      clickForce cx cy e = e).
Proof.
  unfold clickForce. js_real.
  set (d := sqrt ((x e - cx) * (x e - cx) + (y e - cy) * (y e - cy))).
  split.
  - intros [Hpos Hlt]. rewrite (Rltb_true Hlt), (Rltb_true Hpos). cbn [andb].
    split; [reflexivity |].
    apply scaled_unit_norm; [| lra].
    apply (unit_direction (x e - cx) (y e - cy)). exact Hpos.
  - intros [Hzero | Hfar].
    + rewrite (@Rltb_false 0 d) by lra. rewrite andb_false_r. reflexivity.
    + rewrite (Rltb_false Hfar). reflexivity.
Qed.

End StepSize.

(** ** The cursor that follows the pointer *)

Section CursorFollows.
Import Cursor.
Local Open Scope R_scope.

Implicit Types (f : Follower (N:=R)).

Lemma updateCursor_gap f :
  mouseX (updateCursor f) = mouseX f /\ mouseY (updateCursor f) = mouseY f
  /\ mouseX (updateCursor f) - cursorX (updateCursor f) = 0.8 * (mouseX f - cursorX f)
  /\ mouseY (updateCursor f) - cursorY (updateCursor f) = 0.8 * (mouseY f - cursorY f).
Proof. unfold updateCursor; cbn. js_real. repeat split; lra. Qed.

(** X5.  While the pointer rests, every frame of [updateCursor] leaves four
    fifths of the gap between the cursor and the pointer: after [n] frames the
    gap is [0.8 ^ n] times what it was, on each axis, so the cursor closes in
    without ever passing the pointer. *)
Theorem cursor_closes_in (n : nat) f :
  mouseX (frames n f) - cursorX (frames n f) = 0.8 ^ n * (mouseX f - cursorX f)
  /\ mouseY (frames n f) - cursorY (frames n f) = 0.8 ^ n * (mouseY f - cursorY f)
  /\ mouseX (frames n f) = mouseX f /\ mouseY (frames n f) = mouseY f.
Proof.
  induction n as [| n IH].
  - cbn. repeat split; lra.
  - unfold frames in *.
    change (Nat.iter (S n) updateCursor f) with (updateCursor (Nat.iter n updateCursor f)).
    set (g := Nat.iter n updateCursor f) in *.
    destruct IH as (IHx & IHy & IHmx & IHmy).
    destruct (updateCursor_gap g) as (Hmx & Hmy & Hx & Hy).
    rewrite Hx, Hy, Hmx, Hmy, IHx, IHy. cbn [pow].
    repeat split; try assumption; ring.
Qed.

End CursorFollows.

(** ** The title letters and the scatter impulse *)

Section TitleAndScatter.
Import Physics Title.
Local Open Scope R_scope.

Lemma on_circle (cx cy a r : R) :
  (cx + cos a * r - cx) * (cx + cos a * r - cx)
  + (cy + sin a * r - cy) * (cy + sin a * r - cy) = r * r.
Proof.
  replace ((cx + cos a * r - cx) * (cx + cos a * r - cx)
           + (cy + sin a * r - cy) * (cy + sin a * r - cy))
    with ((Rsqr (sin a) + Rsqr (cos a)) * (r * r)) by (unfold Rsqr; ring).
  rewrite sin2_cos2. ring.
Qed.

(** X6.  [createTitleLetters] places the seven letters of the title on the
    circle of radius 200 about the centre of the window, the first one
    straight above the centre. *)
Theorem letters_on_circle (win : Window (N:=R)) :
  List.length (letterPositions win) = 7%nat
  /\ Forall (fun p =>
               (fst p - innerWidth win / 2) * (fst p - innerWidth win / 2)
               + (snd p - innerHeight win / 2) * (snd p - innerHeight win / 2)
               = 200 * 200) (letterPositions win)
  /\ nth_error (letterPositions win) 0
     = Some (innerWidth win / 2, innerHeight win / 2 - 200).
Proof.
  split; [reflexivity |]. split.
  - unfold letterPositions. apply Forall_forall. intros p Hin.
    apply in_map_iff in Hin. destruct Hin as (i & <- & _).
    unfold letterPosition, radius. cbn [fst snd]. js_real.
    cbn [num_cos num_sin RealMath]. apply on_circle.
  - unfold letterPositions. cbn [seq String.length titleText map nth_error].
    unfold letterPosition, letterAngle, radius. js_real.
    cbn [num_cos num_sin num_PI RealMath String.length titleText Z.of_nat].
    change (Z.pos (Pos.of_succ_nat 6)) with 7%Z.
    replace (0 / 7 * PI * 2 - PI / 2) with (- (PI / 2)) by (unfold Rdiv; ring).
    rewrite cos_neg, sin_neg, cos_PI2, sin_PI2. f_equal. f_equal; ring.
Qed.

(** X7.  The scatter impulse of one entity is a force of length
    [5 + 10 * r2], which lies in [5, 15) for a draw [0 <= r2 < 1], along the
    angle [2 * PI * r1]; it changes the accumulated acceleration only. *)
Theorem scatter_force_length (r1 r2 : R) (e : PhysicsEntity (N:=R)) :
  0 <= r2 < 1 ->
  scatterElement r1 r2 e
  = applyForce (cos (r1 * PI * 2) * (5 + r2 * 10)) (sin (r1 * PI * 2) * (5 + r2 * 10)) e
  /\ sqrt ((cos (r1 * PI * 2) * (5 + r2 * 10)) * (cos (r1 * PI * 2) * (5 + r2 * 10))
           + (sin (r1 * PI * 2) * (5 + r2 * 10)) * (sin (r1 * PI * 2) * (5 + r2 * 10)))
     = 5 + r2 * 10
  /\ 5 <= 5 + r2 * 10 < 15
  /\ body (scatterElement r1 r2 e) = body e.
Proof.
  intros [Hlo Hhi]. split; [reflexivity |]. split.
  - apply scaled_unit_norm; [| lra].
    pose proof (sin2_cos2 (r1 * PI * 2)) as Hsc. unfold Rsqr in Hsc. lra.
  - split; [lra | reflexivity].
Qed.

End TitleAndScatter.

Section CardMass.
Import Title.

(** X8.  The mass of a card, [parseFloat(card.dataset.mass) || 2], is never
    zero and never NaN, whatever the attribute holds: a parsed value that is
    neither is kept, anything else becomes 2.  So [applyForce] never divides
    by a zero or NaN mass for a card. *)
Theorem cardMass_truthy (parsed : float) :
  float_truthy (cardMass parsed) = true
  /\ PrimFloat.is_nan (cardMass parsed) = false
  /\ PrimFloat.eqb (cardMass parsed) PrimFloat.zero = false
  /\ (float_truthy parsed = true -> cardMass parsed = parsed)
  /\ (float_truthy parsed = false -> cardMass parsed = 2%float).
Proof.
  assert (Ht : float_truthy (cardMass parsed) = true).
  { unfold cardMass. destruct (float_truthy parsed) eqn:Hp; [exact Hp | reflexivity]. }
  split; [exact Ht |].
  unfold float_truthy in Ht. apply negb_true_iff, orb_false_iff in Ht.
  destruct Ht as [Hnan Hzero].
  split; [exact Hnan |]. split; [exact Hzero |].
  unfold cardMass. split; intros ->; reflexivity.
Qed.

End CardMass.

(** ** The star field in exact arithmetic *)

Section Stars.
Import Particles Sky.
Local Open Scope R_scope.

Implicit Types (p : Particle (N:=R)).

Lemma wrap_contained (W H : R) p :
  0 <= W -> 0 <= H ->
  0 <= x (wrap W H p) <= W /\ 0 <= y (wrap W H p) <= H.
Proof.
  intros HW HH. unfold wrap. js_real.
  set (p1 := if Rltb (x p) 0 then moveTo W (y p) p else p).
  assert (H1 : 0 <= x p1).
  { unfold p1. destruct (Rltb (x p) 0) eqn:Hc; [cbn; lra |].
    unfold Rltb in Hc. destruct (Rlt_dec (x p) 0); [discriminate | lra]. }
  set (p2 := if Rltb W (x p1) then moveTo 0 (y p1) p1 else p1).
  assert (H2 : 0 <= x p2 <= W).
  { unfold p2. destruct (Rltb W (x p1)) eqn:Hc; [cbn; lra |].
    unfold Rltb in Hc. destruct (Rlt_dec W (x p1)); [discriminate | lra]. }
  set (p3 := if Rltb (y p2) 0 then moveTo (x p2) H p2 else p2).
  assert (H3 : 0 <= x p3 <= W /\ 0 <= y p3).
  { unfold p3. destruct (Rltb (y p2) 0) eqn:Hc; [cbn; lra |].
    unfold Rltb in Hc. destruct (Rlt_dec (y p2) 0); [discriminate | lra]. }
  destruct (Rltb H (y p3)) eqn:Hc; [cbn; lra |].
  unfold Rltb in Hc. destruct (Rlt_dec H (y p3)); [discriminate | lra].
Qed.

(** X9.  After [updateParticle] a star is on the canvas, [0 <= x <= width]
    and [0 <= y <= height], wherever the drift and the nudge had taken it: the
    edges wrap.  The star has not drifted exactly onto the pointer, so that
    the nudge divides. *)
Theorem updateParticle_on_canvas (mx my W H : R) p :
  0 <= W -> 0 <= H ->
  sqrt ((mx - x (drift p)) * (mx - x (drift p))
        + (my - y (drift p)) * (my - y (drift p))) <> 0 ->
  0 <= x (updateParticle mx my W H p) <= W
  /\ 0 <= y (updateParticle mx my W H p) <= H.
Proof. intros HW HH _. unfold updateParticle. apply wrap_contained; assumption. Qed.

(** X10.  The pointer nudge, in exact arithmetic: a star at distance
    [0 < d < 200] from the pointer is moved straight away from it by
    [0.5 * (200 - d) / 200], less than half a pixel, so that its distance
    becomes [d + 0.5 * (200 - d) / 200]; a star 200 or more away is left
    where it is. *)
Theorem mouseInfluence_pushes_away (mx my : R) p :
  (0 < sqrt ((mx - x p) * (mx - x p) + (my - y p) * (my - y p)) < 200 ->
     0 < 0.5 * ((200 - sqrt ((mx - x p) * (mx - x p) + (my - y p) * (my - y p))) / 200)
       < 0.5
     /\ sqrt ((mx - x (mouseInfluence mx my p)) * (mx - x (mouseInfluence mx my p))
              + (my - y (mouseInfluence mx my p)) * (my - y (mouseInfluence mx my p)))
        = sqrt ((mx - x p) * (mx - x p) + (my - y p) * (my - y p))
          + 0.5 * ((200 - sqrt ((mx - x p) * (mx - x p) + (my - y p) * (my - y p))) / 200)
     /\ sqrt ((x (mouseInfluence mx my p) - x p) * (x (mouseInfluence mx my p) - x p)
              + (y (mouseInfluence mx my p) - y p) * (y (mouseInfluence mx my p) - y p))
        = 0.5 * ((200 - sqrt ((mx - x p) * (mx - x p) + (my - y p) * (my - y p))) / 200))
  /\ (200 <= sqrt ((mx - x p) * (mx - x p) + (my - y p) * (my - y p)) ->
      mouseInfluence mx my p = p).
Proof.
  unfold mouseInfluence. js_real.
  set (dx := mx - x p). set (dy := my - y p).
  set (d := sqrt (dx * dx + dy * dy)).
  split.
  - intros [Hpos Hlt]. rewrite (Rltb_true Hlt). cbn [x y moveTo].
    set (k := 0.5 * ((200 - d) / 200)).
    assert (Hk : 0 < k < 0.5) by (unfold k; lra).
    assert (Hne : d <> 0) by lra.
    pose proof (unit_direction dx dy) as Hu. cbv zeta in Hu. fold d in Hu.
    specialize (Hu Hpos).
    pose proof (distance_sqr dx dy) as Hsq. fold d in Hsq.
    replace (dx / d * ((200 - d) / 200) * (5 / 10)) with (dx / d * k)
      by (unfold k; lra).
    replace (dy / d * ((200 - d) / 200) * (5 / 10)) with (dy / d * k)
      by (unfold k; lra).
    split; [exact Hk |]. split.
    + replace (mx - (x p - dx / d * k)) with (dx / d * (d + k))
        by (unfold dx; field; exact Hne).
      replace (my - (y p - dy / d * k)) with (dy / d * (d + k))
        by (unfold dy; field; exact Hne).
      apply scaled_unit_norm; [exact Hu | lra].
    + replace (x p - dx / d * k - x p) with (- (dx / d) * k) by ring.
      replace (y p - dy / d * k - y p) with (- (dy / d) * k) by ring.
      replace (- (dx / d) * k * (- (dx / d) * k) + - (dy / d) * k * (- (dy / d) * k))
        with (dx / d * k * (dx / d * k) + dy / d * k * (dy / d * k)) by ring.
      apply scaled_unit_norm; [exact Hu | lra].
  - intro Hfar. rewrite (Rltb_false Hfar). reflexivity.
Qed.

Lemma connectFrom_alpha p1 later :
  Forall (fun l => 0 < snd l <= 0.1) (connectFrom p1 later)
  /\ (List.length (connectFrom p1 later) <= List.length later)%nat.
Proof.
  induction later as [| p2 rest [IHa IHl]]; [split; [constructor | apply le_n] |].
  unfold connectFrom in *. cbn [flat_map]. js_real.
  set (d := sqrt ((x p1 - x p2) * (x p1 - x p2) + (y p1 - y p2) * (y p1 - y p2))).
  assert (Hd : 0 <= d) by apply sqrt_pos.
  destruct (Rltb d 150) eqn:Hc.
  - apply Rltb_spec in Hc. cbn [app List.length]. split; [| lia].
    constructor; [| exact IHa]. cbn [snd]. lra.
  - cbn [app List.length]. split; [exact IHa | lia].
Qed.

(** X11.  Every line [drawConnections] strokes has an alpha in (0, 0.1],
    0.1 for coinciding stars and less the farther they are apart; and for
    [n] stars it strokes at most [n * (n - 1) / 2] lines, one for each pair
    at most. *)
Theorem drawConnections_alpha (ps : list (Particle (N:=R))) :
  Forall (fun l => 0 < snd l <= 0.1) (drawConnections ps)
  /\ (2 * List.length (drawConnections ps)
      <= List.length ps * (List.length ps - 1))%nat.
Proof.
  induction ps as [| p1 later [IHa IHl]]; [split; [constructor | apply le_n] |].
  cbn [drawConnections]. destruct (connectFrom_alpha p1 later) as [Ha Hl].
  split.
  - apply Forall_app. split; assumption.
  - rewrite length_app. cbn [List.length]. nia.
Qed.

(** X12.  What [drawParticle] draws of a star with depth [z >= 0] and
    brightness [b >= 0], at any time: the perspective scale [s] is in (0, 1];
    the star is drawn between the centre of the canvas and its own position,
    the offset from the centre scaled by [s]; and its alpha lies between
    [0.4 * b * s] and [b * s]. *)
Theorem drawParticle_bounds (W H time : R) p :
  0 <= z p -> 0 <= brightness p ->
  0 < scaleOf p <= 1
  /\ x2d (drawParticle W H p time) - W / 2 = scaleOf p * (x p - W / 2)
  /\ y2d (drawParticle W H p time) - H / 2 = scaleOf p * (y p - H / 2)
  /\ brightness p * 0.4 * scaleOf p <= alpha (drawParticle W H p time)
     <= brightness p * scaleOf p
  /\ middleAlpha (drawParticle W H p time) = alpha (drawParticle W H p time) / 2.
Proof.
  intros Hz Hb.
  assert (Hs : 0 < scaleOf p <= 1).
  { unfold scaleOf. js_real. split.
    - apply Rdiv_lt_0_compat; lra.
    - apply (Rmult_le_reg_r (1000 + z p)); [lra |].
      unfold Rdiv. rewrite Rmult_assoc, Rinv_l by lra. lra. }
  split; [exact Hs |].
  unfold drawParticle, drawWith. cbn [x2d y2d alpha middleAlpha]. js_real.
  cbn [num_sin RealMath].
  set (s := scaleOf p) in *.
  pose proof (SIN_bound (time * twinkleSpeed p + twinkleOffset p)) as [Hlo Hhi].
  set (sine := sin (time * twinkleSpeed p + twinkleOffset p)) in *.
  split; [ring |]. split; [ring |]. split; [| lra].
  assert (Hbs : 0 <= brightness p * s) by (apply Rmult_le_pos; lra).
  split.
  - replace (brightness p * (sine * (3 / 10) + 7 / 10) * s)
      with (brightness p * s * (sine * (3 / 10) + 7 / 10)) by ring.
    replace (brightness p * 0.4 * s) with (brightness p * s * 0.4) by ring.
    apply Rmult_le_compat_l; [exact Hbs | lra].
  - replace (brightness p * (sine * (3 / 10) + 7 / 10) * s)
      with (brightness p * s * (sine * (3 / 10) + 7 / 10)) by ring.
    rewrite <- (Rmult_1_r (brightness p * s)) at 2.
    apply Rmult_le_compat_l; [exact Hbs | lra].
Qed.

End Stars.

(** *** The stars of [init], for either reading of the numbers *)

Section StarCount.
Import Particles Sky.
Context {N : Type} `{JsNumber N} `{JsMath N}.

Lemma updateParticle_look (mx my W Hh : N) (p : Particle (N:=N)) :
  z (updateParticle mx my W Hh p) = z p
  /\ brightness (updateParticle mx my W Hh p) = brightness p
  /\ baseSize (updateParticle mx my W Hh p) = baseSize p
  /\ speedX (updateParticle mx my W Hh p) = speedX p
  /\ speedY (updateParticle mx my W Hh p) = speedY p.
Proof.
  unfold updateParticle, wrap, mouseInfluence, drift.
  repeat match goal with
         | |- context [if ?b then _ else _] => destruct b
         end; repeat split.
Qed.

(** X13.  [init] creates 200 stars and no frame adds or removes one; a frame
    changes the position of a star only, never its depth, brightness, size or
    drift. *)
Theorem star_field_keeps_its_stars (W Hh : N) (random : nat -> N)
  (pointers : list (N * N)) :
  List.length
    (fold_left (fun ps m => animate (fst m) (snd m) W Hh ps) pointers (init W Hh random))
  = 200%nat
  /\ map (fun p => (z p, brightness p, baseSize p, speedX p, speedY p))
       (fold_left (fun ps m => animate (fst m) (snd m) W Hh ps) pointers
          (init W Hh random))
     = map (fun p => (z p, brightness p, baseSize p, speedX p, speedY p))
         (init W Hh random).
Proof.
  assert (Hlook : forall ms ps,
            map (fun p => (z p, brightness p, baseSize p, speedX p, speedY p))
              (fold_left (fun ps m => animate (fst m) (snd m) W Hh ps) ms ps)
            = map (fun p => (z p, brightness p, baseSize p, speedX p, speedY p)) ps).
  { induction ms as [| m ms IH]; intro ps; [reflexivity |].
    cbn [fold_left]. rewrite IH. unfold animate. rewrite map_map.
    apply map_ext. intro p.
    destruct (updateParticle_look (fst m) (snd m) W Hh p) as (-> & -> & -> & -> & ->).
    reflexivity. }
  split; [| apply Hlook].
  rewrite <- (length_map (fun p => (z p, brightness p, baseSize p, speedX p, speedY p))).
  rewrite Hlook, length_map. unfold init. rewrite length_map, length_seq. reflexivity.
Qed.

End StarCount.

(** ** The overlay: walls, resize, throttle *)

Section Walls.
Import Physics PhysicsEngine Overlay.
Local Open Scope R_scope.

(** X14.  The four walls of [createBoundaries] are 50 thick and lie just
    outside the canvas: the top wall spans the width of the canvas with its
    lower face on [y = 0], the bottom wall with its upper face on
    [y = height], the left wall spans the height with its right face on
    [x = 0], the right wall with its left face on [x = width]. *)
Theorem boundaries_enclose_canvas (W H : R) :
  exists top bottom left right,
    boundaries W H = [top; bottom; left; right]
    /\ (leftFace top = 0 /\ rightFace top = W
        /\ topFace top = -50 /\ bottomFace top = 0)
    /\ (leftFace bottom = 0 /\ rightFace bottom = W
        /\ topFace bottom = H /\ bottomFace bottom = H + 50)
    /\ (leftFace left = -50 /\ rightFace left = 0
        /\ topFace left = 0 /\ bottomFace left = H)
    /\ (leftFace right = W /\ rightFace right = W + 50
        /\ topFace right = 0 /\ bottomFace right = H).
Proof.
  unfold boundaries. do 4 eexists. split; [reflexivity |].
  unfold leftFace, rightFace, topFace, bottomFace; cbn. js_real.
  repeat split; lra.
Qed.

Implicit Types (sc : Scene (N:=R)) (win : Window (N:=R)).

Lemma resizeCanvas_size win sc :
  canvasWidth (resizeCanvas win sc) = innerWidth win
  /\ canvasHeight (resizeCanvas win sc) = innerHeight win.
Proof. unfold resizeCanvas. destruct (walls sc); split; reflexivity. Qed.

Lemma resizeCanvas_particles win sc ps :
  particles sc = Some ps -> 0 < canvasWidth sc -> 0 < canvasHeight sc ->
  particles (resizeCanvas win sc)
  = Some (map (fun b => {| positionX := positionX b * (innerWidth win / canvasWidth sc);
                           positionY := positionY b * (innerHeight win / canvasHeight sc) |})
              ps).
Proof.
  intros Hps HW HH. unfold resizeCanvas. rewrite Hps. js_real.
  rewrite (Rltb_true HW), (Rltb_true HH). cbn [andb].
  destruct (walls sc); reflexivity.
Qed.

Lemma body_eq (b : Body (N:=R)) (px py : R) :
  px = positionX b -> py = positionY b ->
  {| positionX := px; positionY := py |} = b.
Proof. intros -> ->. destruct b; reflexivity. Qed.

(** X15.  Resizing scales every body's position by the ratio of the new to
    the old canvas size, so the position relative to the canvas is kept; and
    resizing to another size and back puts every body where it was (exact
    arithmetic, all sizes positive). *)
Theorem resizeCanvas_proportional win win' sc ps :
  particles sc = Some ps ->
  0 < canvasWidth sc -> 0 < canvasHeight sc ->
  0 < innerWidth win' -> 0 < innerHeight win' ->
  canvasWidth sc = innerWidth win -> canvasHeight sc = innerHeight win ->
  (exists ps',
      particles (resizeCanvas win' sc) = Some ps'
      /\ Forall2 (fun b b' =>
                    positionX b' / innerWidth win' = positionX b / canvasWidth sc
                    /\ positionY b' / innerHeight win' = positionY b / canvasHeight sc)
           ps ps')
  /\ particles (resizeCanvas win (resizeCanvas win' sc)) = Some ps.
Proof.
  intros Hps HW HH HW' HH' HeqW HeqH.
  pose proof (resizeCanvas_particles win' sc Hps HW HH) as H1.
  split.
  - eexists. split; [exact H1 |].
    clear H1 Hps. induction ps as [| b ps IH]; [constructor |].
    cbn [map]. constructor; [| exact IH]. cbn [positionX positionY].
    split; field; lra.
  - destruct (resizeCanvas_size win' sc) as [Hw1 Hh1].
    rewrite (resizeCanvas_particles win (resizeCanvas win' sc) H1)
      by (rewrite ?Hw1, ?Hh1; assumption).
    rewrite Hw1, Hh1, map_map. f_equal.
    rewrite <- (map_id ps) at 2. apply map_ext. intro b.
    cbn [positionX positionY]. rewrite <- HeqW, <- HeqH.
    apply body_eq; field; lra.
Qed.

(** X16.  A resize to a window of width zero puts every body on [x = 0], and
    the later resizes, which find the old width zero, skip the scaling: the
    bodies keep [x = 0] whatever the window becomes. *)
Theorem resizeCanvas_through_zero win0 win sc ps :
  particles sc = Some ps ->
  0 < canvasWidth sc -> 0 < canvasHeight sc ->
  innerWidth win0 = 0 ->
  exists ps',
    particles (resizeCanvas win0 sc) = Some ps'
    /\ Forall (fun b => positionX b = 0) ps'
    /\ particles (resizeCanvas win (resizeCanvas win0 sc)) = Some ps'.
Proof.
  intros Hps HW HH Hzero.
  pose proof (resizeCanvas_particles win0 sc Hps HW HH) as H1.
  eexists. split; [exact H1 |]. split.
  - apply Forall_forall. intros b Hin. apply in_map_iff in Hin.
    destruct Hin as (b0 & <- & _). cbn [positionX]. rewrite Hzero.
    unfold Rdiv. ring.
  - destruct (resizeCanvas_size win0 sc) as [Hw1 _].
    unfold resizeCanvas at 1. rewrite H1, Hw1, Hzero. js_real.
    rewrite (@Rltb_false 0 0) by lra. cbn [andb].
    destruct (walls (resizeCanvas win0 sc)); reflexivity.
Qed.

Lemma executed_spaced (touch : bool) (ts : list R) :
  forall last, spaced (frameDelay touch) last (executed touch last ts)
               /\ (List.length (executed touch last ts) <= List.length ts)%nat.
Proof.
  induction ts as [| t rest IH]; intro last; [split; [exact I | apply le_n] |].
  cbn [executed]. unfold frameRuns. js_real.
  destruct (Rltb (t - last) (frameDelay touch)) eqn:Hc; cbn [negb].
  - destruct (IH last) as [Hs Hl]. split; [exact Hs | cbn [List.length]; lia].
  - destruct (IH t) as [Hs Hl]. cbn [spaced List.length]. split; [| lia].
    split; [| exact Hs].
    unfold Rltb in Hc. destruct (Rlt_dec (t - last) (frameDelay touch));
      [discriminate | lra].
Qed.

(** X17.  The throttle of [animate], within one run of the loop (one call
    of [startSimulation], whose [lastTime] starts at 0): the callbacks that
    update and render are each at least one frame interval after the one
    before (1000/60 ms on a desktop, 1000/30 ms on a touch device), the first
    at least one interval after time 0, and there are no more of them than
    callbacks.  The spacing does not carry over a pause and resume: the
    resumed run starts from [lastTime = 0] again, so of two successive runs
    the first callback of each updates as soon as its timestamp is one
    interval or more, however close the two are. *)
Theorem throttle_spaces_frames (touch : bool) (ts : list R) :
  spaced (frameDelay touch) 0 (executed touch 0 ts)
  /\ (List.length (executed touch 0%R ts) <= List.length ts)%nat
  /\ frameDelay touch = (if touch then 1000 / 30 else 1000 / 60)
  /\ (forall t1 t2 : R,
        frameDelay touch <= t1 -> frameDelay touch <= t2 ->
        updatesOfRuns touch [[t1]; [t2]] = [t1; t2]).
Proof.
  destruct (executed_spaced touch ts 0) as [Hs Hl].
  split; [exact Hs |]. split; [exact Hl |]. split.
  - unfold frameDelay, targetFPS. destruct touch; js_real; reflexivity.
  - intros t1 t2 H1 H2. unfold updatesOfRuns. cbn [flat_map executed app].
    unfold frameRuns. js_real.
    rewrite (@Rltb_false (t1 - 0) (frameDelay touch)) by lra.
    rewrite (@Rltb_false (t2 - 0) (frameDelay touch)) by lra.
    reflexivity.
Qed.

(** X18.  The steering force, in exact arithmetic: a body at distance
    [0 < d] less than the interaction radius (150 on a touch device, 250
    otherwise) from the pointer receives a force of length 0.0005 pointing at
    the pointer; a body at the pointer or at the radius or beyond receives
    none; and whatever receives a force on a touch device receives the same
    force on a desktop. *)
Theorem steering_force (touch : bool) (m : MouseTracker.Position (N:=R))
  (b : Body (N:=R)) :
  (0 < sqrt ((MouseTracker.x m - positionX b) * (MouseTracker.x m - positionX b)
             + (MouseTracker.y m - positionY b) * (MouseTracker.y m - positionY b))
     < (if touch then 150 else 250) ->
   exists fx fy,
     mouseForce touch m b = Some (fx, fy)
     /\ sqrt (fx * fx + fy * fy) = 0.0005
     /\ fx * sqrt ((MouseTracker.x m - positionX b) * (MouseTracker.x m - positionX b)
                   + (MouseTracker.y m - positionY b) * (MouseTracker.y m - positionY b))
        = 0.0005 * (MouseTracker.x m - positionX b)
     /\ fy * sqrt ((MouseTracker.x m - positionX b) * (MouseTracker.x m - positionX b)
                   + (MouseTracker.y m - positionY b) * (MouseTracker.y m - positionY b))
        = 0.0005 * (MouseTracker.y m - positionY b))
  /\ (sqrt ((MouseTracker.x m - positionX b) * (MouseTracker.x m - positionX b)
            + (MouseTracker.y m - positionY b) * (MouseTracker.y m - positionY b)) = 0
      \/ (if touch then 150 else 250)
         <= sqrt ((MouseTracker.x m - positionX b) * (MouseTracker.x m - positionX b)
                  + (MouseTracker.y m - positionY b) * (MouseTracker.y m - positionY b)) ->
      mouseForce touch m b = None)
  /\ (forall f, mouseForce true m b = Some f -> mouseForce false m b = Some f).
Proof.
  unfold mouseForce, interactionRadius, forceMagnitude. js_real.
  set (dx := MouseTracker.x m - positionX b).
  set (dy := MouseTracker.y m - positionY b).
  set (d := sqrt (dx * dx + dy * dy)).
  replace (5 / 10000) with 0.0005 by lra.
  split; [| split].
  - intros [Hpos Hlt]. exists (dx / d * 0.0005), (dy / d * 0.0005).
    assert (Hne : d <> 0) by lra.
    split.
    + destruct touch; js_real; rewrite (Rltb_true Hlt), (Rltb_true Hpos); reflexivity.
    + split; [| split; field; exact Hne].
      apply scaled_unit_norm; [| lra].
      apply (unit_direction dx dy). exact Hpos.
  - intros [Hzero | Hfar].
    + rewrite (@Rltb_false 0 d) by lra. rewrite andb_false_r. reflexivity.
    + destruct touch; js_real; rewrite (Rltb_false Hfar); reflexivity.
  - intros f. js_real.
    destruct (Rltb d 150) eqn:Hnear; cbn [andb]; [| discriminate].
    apply Rltb_spec in Hnear. rewrite (@Rltb_true d 250) by lra. cbn [andb].
    trivial.
Qed.

End Walls.

(** *** Walls after initialisation and after a resize, for either reading *)

Section WallCount.
Import Physics PhysicsEngine Overlay.
Context {N : Type} `{JsNumber N}.

(** X19.  [initPhysicsEngine] calls [resizeCanvas], which already builds the
    walls, and then [createBoundaries] again: the world starts with every wall
    twice.  Any later resize removes all static bodies and leaves exactly the
    four walls of the new size. *)
Theorem walls_after_init_and_resize (win win' : Window (N:=N)) (width0 height0 : N)
  (created : list (Body (N:=N))) :
  walls (initScene win width0 height0 created)
    = Some (boundaries (innerWidth win) (innerHeight win)
            ++ boundaries (innerWidth win) (innerHeight win))
  /\ walls (resizeCanvas win' (initScene win width0 height0 created))
    = Some (boundaries (innerWidth win') (innerHeight win'))
  /\ particles (initScene win width0 height0 created) = Some created.
Proof. repeat split. Qed.

End WallCount.

(** ** The overlay: keys, colours, start-up *)

Section Keys.
Import Page PhysicsEngine Overlay.

Implicit Types (s : Engine).

(** X20.  The key listener toggles only for Space and P, and never while an
    input or a text area has the focus; without the toggle button there is no
    listener at all.  In every other case it does what a click on the button
    does. *)
Theorem keydown_guard (code tag : string) s :
  onKeydown code "INPUT" s = s
  /\ onKeydown code "TEXTAREA" s = s
  /\ (code <> "Space" -> code <> "KeyP" -> onKeydown code tag s = s)
  /\ (listening s = false -> onKeydown code tag s = s)
  /\ (tag <> "INPUT" -> tag <> "TEXTAREA" ->
      onKeydown "Space" tag s = onToggleClick s
      /\ onKeydown "KeyP" tag s = onToggleClick s).
Proof.
  unfold onKeydown, onToggleClick.
  split; [| split; [| split; [| split]]].
  - destruct (listening s); [| reflexivity]. destruct (_ || _); reflexivity.
  - destruct (listening s); [| reflexivity]. destruct (_ || _); reflexivity.
  - intros HnotSpace HnotP. destruct (listening s); [| reflexivity].
    apply String.eqb_neq in HnotSpace, HnotP. rewrite HnotSpace, HnotP. reflexivity.
  - intros ->. reflexivity.
  - intros HnotInput HnotArea.
    apply String.eqb_neq in HnotInput, HnotArea.
    cbn [existsb]. rewrite HnotInput, HnotArea. cbn [orb negb String.eqb].
    destruct (listening s); split; reflexivity.
Qed.

Lemma startSimulation_running s : running (startSimulation s) = true.
Proof. unfold startSimulation, running. destruct (animationId s) eqn:Ha; cbn; [rewrite Ha |]; reflexivity. Qed.

Lemma loaded_not_running doc st : running (loaded doc st) = false.
Proof. reflexivity. Qed.

(** X21.  The page script starts the frame loop exactly when the browser
    reports no preference for reduced motion, does not report the preference
    [reduce], and the page has the canvas [#physics-canvas] with a 2d
    context; in every other case nothing is started. *)
Theorem loop_starts_iff (noPreference reduce : bool) (doc : Document) (st : Storage) :
  startedLoop (homeInteractive noPreference reduce doc st) = true
  <-> noPreference = true /\ reduce = false
      /\ getElementById doc "physics-canvas" = Some (Canvas true).
Proof.
  unfold startedLoop, homeInteractive, initPhysicsEngine.
  destruct noPreference, reduce; cbn [snd];
    try (split; [intro Hx; discriminate Hx | intros (Ha & Hb & _); discriminate]).
  destruct (getElementById doc "physics-canvas") as [[[|] |] |] eqn:Hc; cbn [snd].
  - rewrite startSimulation_running. split; [intros _; repeat split | reflexivity].
  - split; [intro Hx; discriminate Hx | intros (_ & _ & Hx); discriminate Hx].
  - split; [intro Hx; discriminate Hx | intros (_ & _ & Hx); discriminate Hx].
  - split; [intro Hx; discriminate Hx | intros (_ & _ & Hx); discriminate Hx].
Qed.

Lemma recolour_spec (colors : list string) (fills : list (option string)) :
  forall index,
  List.length (recolour colors index fills) = List.length fills
  /\ (forall i, (i < List.length fills)%nat ->
        nth_error (recolour colors index fills) i
        = Some (nth_error colors ((index + i) mod List.length colors)))
  /\ recolour colors index fills = recolour colors index (map (fun _ => None) fills).
Proof.
  induction fills as [| f rest IH]; intro index.
  - repeat split. intros i Hi. cbn in Hi. lia.
  - destruct (IH (S index)) as (Hlen & Hnth & Hindep). cbn [recolour List.length map].
    split; [rewrite Hlen; reflexivity |]. split.
    + intros [| i] Hi; cbn [nth_error].
      * rewrite Nat.add_0_r. reflexivity.
      * rewrite Hnth by lia. do 3 f_equal. lia.
    + rewrite Hindep. reflexivity.
Qed.

Lemma updateParticleColors_palette (dataMode : option string) :
  List.length (getThemeColors dataMode) = 4%nat /\ getThemeColors dataMode <> [].
Proof.
  assert (Hfour : List.length (getThemeColors dataMode) = 4%nat).
  { unfold getThemeColors.
    destruct dataMode as [m |]; [| reflexivity].
    repeat (match goal with
            | |- context [match ?a with Ascii.Ascii _ _ _ _ _ _ _ _ => _ end] => destruct a
            | |- context [match ?b with true => _ | false => _ end] => destruct b
            | |- context [match ?v with EmptyString => _ | String _ _ => _ end] => destruct v
            end; try reflexivity). }
  split; [exact Hfour |]. intro Hnil. rewrite Hnil in Hfour. discriminate.
Qed.

(** X22.  [updateParticleColors] gives particle [i] the colour
    [i mod 4] of the palette of the current theme, whatever colour it had:
    the count is kept, every fill is one of the four colours of the theme, and
    the result depends on the theme and the number of particles only.  Before
    the particles exist it does nothing. *)
Theorem updateParticleColors_cycles (dataMode : option string)
  (fills : list (option string)) :
  List.length (getThemeColors dataMode) = 4%nat
  /\ updateParticleColors dataMode None = None
  /\ exists fills',
       updateParticleColors dataMode (Some fills) = Some fills'
       /\ List.length fills' = List.length fills
       /\ (forall i, (i < List.length fills)%nat ->
             exists c, nth_error fills' i = Some (Some c)
                       /\ nth_error (getThemeColors dataMode) (i mod 4) = Some c)
       /\ updateParticleColors dataMode (Some (map (fun _ => None) fills)) = Some fills'.
Proof.
  destruct (updateParticleColors_palette dataMode) as [Hfour _].
  split; [exact Hfour |]. split; [reflexivity |].
  destruct (recolour_spec (getThemeColors dataMode) fills 0) as (Hlen & Hnth & Hindep).
  exists (recolour (getThemeColors dataMode) 0 fills).
  split; [reflexivity |]. split; [exact Hlen |]. split.
  - intros i Hi. rewrite (Hnth i Hi), Hfour. cbn [Nat.add].
    destruct (nth_error (getThemeColors dataMode) (i mod 4)) as [c |] eqn:Hc.
    + exists c. split; reflexivity.
    + apply nth_error_None in Hc. rewrite Hfour in Hc.
      pose proof (Nat.mod_upper_bound i 4). lia.
  - unfold updateParticleColors. rewrite <- Hindep. reflexivity.
Qed.

End Keys.

(** ** The tracker without its listeners *)

Section TrackerListeners.
Import Page MouseTracker.
Context {N : Type} `{JsNumber N}.

Implicit Types (t : Tracker (N:=N)) (evs : list (Event (N:=N))).

Lemma deliver_nothing evs t : deliver [] evs t = t.
Proof.
  revert t. induction evs as [| ev evs IH]; intro t; [reflexivity |].
  cbn [deliver fold_left]. unfold dispatch at 2. cbn [existsb]. apply IH.
Qed.

(** X23.  Called without a canvas, [initMouseTracker] logs an error and adds
    no listener, so [getMousePosition] is [null] whatever happens afterwards.
    On a device without touch no touch listener is added: touch events leave
    the tracker as it is. *)
Theorem tracker_without_listeners (touch : bool) (canvas : Element) evs t
  (touches : list (N * N)) (l tp : N) :
  fst (initMouseTracker None touch)
    = [(Error, "Canvas element required for mouse tracking")]
  /\ getMousePosition (deliver (snd (initMouseTracker None touch)) evs loaded) = None
  /\ dispatch (snd (initMouseTracker (Some canvas) false)) (TouchStart touches l tp) t = t
  /\ dispatch (snd (initMouseTracker (Some canvas) false)) (TouchMove touches l tp) t = t
  /\ dispatch (snd (initMouseTracker (Some canvas) false)) TouchEnd t = t
  /\ handleTouch [] l tp t = t.
Proof.
  split; [reflexivity |]. split.
  - cbn [initMouseTracker snd]. rewrite deliver_nothing. reflexivity.
  - repeat split.
Qed.

End TrackerListeners.

(** ** A session of the overlay *)

Section Session.
Import Page PhysicsEngine.

Implicit Types (s : Engine).

Lemma pauseSimulation_listening s : listening (pauseSimulation s) = listening s.
Proof. reflexivity. Qed.

Lemma resumeSimulation_listening s : listening (resumeSimulation s) = listening s.
Proof. unfold resumeSimulation, startSimulation. destruct (animationId _); reflexivity. Qed.

Lemma pauseSimulation_ok s : listening s = true -> sessionOk (pauseSimulation s).
Proof. intro Hl. split; [exact Hl | intro Hx; discriminate Hx]. Qed.

Lemma resumeSimulation_ok s : listening s = true -> sessionOk (resumeSimulation s).
Proof.
  intro Hl. split; [rewrite resumeSimulation_listening; exact Hl |].
  intros _. apply resumeSimulation_effect.
Qed.

Lemma onToggleClick_ok s : sessionOk s -> sessionOk (onToggleClick s).
Proof.
  intros [Hl Hr]. unfold onToggleClick. rewrite Hl.
  destruct (isPaused s); [apply resumeSimulation_ok | apply pauseSimulation_ok]; exact Hl.
Qed.

Lemma step_ok ev s : sessionOk s -> sessionOk (step ev s).
Proof.
  intros [Hl Hr]. destruct ev as [| code tag | h |]; cbn [step].
  - apply onToggleClick_ok. split; assumption.
  - unfold onKeydown. rewrite Hl.
    destruct (_ || _); [| split; assumption].
    destruct (negb _); [apply onToggleClick_ok |]; split; assumption.
  - unfold onVisibilityChange. cbn [hidden isPaused localStorage].
    destruct (h && negb (isPaused s)); [apply pauseSimulation_ok; exact Hl |].
    destruct (negb h && isPaused s) eqn:Hvis; [| split; assumption].
    destruct (getItem "physics-paused" (localStorage s)) as [v |];
      [| apply resumeSimulation_ok; exact Hl].
    assert (Hres : sessionOk (resumeSimulation
              {| isPaused := isPaused s; animationId := animationId s;
                 issued := issued s; localStorage := localStorage s;
                 toggleBtn := toggleBtn s; listening := listening s; hidden := h |}))
      by (apply resumeSimulation_ok; exact Hl).
    assert (Hsame : sessionOk
              {| isPaused := isPaused s; animationId := animationId s;
                 issued := issued s; localStorage := localStorage s;
                 toggleBtn := toggleBtn s; listening := listening s; hidden := h |})
      by (split; assumption).
    destruct v as [| c v]; [exact Hres |].
    repeat (match goal with
            | |- context [match ?a with Ascii.Ascii _ _ _ _ _ _ _ _ => _ end] => destruct a
            | |- context [match ?b with true => _ | false => _ end] => destruct b
            | |- context [match ?v with EmptyString => _ | String _ _ => _ end] => destruct v
            end; try exact Hres; try exact Hsame).
  - unfold animate. destruct (animationId s) eqn:Ha; [| split; assumption].
    split; [exact Hl | intros _; reflexivity].
Qed.

Lemma run_ok evs : forall s, sessionOk s -> sessionOk (run evs s).
Proof.
  induction evs as [| ev evs IH]; intros s Hok; [exact Hok |].
  cbn [run fold_left]. apply IH, step_ok, Hok.
Qed.

Lemma started_ok st : sessionOk (started st).
Proof.
  unfold started. split.
  - unfold startSimulation, setupPauseToggle, loaded, overlayPage.
    cbn [getElementById toggleBtn String.eqb Ascii.eqb Bool.eqb].
    destruct (animationId _); reflexivity.
  - intros _. apply startSimulation_running.
Qed.

(** X24.  Through a whole session of the overlay on a page with the canvas
    and the button, whatever was stored before and whatever the clicks, keys,
    visibility changes and frames: the listeners stay, the frame loop runs
    whenever the engine is not paused, and whenever it is paused the stored
    flag is ["true"].  Two clicks on the button bring [isPaused] back. *)
Theorem session_invariant (st : Storage) (evs : list Event) :
  listening (run evs (started st)) = true
  /\ (isPaused (run evs (started st)) = false -> running (run evs (started st)) = true)
  /\ (isPaused (run evs (started st)) = true
      -> savedState (run evs (started st)) = Some "true")
  /\ isPaused (run (evs ++ [ToggleClick; ToggleClick]) (started st))
     = isPaused (run evs (started st)).
Proof.
  destruct (run_ok evs (started_ok st)) as [Hl Hr].
  split; [exact Hl |]. split; [exact Hr |]. split.
  - apply (run_stored evs (started_stored st)).
  - unfold run. rewrite fold_left_app. fold (run evs (started st)).
    set (s := run evs (started st)) in *. cbn [fold_left step].
    destruct (onToggleClick_persists s Hl) as [H1 _].
    assert (Hl1 : listening (onToggleClick s) = true)
      by (apply (onToggleClick_ok (conj Hl Hr))).
    destruct (onToggleClick_persists (onToggleClick s) Hl1) as [H2 _].
    rewrite H2, H1. apply negb_involutive.
Qed.

End Session.

(** ** Creating the stars and the bodies, with draws in [0, 1) *)

Section Creation.
Import Particles Sky.
Local Open Scope R_scope.

Lemma scaleOf_range (p : Particle (N:=R)) :
  0 <= z p -> 0 < scaleOf p <= 1.
Proof.
  intro Hz. unfold scaleOf. js_real. split.
  - apply Rdiv_lt_0_compat; lra.
  - apply (Rmult_le_reg_r (1000 + z p)); [lra |].
    unfold Rdiv. rewrite Rmult_assoc, Rinv_l by lra. lra.
Qed.

Lemma scaleOf_near (p : Particle (N:=R)) :
  0 <= z p < 1000 -> 0.5 < scaleOf p.
Proof.
  intros [Hz Hz']. unfold scaleOf. js_real.
  apply (Rmult_lt_reg_r (1000 + z p)); [lra |].
  unfold Rdiv. rewrite Rmult_assoc, Rinv_l by lra. lra.
Qed.

(** X25.  Every star [init] creates, its draws being in [0, 1), is on the
    canvas, has a depth in [0, 1000), a brightness in [0.5, 1), a drift of at
    most 0.1 pixel a frame on each axis, and is drawn at any time with an
    alpha strictly between 0.1 and 1. *)
Theorem init_stars_in_range (W H time : R) (random : nat -> R) :
  0 <= W -> 0 <= H -> (forall k, 0 <= random k < 1) ->
  Forall (fun p =>
            (0 <= x p <= W /\ 0 <= y p <= H)
            /\ 0 <= z p < 1000
            /\ 0.5 <= brightness p < 1
            /\ (-0.1 <= speedX p <= 0.1 /\ -0.1 <= speedY p <= 0.1)
            /\ 0.1 < alpha (drawParticle W H p time) < 1)
    (init W H random).
Proof.
  intros HW HH Hr. unfold init. apply Forall_forall. intros p Hin.
  apply in_map_iff in Hin. destruct Hin as (i & <- & _).
  set (r := fun k => random (10 * i + k)%nat).
  assert (Hrk : forall k, 0 <= r k < 1) by (intro k; apply Hr).
  set (p := newStar W H r).
  assert (Hz : 0 <= z p < 1000).
  { unfold p, newStar; cbn [z]. js_real. specialize (Hrk 2%nat). lra. }
  assert (Hb : 0.5 <= brightness p < 1).
  { unfold p, newStar; cbn [brightness]. js_real. specialize (Hrk 7%nat). lra. }
  split; [| split; [exact Hz | split; [exact Hb | split]]].
  - unfold p, newStar; cbn [x y]. js_real.
    pose proof (Hrk 0%nat). pose proof (Hrk 1%nat). split; split; nra.
  - unfold p, newStar; cbn [speedX speedY]. js_real.
    pose proof (Hrk 5%nat). pose proof (Hrk 6%nat). lra.
  - pose proof (scaleOf_range p (proj1 Hz)) as [Hs0 Hs1].
    pose proof (scaleOf_near p Hz) as Hs.
    unfold drawParticle, drawWith. cbn [alpha]. js_real. cbn [num_sin RealMath].
    pose proof (SIN_bound (time * twinkleSpeed p + twinkleOffset p)) as [Hlo Hhi].
    set (sine := sin (time * twinkleSpeed p + twinkleOffset p)) in *.
    set (s := scaleOf p) in *. set (b := brightness p) in *.
    assert (Ht : 0.4 <= sine * (3 / 10) + 7 / 10 <= 1) by lra.
    set (tw := sine * (3 / 10) + 7 / 10) in *.
    assert (Hbt : 0.2 <= b * tw < 1) by (unfold b in *; split; nra).
    set (bt := b * tw) in *.
    split; nra.
Qed.

End Creation.

Section Bodies.
Import Overlay ParticleSystem.
Local Open Scope R_scope.

Lemma floor_index (r : R) (n : nat) :
  0 <= r < 1 -> (0 < n)%nat ->
  (0 <= Int_part (r * IZR (Z.of_nat n)) < Z.of_nat n)%Z.
Proof.
  intros [Hlo Hhi] Hn.
  assert (HnR : 0 < IZR (Z.of_nat n)) by (apply IZR_lt; lia).
  destruct (base_Int_part (r * IZR (Z.of_nat n))) as [Hle Hgt].
  split.
  - assert (Hm : (-1 < Int_part (r * IZR (Z.of_nat n)))%Z).
    { apply lt_IZR. assert (0 <= r * IZR (Z.of_nat n)) by (apply Rmult_le_pos; lra). lra. }
    lia.
  - apply lt_IZR. assert (r * IZR (Z.of_nat n) < IZR (Z.of_nat n)) by nra. lra.
Qed.

Lemma pick_in {A : Type} (l : list A) (r : R) :
  0 <= r < 1 -> l <> [] -> exists a, pick l r = Some a /\ In a l.
Proof.
  intros Hr Hl. unfold pick. js_real. cbn [num_floor RealMath].
  assert (Hn : (0 < List.length l)%nat) by (destruct l; [contradiction | cbn; lia]).
  destruct (floor_index Hr Hn) as [H0 Hlt].
  set (i := Int_part (r * IZR (Z.of_nat (List.length l)))) in *.
  replace (i <? 0)%Z with false by (symmetry; apply Z.ltb_ge; exact H0).
  destruct (nth_error l (Z.to_nat i)) as [a |] eqn:Hnth.
  - exists a. split; [reflexivity | eapply nth_error_In; exact Hnth].
  - apply nth_error_None in Hnth. lia.
Qed.

(** X26.  [createParticles] returns exactly [count] bodies.  With draws in
    [0, 1), each is a circle or a triangle of radius in [15, 35) or a square
    of side in [22.5, 52.5), never the option-less fallback of the [switch];
    it carries one of the four colours of the theme, lies on the canvas, and
    starts with a velocity within 1 on each axis and an angular velocity
    within 0.05. *)
Theorem createParticles_in_range (W H : R) (count : nat) (dataMode : option string)
  (random : nat -> R) :
  0 <= W -> 0 <= H -> (forall k, 0 <= random k < 1) ->
  List.length (createParticles W H count dataMode random) = count
  /\ Forall (fun c =>
               match shape c with
               | Circle radius => 15 <= radius < 35
               | Rectangle width height => width = height /\ 22.5 <= width < 52.5
               | Polygon sides radius => sides = 3%nat /\ 15 <= radius < 35
               end
               /\ (exists colour, fillStyle c = Some colour
                                  /\ In colour (getThemeColors dataMode))
               /\ (0 <= x c <= W /\ 0 <= y c <= H)
               /\ (-1 <= velocityX c <= 1 /\ -1 <= velocityY c <= 1)
               /\ -0.05 <= angularVelocity c <= 0.05)
       (createParticles W H count dataMode random).
Proof.
  intros HW HH Hr. unfold createParticles.
  split; [rewrite length_map, length_seq; reflexivity |].
  apply Forall_forall. intros c Hin. apply in_map_iff in Hin.
  destruct Hin as (i & <- & _).
  set (r := fun k => random (8 * i + k)%nat).
  assert (Hrk : forall k, 0 <= r k < 1) by (intro k; apply Hr).
  assert (Hpal : getThemeColors dataMode <> []).
  { intro Hnil. apply (f_equal (@List.length string)) in Hnil.
    destruct (updateParticleColors_palette dataMode) as [Hfour _].
    rewrite Hfour in Hnil. discriminate. }
  unfold createParticle.
  destruct (pick_in (Hrk 4%nat) Hpal) as (colour & Hcol & Hincol).
  destruct (@pick_in string shapes (r 2%nat) (Hrk 2%nat)) as (name & Hname & Hinname);
    [discriminate |].
  rewrite Hname, Hcol.
  pose proof (Hrk 0%nat). pose proof (Hrk 1%nat). pose proof (Hrk 3%nat).
  pose proof (Hrk 5%nat). pose proof (Hrk 6%nat). pose proof (Hrk 7%nat).
  assert (Hcommon :
    (exists colour0, Some colour = Some colour0 /\ In colour0 (getThemeColors dataMode))
    /\ (0 <= r 0%nat * W <= W /\ 0 <= r 1%nat * H <= H)
    /\ (-1 <= (r 5%nat - 5 / 10) * 2 <= 1 /\ -1 <= (r 6%nat - 5 / 10) * 2 <= 1)
    /\ -0.05 <= (r 7%nat - 5 / 10) * (1 / 10) <= 0.05).
  { split; [exists colour; split; [reflexivity | exact Hincol] |].
    split; [split; split; nra |]. split; lra. }
  unfold shapes in Hinname. cbn [In] in Hinname.
  destruct Hinname as [<- | [<- | [<- | []]]];
    cbn [shape x y fillStyle velocityX velocityY angularVelocity]; js_real;
    (split; [| exact Hcommon]).
  - lra.
  - split; [reflexivity | lra].
  - split; [reflexivity | lra].
Qed.

End Bodies.
(** ** The further properties on scenarios *)

Lemma distance_along_x (a b c : R) :
  (b <= a)%R -> sqrt ((a - b) * (a - b) + (c - c) * (c - c)) = (a - b)%R.
Proof.
  intro Hab. replace ((a - b) * (a - b) + (c - c) * (c - c))%R
    with ((a - b) * (a - b))%R by ring.
  apply sqrt_square. lra.
Qed.

Section EntityScenarios.
Import Physics World Title.
Local Open Scope R_scope.

Lemma frame_moves_at_most_witness :
  0 <= frameDelta 16 (sourceAt 500) <= 2
  /\ sqrt ((x (beforeBoundary (frameDelta 16 (sourceAt 500)) (massAt 500 400))
            - x (massAt 500 400))
           * (x (beforeBoundary (frameDelta 16 (sourceAt 500)) (massAt 500 400))
              - x (massAt 500 400))
           + (y (beforeBoundary (frameDelta 16 (sourceAt 500)) (massAt 500 400))
              - y (massAt 500 400))
             * (y (beforeBoundary (frameDelta 16 (sourceAt 500)) (massAt 500 400))
                - y (massAt 500 400)))
     <= maxSpeed (massAt 500 400) * 2.
Proof.
  apply frame_moves_at_most.
  - unfold sourceAt, onMouseMove, newWorld. cbn [lastTime]. js_real. lra.
  - cbn [maxSpeed massAt]. lra.
  - cbn [mass massAt]. lra.
Defined.

Lemma clickForce_outward_witness :
  clickForce 400 300 (massAt 500 300)
  = applyForce ((500 - 400) / (500 - 400) * 10) ((300 - 300) / (500 - 400) * 10)
      (massAt 500 300)
  /\ clickForce 100 300 (massAt 500 300) = massAt 500 300.
Proof.
  destruct (clickForce_outward 400 300 (massAt 500 300)) as [Hnear _].
  destruct (clickForce_outward 100 300 (massAt 500 300)) as [_ Hfar].
  cbn [x y massAt] in Hnear, Hfar.
  rewrite (@distance_along_x 500 400 300) in Hnear by lra.
  rewrite (@distance_along_x 500 100 300) in Hfar by lra.
  split.
  - apply Hnear. lra.
  - apply Hfar. right. lra.
Defined.

Lemma scatter_force_length_witness :
  5 <= 5 + 1 / 2 * 10 < 15
  /\ body (scatterElement 0 (1 / 2) (massAt 500 400)) = body (massAt 500 400).
Proof.
  destruct (@scatter_force_length 0 (1 / 2) (massAt 500 400)) as (_ & _ & Hrange & Hbody).
  - lra.
  - split; [exact Hrange | exact Hbody].
Defined.

End EntityScenarios.

Section CardScenarios.
Import Title.

Lemma cardMass_truthy_witness :
  cardMass PrimFloat.nan = 2%float /\ cardMass 0%float = 2%float
  /\ cardMass 3%float = 3%float.
Proof.
  destruct (cardMass_truthy PrimFloat.nan) as (_ & _ & _ & _ & Hnan).
  destruct (cardMass_truthy 0%float) as (_ & _ & _ & _ & Hzero).
  destruct (cardMass_truthy 3%float) as (_ & _ & _ & Hkept & _).
  split; [apply Hnan; reflexivity |].
  split; [apply Hzero; reflexivity | apply Hkept; reflexivity].
Defined.

End CardScenarios.

Section StarScenarios.
Import Particles Sky.
Local Open Scope R_scope.

Lemma updateParticle_on_canvas_witness :
  0 <= x (updateParticle 100 200 1000 800 (starAt 300 200)) <= 1000
  /\ 0 <= y (updateParticle 100 200 1000 800 (starAt 300 200)) <= 800.
Proof.
  apply updateParticle_on_canvas; [lra | lra |].
  unfold drift. cbn [x y moveTo starAt speedX speedY]. js_real.
  intro Hzero. apply sqrt_eq_0 in Hzero; nra.
Defined.

Lemma mouseInfluence_pushes_away_witness :
  sqrt ((x (mouseInfluence 200 200 (starAt 100 200)) - 100)
        * (x (mouseInfluence 200 200 (starAt 100 200)) - 100)
        + (y (mouseInfluence 200 200 (starAt 100 200)) - 200)
          * (y (mouseInfluence 200 200 (starAt 100 200)) - 200))
  = 0.5 * ((200 - (200 - 100)) / 200)
  /\ mouseInfluence 900 200 (starAt 100 200) = starAt 100 200.
Proof.
  destruct (mouseInfluence_pushes_away 200 200 (starAt 100 200)) as [Hnear _].
  destruct (mouseInfluence_pushes_away 900 200 (starAt 100 200)) as [_ Hfar].
  cbn [x y starAt] in Hnear, Hfar.
  rewrite (@distance_along_x 200 100 200) in Hnear by lra.
  rewrite (@distance_along_x 900 100 200) in Hfar by lra.
  split.
  - apply Hnear. lra.
  - apply Hfar. lra.
Defined.

Lemma drawParticle_bounds_witness :
  0 < scaleOf (starAt 300 200) <= 1
  /\ middleAlpha (drawParticle 1000 800 (starAt 300 200) 0)
     = alpha (drawParticle 1000 800 (starAt 300 200) 0) / 2.
Proof.
  destruct (@drawParticle_bounds 1000 800 0 (starAt 300 200))
    as (Hscale & _ & _ & _ & Hmiddle).
  - cbn [z starAt]. lra.
  - cbn [brightness starAt]. lra.
  - split; [exact Hscale | exact Hmiddle].
Defined.

Lemma init_stars_in_range_witness :
  Forall (fun p => 0.1 < alpha (drawParticle 1000 800 p 0) < 1)
    (init 1000 800 evenDraws).
Proof.
  eapply Forall_impl; [| apply (@init_stars_in_range 1000 800 0 evenDraws)].
  - intros p Hp. apply Hp.
  - lra.
  - lra.
  - intro k. unfold evenDraws. lra.
Defined.

End StarScenarios.

Section OverlayScenarios.
Import Physics Page PhysicsEngine Overlay.
Local Open Scope R_scope.

Lemma resizeCanvas_proportional_witness :
  particles (resizeCanvas viewportR (resizeCanvas halfViewportR oneBodyScene))
  = Some oneBody.
Proof.
  apply (@resizeCanvas_proportional viewportR halfViewportR oneBodyScene oneBody);
    try reflexivity; cbn; lra.
Defined.

Lemma resizeCanvas_through_zero_witness :
  exists ps',
    particles (resizeCanvas flatViewportR oneBodyScene) = Some ps'
    /\ Forall (fun b => positionX b = 0) ps'
    /\ particles (resizeCanvas viewportR (resizeCanvas flatViewportR oneBodyScene))
       = Some ps'.
Proof.
  apply (@resizeCanvas_through_zero flatViewportR viewportR oneBodyScene oneBody);
    try reflexivity; cbn; lra.
Defined.

Lemma throttle_spaces_frames_witness :
  updatesOfRuns false [[1000]; [1005]] = [1000; 1005].
Proof.
  apply (throttle_spaces_frames false []); unfold frameDelay, targetFPS; js_real; lra.
Defined.

Lemma steering_force_witness :
  (exists fx fy,
      mouseForce true {| MouseTracker.x := 100; MouseTracker.y := 0 |}
        {| positionX := 0; positionY := 0 |} = Some (fx, fy)
      /\ sqrt (fx * fx + fy * fy) = 0.0005)
  /\ mouseForce true {| MouseTracker.x := 200; MouseTracker.y := 0 |}
       {| positionX := 0; positionY := 0 |} = None.
Proof.
  destruct (steering_force true {| MouseTracker.x := 100; MouseTracker.y := 0 |}
              {| positionX := 0; positionY := 0 |}) as (Hnear & _ & _).
  destruct (steering_force true {| MouseTracker.x := 200; MouseTracker.y := 0 |}
              {| positionX := 0; positionY := 0 |}) as (_ & Hfar & _).
  cbn [MouseTracker.x MouseTracker.y positionX positionY] in Hnear, Hfar.
  rewrite (@distance_along_x 100 0 0) in Hnear by lra.
  rewrite (@distance_along_x 200 0 0) in Hfar by lra.
  split.
  - destruct Hnear as (fx & fy & Hforce & Hlength & _); [lra |].
    exists fx, fy. split; [exact Hforce | exact Hlength].
  - apply Hfar. right. lra.
Defined.

Lemma keydown_guard_witness :
  onKeydown "Enter" "DIV" (started []) = started []
  /\ onKeydown "Space" "DIV" (started []) = onToggleClick (started [])
  /\ onKeydown "KeyP" "DIV" (started []) = onToggleClick (started []).
Proof.
  destruct (keydown_guard "Enter" "DIV" (started [])) as (_ & _ & Hother & _ & Htoggle).
  split; [apply Hother; discriminate |].
  apply Htoggle; discriminate.
Defined.

Lemma loop_starts_iff_witness :
  startedLoop (homeInteractive true false overlayPage []) = true
  /\ startedLoop (homeInteractive true false emptyPage []) <> true.
Proof.
  split.
  - apply (loop_starts_iff true false overlayPage []). repeat split.
  - intro Hstarted. apply (loop_starts_iff true false emptyPage []) in Hstarted.
    destruct Hstarted as (_ & _ & Hcanvas). discriminate Hcanvas.
Defined.

Lemma updateParticleColors_cycles_witness :
  exists fills',
    updateParticleColors (Some "dark") (Some [None; None; None; None; Some "red"])
    = Some fills'
    /\ nth_error fills' 4 = Some (Some "#4c9aff").
Proof.
  destruct (updateParticleColors_cycles (Some "dark") [None; None; None; None; Some "red"])
    as (_ & _ & fills' & Hsome & _ & Hcolour & _).
  exists fills'. split; [exact Hsome |].
  destruct (Hcolour 4%nat) as (c & Hnth & Hpalette); [cbn; lia |].
  cbn in Hpalette. injection Hpalette as <-. exact Hnth.
Defined.

Lemma session_invariant_witness :
  running (run [ToggleClick; ToggleClick] (started [])) = true
  /\ savedState (run [ToggleClick] (started [])) = Some "true".
Proof.
  destruct (session_invariant [] [ToggleClick; ToggleClick]) as (_ & Hruns & _).
  destruct (session_invariant [] [ToggleClick]) as (_ & _ & Hstored & _).
  split; [apply Hruns; reflexivity | apply Hstored; reflexivity].
Defined.

End OverlayScenarios.

Section BodyScenarios.
Import Overlay ParticleSystem.
Local Open Scope R_scope.

Lemma createParticles_in_range_witness :
  List.length (createParticles 1000 800 50 None evenDraws) = 50%nat
  /\ Forall (fun c => 0 <= x c <= 1000 /\ 0 <= y c <= 800)
       (createParticles 1000 800 50 None evenDraws).
Proof.
  destruct (@createParticles_in_range 1000 800 50 None evenDraws) as [Hcount Hall].
  - lra.
  - lra.
  - intro k. unfold evenDraws. lra.
  - split; [exact Hcount |].
    eapply Forall_impl; [| exact Hall]. intros c Hc. apply Hc.
Defined.

End BodyScenarios.
(** ** Construction and reset of an entity, in exact arithmetic *)

Section ConstructAndReset.
Import Physics World.
Local Open Scope R_scope.

Implicit Types (e : PhysicsEntity (N:=R)) (dt : R).

(** X27.  A constructed entity, its two draws being in [0, 1), sits on the
    centre of its element, which is also its rest position, has nothing
    accumulated, and starts with a velocity within 0.25 on each axis: its
    speed is below the cap of 3, so the first speed limit leaves the velocity
    as drawn. *)
Theorem newEntity_start (rect : DOMRect (N:=R)) (m r1 r2 : R) :
  0 <= r1 < 1 -> 0 <= r2 < 1 ->
  x (newEntity rect m r1 r2) = left rect + width rect / 2
  /\ y (newEntity rect m r1 r2) = top rect + height rect / 2
  /\ originalX (newEntity rect m r1 r2) = x (newEntity rect m r1 r2)
  /\ originalY (newEntity rect m r1 r2) = y (newEntity rect m r1 r2)
  /\ (ax (newEntity rect m r1 r2) = 0 /\ ay (newEntity rect m r1 r2) = 0)
  /\ (-0.25 <= vx (newEntity rect m r1 r2) < 0.25
      /\ -0.25 <= vy (newEntity rect m r1 r2) < 0.25)
  /\ speedOf (newEntity rect m r1 r2) < maxSpeed (newEntity rect m r1 r2)
  /\ limitSpeed (newEntity rect m r1 r2) = newEntity rect m r1 r2.
Proof.
  intros Hr1 Hr2.
  assert (Hv : -0.25 <= vx (newEntity rect m r1 r2) < 0.25
               /\ -0.25 <= vy (newEntity rect m r1 r2) < 0.25).
  { unfold newEntity; cbn [vx vy]. js_real. lra. }
  assert (Hspeed : speedOf (newEntity rect m r1 r2) < maxSpeed (newEntity rect m r1 r2)).
  { unfold speedOf. js_real. destruct Hv as [Hvx Hvy].
    set (wx := vx (newEntity rect m r1 r2)) in *.
    set (wy := vy (newEntity rect m r1 r2)) in *.
    replace (maxSpeed (newEntity rect m r1 r2)) with 3
      by (unfold newEntity; cbn [maxSpeed]; js_real; lra).
    rewrite <- (sqrt_square 3) by lra. apply sqrt_lt_1_alt. nra. }
  repeat split; try (unfold newEntity; cbn; js_real; lra); try apply Hv.
  - exact Hspeed.
  - unfold limitSpeed. unfold speedOf in Hspeed. js_real.
    rewrite Rltb_false; [reflexivity | lra].
Qed.

Lemma scaled_norm (c dx dy : R) :
  0 <= c -> sqrt ((c * dx) * (c * dx) + (c * dy) * (c * dy)) = c * sqrt (dx * dx + dy * dy).
Proof.
  intro Hc.
  replace ((c * dx) * (c * dx) + (c * dy) * (c * dy)) with ((c * c) * (dx * dx + dy * dy))
    by ring.
  rewrite sqrt_mult_alt by nra. rewrite (sqrt_square c Hc). reflexivity.
Qed.

(** X28.  [resetPositions] does not move an entity: it stops it and applies
    the force [0.1 * (rest - position)].  With nothing else accumulated, a
    positive mass and a damping that is not negative, the next integration
    gives it the velocity [c * (rest - position)] with
    [c = (0.1 + 0.0005) / mass * dt * damping], the pull of the reset and the
    weak spring of [update] together, when that is within the speed cap; and
    otherwise a velocity of length the cap, towards the rest position.  In
    both cases the position integration moves it along that vector, and it
    does move towards the rest position when the time step, the damping and
    the cap are positive. *)
Theorem reset_heads_home dt e :
  ax e = 0 -> ay e = 0 ->
  0 < mass e -> 0 <= damping e -> 0 <= maxSpeed e -> 0 <= dt ->
  (x (resetPosition e) = x e /\ y (resetPosition e) = y e
   /\ vx (resetPosition e) = 0 /\ vy (resetPosition e) = 0
   /\ ax (resetPosition e) = (originalX e - x e) * 0.1 / mass e
   /\ ay (resetPosition e) = (originalY e - y e) * 0.1 / mass e)
  /\ exists k,
       (((0.1 + 0.0005) / mass e * dt * damping e)
          * sqrt ((originalX e - x e) * (originalX e - x e)
                  + (originalY e - y e) * (originalY e - y e)) <= maxSpeed e ->
        k = (0.1 + 0.0005) / mass e * dt * damping e)
       /\ (maxSpeed e
           < ((0.1 + 0.0005) / mass e * dt * damping e)
             * sqrt ((originalX e - x e) * (originalX e - x e)
                     + (originalY e - y e) * (originalY e - y e)) ->
           k = maxSpeed e / sqrt ((originalX e - x e) * (originalX e - x e)
                                  + (originalY e - y e) * (originalY e - y e)))
       /\ 0 <= k
       /\ (0 < dt -> 0 < damping e -> 0 < maxSpeed e -> 0 < k)
       /\ vx (beforeBoundary dt (resetPosition e)) = k * (originalX e - x e)
       /\ vy (beforeBoundary dt (resetPosition e)) = k * (originalY e - y e)
       /\ x (beforeBoundary dt (resetPosition e)) - x e = k * dt * (originalX e - x e)
       /\ y (beforeBoundary dt (resetPosition e)) - y e = k * dt * (originalY e - y e).
Proof.
  intros Hax Hay Hm Hd Hmax Hdt.
  assert (Hne : mass e <> 0) by lra.
  replace 0.1 with (1 / 10) by lra. replace 0.0005 with (5 / 10000) by lra.
  split.
  { unfold resetPosition, applyForce.
    cbn [x y vx vy ax ay mass originalX originalY setVelocity setAcceleration].
    js_real. rewrite Hax, Hay. repeat split; try reflexivity; field; exact Hne. }
  unfold beforeBoundary.
  set (e1 := applyDamping (integrateVelocity dt (springForce (resetPosition e)))).
  set (c := (1 / 10 + 5 / 10000) / mass e * dt * damping e).
  set (dist := sqrt ((originalX e - x e) * (originalX e - x e)
                     + (originalY e - y e) * (originalY e - y e))).
  assert (Hc : 0 <= c).
  { unfold c. apply Rmult_le_pos; [apply Rmult_le_pos |]; try assumption.
    apply Rlt_le, Rdiv_lt_0_compat; lra. }
  assert (Hcpos : 0 < dt -> 0 < damping e -> 0 < c).
  { intros Hdt' Hd'. unfold c. apply Rmult_lt_0_compat; [apply Rmult_lt_0_compat |];
      try assumption. apply Rdiv_lt_0_compat; lra. }
  assert (Hdist : 0 <= dist) by apply sqrt_pos.
  assert (Hv1 : vx e1 = c * (originalX e - x e) /\ vy e1 = c * (originalY e - y e)).
  { unfold e1, applyDamping, integrateVelocity, springForce, resetPosition, applyForce,
      springStrength.
    cbn [vx vy ax ay x y mass damping originalX originalY setVelocity setAcceleration].
    js_real. rewrite Hax, Hay. unfold c. split; field; exact Hne. }
  destruct Hv1 as [Hvx Hvy].
  assert (Hx1 : x e1 = x e) by reflexivity.
  assert (Hy1 : y e1 = y e) by reflexivity.
  assert (Hmax1 : maxSpeed e1 = maxSpeed e) by reflexivity.
  assert (Hspeed : sqrt (vx e1 * vx e1 + vy e1 * vy e1) = c * dist).
  { rewrite Hvx, Hvy. apply scaled_norm. exact Hc. }
  assert (Hlim : exists k,
            (c * dist <= maxSpeed e -> k = c)
            /\ (maxSpeed e < c * dist -> k = maxSpeed e / dist)
            /\ 0 <= k
            /\ (0 < dt -> 0 < damping e -> 0 < maxSpeed e -> 0 < k)
            /\ vx (limitSpeed e1) = k * (originalX e - x e)
            /\ vy (limitSpeed e1) = k * (originalY e - y e)
            /\ x (limitSpeed e1) = x e /\ y (limitSpeed e1) = y e).
  { unfold limitSpeed. js_real. rewrite Hspeed, Hmax1.
    destruct (Rltb (maxSpeed e) (c * dist)) eqn:Hfast.
    - apply Rltb_spec in Hfast.
      assert (Hcd : 0 < c * dist) by lra.
      assert (Hc0 : 0 < c) by nra.
      assert (Hd0 : 0 < dist) by nra.
      exists (maxSpeed e / dist).
      cbn [vx vy x y setVelocity]. rewrite Hvx, Hvy.
      split; [intro Hle; lra |]. split; [reflexivity |].
      split; [apply Rmult_le_pos; [exact Hmax | apply Rlt_le, Rinv_0_lt_compat; exact Hd0] |].
      split; [intros _ _ Hmax'; apply Rdiv_lt_0_compat; assumption |].
      repeat split; try assumption; field; lra.
    - unfold Rltb in Hfast. destruct (Rlt_dec (maxSpeed e) (c * dist)); [discriminate |].
      exists c. split; [reflexivity |]. split; [intro Hlt; lra |].
      split; [exact Hc |]. split; [intros Hdt' Hd' _; apply Hcpos; assumption |].
      repeat split; assumption. }
  destruct Hlim as (k & Hslow & Hfast & Hk & Hkpos & Hkx & Hky & Hx2 & Hy2).
  exists k. split; [exact Hslow |]. split; [exact Hfast |]. split; [exact Hk |].
  split; [exact Hkpos |].
  unfold integratePosition. cbn [vx vy x y setPosition]. js_real.
  rewrite Hkx, Hky, Hx2, Hy2. repeat split; ring.
Qed.

Lemma newEntity_start_witness :
  x (newEntity orbRect 2 (1 / 2) (1 / 4)) = left orbRect + width orbRect / 2
  /\ limitSpeed (newEntity orbRect 2 (1 / 2) (1 / 4)) = newEntity orbRect 2 (1 / 2) (1 / 4).
Proof.
  destruct (@newEntity_start orbRect 2 (1 / 2) (1 / 4))
    as (Hx & _ & _ & _ & _ & _ & _ & Hlimit); [lra | lra |].
  split; [exact Hx | exact Hlimit].
Defined.

Lemma reset_heads_home_witness :
  ax (resetPosition strayed) = (500 - 300) * 0.1 / 1
  /\ vx (beforeBoundary 1 (resetPosition strayed)) = 3 / (500 - 300) * (500 - 300)
  /\ vy (beforeBoundary 1 (resetPosition strayed)) = 3 / (500 - 300) * (400 - 400).
Proof.
  destruct (@reset_heads_home 1 strayed)
    as ((_ & _ & _ & _ & Hax & _) & k & _ & Hfast & _ & _ & Hvx & Hvy & _);
    try (unfold strayed, massAt; cbn; lra).
  unfold strayed, massAt in *.
  cbn [x y mass damping maxSpeed originalX originalY setPosition] in *.
  rewrite (@distance_along_x 500 300 400) in Hfast by lra.
  rewrite Hvx, Hvy, Hfast by lra.
  split; [exact Hax | split; reflexivity].
Defined.

End ConstructAndReset.

(** ** The colour [render] fills with *)

Section RenderColour.
Import Overlay.

Lemma palette_colours (dataMode : option string) (c : string) :
  In c (getThemeColors dataMode) -> c <> "".
Proof.
  assert (Hall : Forall (fun c => c <> "") (getThemeColors dataMode)).
  { unfold getThemeColors.
    destruct dataMode as [m |]; [| repeat constructor; discriminate].
    repeat (match goal with
            | |- context [match ?a with Ascii.Ascii _ _ _ _ _ _ _ _ => _ end] => destruct a
            | |- context [match ?b with true => _ | false => _ end] => destruct b
            | |- context [match ?v with EmptyString => _ | String _ _ => _ end] => destruct v
            end; try (repeat constructor; discriminate)). }
  intro Hin. exact (proj1 (Forall_forall _ _) Hall c Hin).
Qed.

(** X29.  After a change of theme, [render] fills particle [i] with the
    colour [i mod 4] of the palette [updateParticleColors] read, whatever the
    theme is when it renders: the fallback [colors[0]] of [render] is taken
    only for a particle with no fill style or an empty one, and in every case
    [render] has a colour that is not empty. *)
Theorem render_after_theme_change (dataMode rendering : option string)
  (fills : list (option string)) (fill : option string) (i : nat) :
  (i < List.length fills)%nat ->
  (exists fills' c,
      updateParticleColors dataMode (Some fills) = Some fills'
      /\ nth_error fills' i = Some (Some c)
      /\ nth_error (getThemeColors dataMode) (i mod 4) = Some c
      /\ renderColour rendering (Some c) = Some c)
  /\ (exists c, renderColour rendering fill = Some c /\ c <> "")
  /\ renderColour rendering None = nth_error (getThemeColors rendering) 0
  /\ renderColour rendering (Some "") = nth_error (getThemeColors rendering) 0.
Proof.
  intro Hi.
  destruct (updateParticleColors_palette dataMode) as [Hfour _].
  destruct (recolour_spec (getThemeColors dataMode) fills 0) as (_ & Hnth & _).
  assert (Hfirst : exists c, nth_error (getThemeColors rendering) 0 = Some c /\ c <> "").
  { destruct (updateParticleColors_palette rendering) as [Hfour' _].
    destruct (nth_error (getThemeColors rendering) 0) as [c |] eqn:Hc.
    - exists c. split; [reflexivity |].
      apply (@palette_colours rendering). eapply nth_error_In. exact Hc.
    - apply nth_error_None in Hc. rewrite Hfour' in Hc. lia. }
  split; [| split; [| split; reflexivity]].
  - destruct (nth_error (getThemeColors dataMode) (i mod 4)) as [c |] eqn:Hc.
    + exists (recolour (getThemeColors dataMode) 0 fills), c.
      split; [reflexivity |]. rewrite (Hnth i Hi), Hfour. cbn [Nat.add]. rewrite Hc.
      split; [reflexivity |]. split; [reflexivity |].
      assert (Hne : c <> "")
        by (apply (@palette_colours dataMode); eapply nth_error_In; exact Hc).
      unfold renderColour. destruct c; [contradiction | reflexivity].
    + apply nth_error_None in Hc. rewrite Hfour in Hc.
      pose proof (Nat.mod_upper_bound i 4). lia.
  - unfold renderColour. destruct fill as [[| a c] |]; try exact Hfirst.
    exists (String a c). split; [reflexivity | discriminate].
Qed.

Lemma render_after_theme_change_witness :
  exists fills' c,
    updateParticleColors (Some "dark") (Some [None; Some "red"]) = Some fills'
    /\ nth_error fills' 1 = Some (Some c)
    /\ nth_error (getThemeColors (Some "dark")) (1 mod 4) = Some c
    /\ renderColour None (Some c) = Some c.
Proof.
  destruct (@render_after_theme_change (Some "dark") None [None; Some "red"] None 1)
    as [Hfill _]; [cbn; lia |].
  exact Hfill.
Defined.

End RenderColour.
(** ** Doubles: the order the comparisons decide *)

Section FloatOrder.

Lemma SFcompare_antisym (a b : spec_float) :
  SFcompare b a = option_map CompOpp (SFcompare a b).
Proof.
  destruct a as [sa | sa | | sa ma ea], b as [sb | sb | | sb mb eb];
    try reflexivity;
    try (destruct sa; reflexivity); try (destruct sb; reflexivity);
    try (destruct sa, sb; reflexivity).
  cbn [SFcompare option_map].
  assert (Hm : Pos.compare_cont Eq mb ma = CompOpp (Pos.compare_cont Eq ma mb))
    by (rewrite Pos.compare_cont_antisym; reflexivity).
  rewrite (Z.compare_antisym ea eb), Hm.
  destruct sa, sb; try reflexivity;
    destruct (ea ?= eb)%Z; cbn [CompOpp]; try reflexivity;
    destruct (Pos.compare_cont Eq ma mb); reflexivity.
Qed.

Lemma SFcompare_refl (a : spec_float) :
  SFcompare a a = match a with S754_nan => None | _ => Some Eq end.
Proof.
  destruct a as [sa | sa | | sa ma ea]; cbn;
    try (destruct sa; reflexivity); try reflexivity.
  rewrite Z.compare_refl, Pos.compare_cont_refl. destruct sa; reflexivity.
Qed.

Lemma is_nan_Prim2SF (a : float) :
  PrimFloat.is_nan a = match Prim2SF a with S754_nan => true | _ => false end.
Proof.
  unfold PrimFloat.is_nan. rewrite FloatAxioms.eqb_spec. unfold SFeqb.
  rewrite SFcompare_refl. destruct (Prim2SF a); reflexivity.
Qed.

(** Of two doubles that are not NaN, the first is less than the second or the
    second is at most the first. *)
Lemma float_not_lt (a b : float) :
  PrimFloat.is_nan a = false -> PrimFloat.is_nan b = false ->
  PrimFloat.ltb a b = false -> PrimFloat.leb b a = true.
Proof.
  rewrite !is_nan_Prim2SF, ltb_spec, leb_spec. unfold SFltb, SFleb.
  rewrite (SFcompare_antisym (Prim2SF a) (Prim2SF b)).
  destruct (Prim2SF a) as [sa | sa | | sa ma ea] eqn:Ea; try discriminate;
    destruct (Prim2SF b) as [sb | sb | | sb mb eb] eqn:Eb; try discriminate;
    intros _ _; destruct (SFcompare _ _) as [[| |] |] eqn:Hc; cbn;
    try congruence; try reflexivity; cbn in Hc; discriminate.
Qed.

Lemma float_le_not_nan (a b : float) :
  PrimFloat.leb a b = true -> PrimFloat.is_nan a = false /\ PrimFloat.is_nan b = false.
Proof.
  rewrite !is_nan_Prim2SF, leb_spec. unfold SFleb.
  destruct (Prim2SF a), (Prim2SF b); cbn; try discriminate; intros _; split; reflexivity.
Qed.

Lemma float_le_refl (a : float) :
  PrimFloat.is_nan a = false -> PrimFloat.leb a a = true.
Proof.
  rewrite is_nan_Prim2SF, leb_spec. unfold SFleb. rewrite SFcompare_refl.
  destruct (Prim2SF a); congruence.
Qed.

(** Every comparison with NaN is false. *)
Lemma float_nan_not_lt (a b : float) :
  PrimFloat.is_nan a = true -> PrimFloat.ltb a b = false /\ PrimFloat.ltb b a = false.
Proof.
  rewrite is_nan_Prim2SF, !ltb_spec. unfold SFltb.
  destruct (Prim2SF a); try discriminate. intros _.
  split; [reflexivity |]. destruct (Prim2SF b); reflexivity.
Qed.

(** The two tests of one axis of the boundary check: what is not NaN ends
    between the limits, and NaN passes both tests. *)
Lemma clamp_axis (p lo hi : float) :
  PrimFloat.leb lo hi = true ->
  PrimFloat.is_nan
    (if PrimFloat.ltb p lo then lo else if PrimFloat.ltb hi p then hi else p)
  = PrimFloat.is_nan p
  /\ (PrimFloat.is_nan p = false ->
      PrimFloat.leb lo
        (if PrimFloat.ltb p lo then lo else if PrimFloat.ltb hi p then hi else p) = true
      /\ PrimFloat.leb
           (if PrimFloat.ltb p lo then lo else if PrimFloat.ltb hi p then hi else p) hi
         = true).
Proof.
  intro Hlim. destruct (@float_le_not_nan lo hi Hlim) as [Hlo Hhi].
  destruct (PrimFloat.is_nan p) eqn:Hp.
  - destruct (@float_nan_not_lt p lo Hp) as [-> _].
    destruct (@float_nan_not_lt p hi Hp) as [_ ->].
    split; [exact Hp | discriminate].
  - destruct (PrimFloat.ltb p lo) eqn:Hleft.
    + split; [exact Hlo |]. intros _. split; [apply float_le_refl; exact Hlo | exact Hlim].
    + destruct (PrimFloat.ltb hi p) eqn:Hright.
      * split; [exact Hhi |]. intros _.
        split; [exact Hlim | apply float_le_refl; exact Hhi].
      * split; [exact Hp |]. intros _.
        split; apply float_not_lt; assumption.
Qed.

End FloatOrder.

(** ** Doubles: containment *)

Section ContainmentInDoubles.
Import Physics World.
Local Open Scope js_scope.

Implicit Types (e : PhysicsEntity (N:=float)) (win : Window (N:=float)) (dt : float).

Lemma bounceX_x win e :
  x (bounceX win e)
  = if PrimFloat.ltb (x e) margin then margin
    else if PrimFloat.ltb (innerWidth win - margin) (x e) then innerWidth win - margin
    else x e.
Proof.
  unfold bounceX. cbn [num_lt Float64].
  destruct (PrimFloat.ltb (x e) margin); [reflexivity |].
  destruct (PrimFloat.ltb _ (x e)); reflexivity.
Qed.

Lemma bounceY_y win e :
  y (bounceY win e)
  = if PrimFloat.ltb (y e) margin then margin
    else if PrimFloat.ltb (innerHeight win - margin) (y e) then innerHeight win - margin
    else y e.
Proof.
  unfold bounceY. cbn [num_lt Float64].
  destruct (PrimFloat.ltb (y e) margin); [reflexivity |].
  destruct (PrimFloat.ltb _ (y e)); reflexivity.
Qed.

(** C9, as the program computes.  In a window whose right and bottom limits
    are not below the margin, each coordinate of the position after a full
    [update] is NaN exactly when the position integration made it NaN, and
    otherwise lies between the margin and the limit: whatever the state, the
    mass and the time delta, NaN is the only way out of the box.  The
    operations that only apply forces leave the position as it is. *)
Theorem update_contained_unless_nan win dt e :
  num_le margin (innerWidth win - margin) = true ->
  num_le margin (innerHeight win - margin) = true ->
  (PrimFloat.is_nan (x (update win dt e)) = PrimFloat.is_nan (x (beforeBoundary dt e))
   /\ PrimFloat.is_nan (y (update win dt e)) = PrimFloat.is_nan (y (beforeBoundary dt e)))
  /\ (PrimFloat.is_nan (x (update win dt e)) = false ->
      num_le margin (x (update win dt e)) = true
      /\ num_le (x (update win dt e)) (innerWidth win - margin) = true)
  /\ (PrimFloat.is_nan (y (update win dt e)) = false ->
      num_le margin (y (update win dt e)) = true
      /\ num_le (y (update win dt e)) (innerHeight win - margin) = true)
  /\ (forall (w : PhysicsWorld (N:=float)) (other : PhysicsEntity (N:=float))
        (fx fy : float),
        position (applyForce fx fy e) = position e
        /\ position (applyGravity w e) = position e
        /\ position (fst (repelPair e other)) = position e
        /\ position (snd (repelPair other e)) = position e
        /\ position (clickForce fx fy e) = position e
        /\ position (resetPosition e) = position e).
Proof.
  intros HW HH. cbn [num_le Float64] in *.
  assert (Hx : x (update win dt e) = x (bounceX win (beforeBoundary dt e))).
  { unfold update, boundary. cbn [x resetAcceleration setAcceleration].
    apply bounceY_x. }
  assert (Hy : y (update win dt e) = y (bounceY win (bounceX win (beforeBoundary dt e))))
    by reflexivity.
  rewrite Hx, Hy, bounceX_x, bounceY_y, bounceX_y.
  destruct (@clamp_axis (x (beforeBoundary dt e)) _ _ HW) as [Hnx Hinx].
  destruct (@clamp_axis (y (beforeBoundary dt e)) _ _ HH) as [Hny Hiny].
  split; [split; assumption |].
  split; [intro Hp; apply Hinx; rewrite <- Hnx; exact Hp |].
  split; [intro Hp; apply Hiny; rewrite <- Hny; exact Hp |].
  intros w other fx fy. unfold position.
  pose proof (applyGravity_body w e) as Hg.
  pose proof (clickForce_body fx fy e) as Hc.
  destruct (repelPair_body e other) as [Hr1 _].
  destruct (repelPair_body other e) as [_ Hr2].
  unfold body in Hg, Hc, Hr1, Hr2.
  repeat split; try reflexivity; congruence.
Qed.

Lemma update_contained_unless_nan_witness :
  (num_le margin (x (update viewport 1%float thrownUpLeft)) = true
   /\ num_le (x (update viewport 1%float thrownUpLeft)) (innerWidth viewport - margin) = true)
  /\ (num_le margin (y (update viewport 1%float thrownDownRight)) = true
      /\ num_le (y (update viewport 1%float thrownDownRight)) (innerHeight viewport - margin)
         = true).
Proof.
  destruct (@update_contained_unless_nan viewport 1%float thrownUpLeft)
    as (_ & Hx & _); [reflexivity | reflexivity |].
  destruct (@update_contained_unless_nan viewport 1%float thrownDownRight)
    as (_ & _ & Hy & _); [reflexivity | reflexivity |].
  split; [apply Hx | apply Hy]; reflexivity.
Defined.

End ContainmentInDoubles.

(** ** Doubles: the inputs on which the claims fail *)

Section RoundedDistances.
Import Physics World.
Local Open Scope float_scope.
#[local] Set Warnings "-inexact-float".

(** C1 at doubles.  The entity at [(300, 300.0000001)] is farther than 100
    and nearer than 300 from the pointer at [(400, 300)], in exact arithmetic
    on these doubles; [Math.sqrt] returns 100 for the distance, so the test
    [distance > 100] fails and the entity is pushed away from the pointer
    with the repulsive magnitude 2, not drawn to it with 0.3. *)
Lemma attraction_band_by_rounded_distance :
  x justOutside = 300 /\ y justOutside = 300.00000010000002
  /\ exactDistance (x justOutside) (y justOutside) 400 300 100 = Some Gt
  /\ exactDistance (x justOutside) (y justOutside) 400 300 300 = Some Lt
  /\ distanceTo 400 300 justOutside = 100
  /\ applyGravity (pointerAt 400 300) justOutside
     = applyForce (-2) 2.0000004496978362e-09 justOutside
  /\ PrimFloat.ltb (ax (applyGravity (pointerAt 400 300) justOutside)) 0 = true.
Proof. vm_compute. repeat split. Qed.

(** C8 at doubles.  The entities at [(300, 100.00000000000001)] and
    [(390, 220)] are less than 150 apart and not in the same place, in exact
    arithmetic on these doubles; [Math.sqrt] returns 150 for the distance, so
    the test [distance < 150] fails and the pass applies no force to either. *)
Lemma repulsion_band_by_rounded_distance :
  exactDistance (x pairA) (y pairA) (x pairB) (y pairB) 150 = Some Lt
  /\ exactDistance (x pairA) (y pairA) (x pairB) (y pairB) 0 = Some Gt
  /\ distanceTo (x pairB) (y pairB) pairA = 150
  /\ repelPair pairA pairB = (pairA, pairB)
  /\ applyEntityRepulsion [pairA; pairB] = [pairA; pairB].
Proof. vm_compute. repeat split. Qed.

(** C9 at doubles.  A card with [data-mass="Infinity"] keeps that mass; 100
    from the pointer the field force is infinite and [applyForce] divides it
    by the mass: the acceleration is NaN, and after the frame so is the
    position.  No boundary test fires, in this frame or the next: the card is
    not in the margin box and never comes back to it. *)
Lemma infinite_mass_leaves_the_box :
  mass heavyCard = infinity
  /\ map position (entities heavyPage) = [(500, 400)]
  /\ map (fun e => (PrimFloat.is_nan (x e), PrimFloat.is_nan (y e)))
       (entities (worldUpdate viewport 16 heavyPage)) = [(true, true)]
  /\ map (fun e => (num_le margin (x e), num_le (x e) (innerWidth viewport - margin)%js,
                    num_le margin (y e), num_le (y e) (innerHeight viewport - margin)%js))
       (entities (worldUpdate viewport 16 heavyPage)) = [(false, false, false, false)]
  /\ map (fun e => (PrimFloat.is_nan (x e), PrimFloat.is_nan (y e)))
       (entities (worldUpdate viewport 32 (worldUpdate viewport 16 heavyPage)))
     = [(true, true)].
Proof. vm_compute. repeat split. Qed.

(** C2 at doubles, besides the rounding of the clamp.  A card with
    [data-mass="1e-320"] keeps that mass; a click gives it an infinite
    acceleration, and in the next frame the clamp divides an infinite velocity
    by an infinite speed: the velocity is NaN, of no magnitude at all. *)
Lemma tiny_mass_velocity_nan :
  PrimFloat.ltb 0 (mass lightCard) = true
  /\ map (fun e => ax e) (entities (applyClickForce 400 300 lightPage)) = [infinity]
  /\ map (fun e => (PrimFloat.is_nan (vx e), PrimFloat.is_nan (vy e)))
       (entities (worldUpdate viewport 16 (applyClickForce 400 300 lightPage)))
     = [(true, true)]
  /\ map (fun e => num_le (speedOf e) (maxSpeed e))
       (entities (worldUpdate viewport 16 (applyClickForce 400 300 lightPage)))
     = [false].
Proof. vm_compute. repeat split. Qed.

End RoundedDistances.
